(** * dxagent: health engine and subservice dependency graph

    A shallow embedding of [agent/assurance/health.py] (the health engine,
    the subservice dependency graph and its bottom-up scoring) and of the
    cycle driver [DXAgent.process] of [agent/dxagent.py].

    Python objects become records, the shared metric store [_data] becomes a
    nested finite map that is threaded explicitly through every method, and
    a raised exception becomes the [Raise] outcome of the [Exc] monad. *)

From stdpp Require Import gmap strings list fin_maps.
From Stdlib Require Import ZArith Lia Ascii.

Set Warnings "-register-all,-clear-no-such-hyp".
Local Open Scope Z_scope.

(** ** Exceptions *)

Inductive PyErr :=
| KeyError (key : string)
| TypeError
| AttributeError
| RuleException (msg : string).

Inductive Exc (A : Type) :=
| OK (a : A)
| Raise (e : PyErr).
Arguments OK {A} a.
Arguments Raise {A} e.

Global Instance Exc_ret : MRet Exc := λ A a, OK a.
Global Instance Exc_bind : MBind Exc := λ A B k m,
  match m with
  | OK a => k a
  | Raise e => Raise e
  end.

Definition is_OK {A} (m : Exc A) : Prop := ∃ a, m = OK a.

(** ** Samples and ring buffers *)

(** The values producers append to ring buffers.  Floating-point samples
    only flow through the per-path metric adapters, which are kept abstract
    below, so they carry no payload the model inspects. *)
Inductive PyVal :=
| PNone
| PBool (b : bool)
| PInt (z : Z)
| PStr (s : string).

(** [v == s] for a string literal [s]: values of another type are unequal. *)
Definition py_eq_str (v : PyVal) (s : string) : bool :=
  match v with
  | PStr s' => bool_decide (s' = s)
  | _ => false
  end.

Inductive PyType := Tint | Tfloat | Tstr | Tbool.

(** Modelled from the spec: the ring buffer of [agent/core/rbuffer.py]
    (absent).  §3/§4.B: an ordered, bounded sequence of samples of one typed
    metric, constructed from a value type, a unit and a counter flag;
    [append] evicts the oldest sample when full and [top()] is the most
    recent sample.  Samples are kept oldest first. *)
Record RingBuffer := mkRingBuffer {
  rb_type : PyType;
  rb_unit : string;
  rb_counter : bool;
  rb_capacity : nat;
  rb_samples : list PyVal
}.

Definition rb_is_empty (rb : RingBuffer) : bool :=
  match rb_samples rb with [] => true | _ => false end.

(** Modelled from the spec: [RingBuffer._top], the most recent sample
    ([None] on an empty buffer). *)
Definition _top (rb : RingBuffer) : PyVal :=
  default PNone (last (rb_samples rb)).

(** Modelled from the spec: [RingBuffer.append], evicting the oldest sample
    on overflow. *)
Definition rb_append (rb : RingBuffer) (v : PyVal) : RingBuffer :=
  let l := rb_samples rb ++ [v] in
  mkRingBuffer (rb_type rb) (rb_unit rb) (rb_counter rb) (rb_capacity rb)
    (drop (length l - rb_capacity rb)%nat l).

(** ** Severity and symptoms *)

(** Modelled from the spec: the [Severity] enumeration of
    [agent/core/rbuffer.py] (absent).  §3: green < orange < red, each with a
    fixed integer weight (green=0, orange=50, red=100).  [_read_rule_file]
    looks members up by upper-cased name. *)
Inductive Severity := GREEN | ORANGE | RED.

Definition Severity_weight (s : Severity) : Z :=
  match s with
  | GREEN => 0
  | ORANGE => 50
  | RED => 100
  end.

(** [Severity[key]]: enum lookup by member name. *)
Definition Severity_getitem (key : string) : Exc Severity :=
  if bool_decide (key = "GREEN") then OK GREEN
  else if bool_decide (key = "ORANGE") then OK ORANGE
  else if bool_decide (key = "RED") then OK RED
  else Raise (KeyError key).

(** A symptom as the engine sees it: the constructor arguments
    [(name, path, severity, rule)] and the [fullname] of the bound node
    ([None] for the dry run of the rule loader). *)
Record Symptom := mkSymptom {
  s_name : string;
  s_path : string;
  s_severity : Severity;
  s_rule : string;
  s_node : option string
}.

(** Modelled from the spec: [Symptom.weight] of [agent/assurance/symptoms.py]
    (absent); §4.F: a firing symptom subtracts its severity weight. *)
Definition Symptom_weight (s : Symptom) : Z := Severity_weight (s_severity s).

(** ** The metric store *)

(** [_data]: a dict whose values are nested dicts, ring buffers, the list of
    positive symptoms or the dict of health scores. *)
Inductive Value :=
| VDict (d : gmap string Value)
| VRb (rb : RingBuffer)
| VSymptoms (l : list Symptom)
| VScores (m : gmap string Z).

Abbreviation Store := (gmap string Value).

(** [d[k]] on a value: [KeyError] when the key is absent, [TypeError] when
    the value is not subscriptable by a string. *)
Definition getitem (d : gmap string Value) (k : string) : Exc Value :=
  match d !! k with
  | Some v => OK v
  | None => Raise (KeyError k)
  end.

Definition as_dict (v : Value) : Exc (gmap string Value) :=
  match v with
  | VDict d => OK d
  | _ => Raise TypeError
  end.

Definition as_rb (v : Value) : Exc RingBuffer :=
  match v with
  | VRb rb => OK rb
  | _ => Raise AttributeError
  end.

(** [d[k]] where the result is used as a dict. *)
Definition getdict (d : gmap string Value) (k : string) : Exc (gmap string Value) :=
  v ← getitem d k; as_dict v.

(** [d.keys()] on a store value: only dicts have keys. *)
Definition keys (v : Value) : Exc (gset string) :=
  match v with
  | VDict d => OK (dom d)
  | VScores m => OK (dom m)
  | _ => Raise AttributeError
  end.

(** ** Subservices *)

(** The Python class of a node, as tested by [isinstance]. *)
Inductive PyClass := CSubservice | CNode | CBaremetal | CVM | CKBNet.

Global Instance PyClass_eq_dec : EqDecision PyClass.
Proof. solve_decision. Defined.

(** A subservice object together with its subtree.  [backend] is the
    [hypervisor] attribute of a [VM], the [framework] attribute of a
    [KBNet], and empty otherwise.  The [parent] pointer is only read for the
    parent's [fullname], [path], [name] and backend; those are passed down
    where the code follows it. *)
Inductive Subservice := mkSubservice {
  cls : PyClass;
  _type : string;
  name : string;
  impacting : bool;
  dependencies : list Subservice;
  active : bool;
  fullname : string;
  path : string;
  health_score : Z;
  symptoms : list Symptom;
  positive_symptoms : list Symptom;
  backend : string
}.

Definition set_dependencies (deps : list Subservice) (n : Subservice) : Subservice :=
  mkSubservice (cls n) (_type n) (name n) (impacting n) deps (active n)
    (fullname n) (path n) (health_score n) (symptoms n) (positive_symptoms n)
    (backend n).

Definition set_active (a : bool) (n : Subservice) : Subservice :=
  mkSubservice (cls n) (_type n) (name n) (impacting n) (dependencies n) a
    (fullname n) (path n) (health_score n) (symptoms n) (positive_symptoms n)
    (backend n).

Definition set_scoring (deps : list Subservice) (hs : Z) (pos : list Symptom)
    (n : Subservice) : Subservice :=
  mkSubservice (cls n) (_type n) (name n) (impacting n) deps (active n)
    (fullname n) (path n) hs (symptoms n) pos (backend n).

(** Every node of a subtree, in the order of [HealthEngine.__iter__]. *)
Fixpoint subservices (n : Subservice) : list Subservice :=
  n :: flat_map subservices (dependencies n).

(** ** Bottom-up health aggregation *)

Section Model.

(** [Symptom.check(data)] of [agent/assurance/symptoms.py] (absent): the
    evaluation of the rule over the store. *)
Variable check : Symptom → Store → bool.

(** The state of the first loop of [update_symptoms]:
    [(self.health_score, positives, health_scores)]. *)
Definition AggState : Type := Z * list Symptom * gmap string Z.

(** [for subservice in self.dependencies: ...], for a given recursive
    call [upd].  [health_scores.update(hs)] lets the child's entries
    win. *)
Definition deps_loop (upd : Subservice → Subservice * (list Symptom * gmap string Z)) :
    list Subservice → AggState → list Subservice * AggState :=
  fix loop deps st :=
    match deps with
    | [] => ([], st)
    | subservice :: rest =>
        let '(score, positives, health_scores) := st in
        let '(subservice', (p, hs)) := upd subservice in
        let positives := positives ++ p in
        let health_scores := hs ∪ health_scores in
        let score :=
          if impacting subservice' then
            let subservice_malus := 100 - health_score subservice' in
            Z.max 0 (score - subservice_malus)
          else score in
        let '(rest', st') := loop rest (score, positives, health_scores) in
        (subservice' :: rest', st')
    end.

(** [for symptom in self.symptoms: ...] on
    [(self.positive_symptoms, self.health_score)]. *)
Definition symptoms_loop (data : Store) :
    list Symptom → list Symptom * Z → list Symptom * Z :=
  fix loop syms st :=
    match syms with
    | [] => st
    | symptom :: rest =>
        let '(positive, score) := st in
        if check symptom data then
          loop rest (positive ++ [symptom], Z.max 0 (score - Symptom_weight symptom))
        else loop rest (positive, score)
    end.

(** [Subservice.update_symptoms]: returns the updated node and the pair
    [(positives, health_scores)]. *)
Fixpoint update_symptoms (data : Store) (self : Subservice) {struct self} :
    Subservice * (list Symptom * gmap string Z) :=
  let '(deps', (score, positives, health_scores)) :=
    deps_loop (update_symptoms data) (dependencies self) (100, [], ∅) in
  let '(positive_symptoms, score) :=
    symptoms_loop data (symptoms self) ([], score) in
  let positives := positives ++ positive_symptoms in
  let health_scores := <[fullname self := score]> health_scores in
  (set_scoring deps' score positive_symptoms self, (positives, health_scores)).

(** ** Engine configuration and constructors *)

(** One record of [metrics_lookup]: three parallel lists. *)
Record MetricsRec := mkMetricsRec {
  names : list string;
  types : list PyType;
  units : list string
}.

(** The arguments [(name, path, severity, rule)] a symptom is built from.
    A field read from a row shorter than the header is [None]. *)
Definition SymptomArgs : Type :=
  option string * option string * Severity * option string.

(** What the engine holds once its two descriptor files are loaded:
    [metrics_lookup], the keys of [metrics], [_symptoms_args], and
    [sysinfo.system] / [sysinfo.node]. *)
Record EngineConf := mkEngineConf {
  metrics_lookup : gmap string MetricsRec;
  metrics : list string;
  _symptoms_args : list SymptomArgs;
  system : string;
  node : string
}.

(** Capacity of a freshly built ring buffer (samples per minute). *)
Variable capacity : nat.

(** Modelled from the spec: [init_rb_dict] of [agent/core/rbuffer.py]
    (absent).  §4.B: takes a list of attribute names plus per-attribute
    type and unit overrides (default int, non-counter, no unit) and
    produces one empty buffer per name. *)
Definition init_rb_dict (names : list string) (types : list PyType)
    (units : list string) : gmap string Value :=
  foldl (λ d '(i, n),
           <[n := VRb (mkRingBuffer (default Tint (types !! i))
                         (default EmptyString (units !! i)) false capacity [])]> d)
        ∅ (imap (λ i n, (i, n)) names).

(** [Subservice._init_metrics_rb]: [KeyError] for a subservice class the
    registry does not know. *)
Definition _init_metrics_rb (conf : EngineConf) (subservice : string) :
    Exc (gmap string Value) :=
  match metrics_lookup conf !! subservice with
  | Some rec => OK (init_rb_dict (names rec) (types rec) (units rec))
  | None => Raise (KeyError subservice)
  end.

(** The constructor [Symptom(name, path, severity, rule, engine, node=...)]
    of [agent/assurance/symptoms.py] (absent).  It compiles the rule text
    and may raise. *)
Variable Symptom_init : SymptomArgs → option string → Exc Symptom.

(** [Symptom._safe_rule(metrics)] (absent): the identifier whitelist. *)
Variable _safe_rule : Symptom → list string → Exc bool.

(** [HealthEngine.get_symptoms]: newly instantiated symptoms for a node
    with the given [path] and [fullname]. *)
Fixpoint get_symptoms (args : list SymptomArgs) (node_path node_fullname : string) :
    Exc (list Symptom) :=
  match args with
  | [] => OK []
  | a :: rest =>
      if bool_decide (a.1.1.2 = Some node_path)
         || bool_decide (a.1.1.2 = Some (node_path +:+ "/if"))
      then s ← Symptom_init a (Some node_fullname);
           l ← get_symptoms rest node_path node_fullname;
           OK (s :: l)
      else get_symptoms rest node_path node_fullname
  end.

(** [Subservice.find_fullname]. *)
Definition find_fullname (_type name : string) (parent : option Subservice) : string :=
  let fn := "/" +:+ _type in
  let fn :=
    if bool_decide (name = EmptyString) then fn
    else fn +:+ "[name=" +:+ name +:+ "]" in
  match parent with
  | Some p => fullname p +:+ fn
  | None => fn
  end.

(** [Subservice.find_path]. *)
Definition find_path (_type : string) (parent : option Subservice) : string :=
  let pth := "/" +:+ _type in
  match parent with
  | Some p => path p +:+ pth
  | None => pth
  end.

(** [Subservice.__init__] for an object of class [c]; [impacting] keeps
    its default.  [positive_symptoms] only exists after the first
    [update_symptoms]; it starts empty here. *)
Definition Subservice_init (c : PyClass) (_type name : string) (conf : EngineConf)
    (parent : option Subservice) (backend : string) : Exc Subservice :=
  let fn := find_fullname _type name parent in
  let pth := find_path _type parent in
  syms ← get_symptoms (_symptoms_args conf) pth fn;
  OK (mkSubservice c _type name true [] true fn pth 100 syms [] backend).

(** [[Subservice(dep, "", self.engine, parent=self) for dep in deps]]. *)
Definition resource_children (conf : EngineConf) (self : Subservice)
    (deps : list string) : Exc (list Subservice) :=
  mapM (λ dep, Subservice_init CSubservice dep EmptyString conf (Some self) EmptyString) deps.

(** [self._data[k1][k2] = v]. *)
Definition setitem2 (data : Store) (k1 k2 : string) (v : Value) : Exc Store :=
  d1 ← getdict data k1;
  OK (<[k1 := VDict (<[k2 := v]> d1)]> data).

(** [self._data[k1][k2][k3] = v]. *)
Definition setitem3 (data : Store) (k1 k2 k3 : string) (v : Value) : Exc Store :=
  d1 ← getdict data k1;
  d2 ← getdict d1 k2;
  OK (<[k1 := VDict (<[k2 := VDict (<[k3 := v]> d2)]> d1)]> data).

(** [Baremetal.__init__]. *)
Definition Baremetal_init (conf : EngineConf) (data : Store) (name : string)
    (parent : option Subservice) : Exc (Subservice * Store) :=
  self ← Subservice_init CBaremetal "bm" name conf parent EmptyString;
  deps ← resource_children conf self ["cpu"; "sensors"; "disks"; "mem"; "proc"; "net"];
  let self := set_dependencies deps self in
  let data := <["/node/bm/net/if" := VDict ∅]> data in
  rb ← _init_metrics_rb conf "net";
  let data := <["/node/bm/net" := VDict rb]> data in
  rb ← _init_metrics_rb conf "mem";
  let data := <["/node/bm/mem" := VDict rb]> data in
  rb ← _init_metrics_rb conf "proc";
  let data := <["/node/bm/proc" := VDict rb]> data in
  OK (self, data).

(** [VM.__init__]. *)
Definition VM_init (conf : EngineConf) (data : Store) (name hypervisor : string)
    (parent : option Subservice) : Exc (Subservice * Store) :=
  self ← Subservice_init CVM "vm" name conf parent hypervisor;
  deps ← resource_children conf self ["cpu"; "mem"; "net"; "proc"];
  let self := set_dependencies deps self in
  data ← setitem2 data "/node/vm" name (VDict ∅);
  rb ← _init_metrics_rb conf "vm";
  data ← setitem3 data "/node/vm" name "/node/vm" (VDict rb);
  data ← setitem3 data "/node/vm" name "/node/vm/net/if" (VDict ∅);
  rb ← _init_metrics_rb conf "proc";
  data ← setitem3 data "/node/vm" name "/node/vm/proc" (VDict rb);
  rb ← _init_metrics_rb conf "net";
  data ← setitem3 data "/node/vm" name "/node/vm/net" (VDict rb);
  rb ← _init_metrics_rb conf "mem";
  data ← setitem3 data "/node/vm" name "/node/vm/mem" (VDict rb);
  OK (self, data).

(** [KBNet.__init__]. *)
Definition KBNet_init (conf : EngineConf) (data : Store) (name framework : string)
    (parent : option Subservice) : Exc (Subservice * Store) :=
  self ← Subservice_init CKBNet "kb" name conf parent framework;
  deps ← resource_children conf self ["proc"; "mem"; "net"];
  let self := set_dependencies deps self in
  data ← setitem2 data "/node/kb" name (VDict ∅);
  rb ← _init_metrics_rb conf "kb";
  data ← setitem3 data "/node/kb" name "/node/kb" (VDict rb);
  data ← setitem3 data "/node/kb" name "/node/kb/net/if" (VDict ∅);
  rb ← _init_metrics_rb conf "mem";
  data ← setitem3 data "/node/kb" name "/node/kb/mem" (VDict rb);
  rb ← _init_metrics_rb conf "proc";
  data ← setitem3 data "/node/kb" name "/node/kb/proc" (VDict rb);
  OK (self, data).

(** [Node.__init__]. *)
Definition Node_init (conf : EngineConf) (data : Store) (name : string)
    (parent : option Subservice) : Exc (Subservice * Store) :=
  self ← Subservice_init CNode "node" name conf parent EmptyString;
  '(bm, data) ← Baremetal_init conf data EmptyString (Some self);
  OK (set_dependencies [bm] self, data).

(** ** Graph mutation *)

(** [del self._data[k1][k2]]. *)
Definition delitem2 (data : Store) (k1 k2 : string) : Exc Store :=
  d1 ← getdict data k1;
  match d1 !! k2 with
  | Some _ => OK (<[k1 := VDict (delete k2 d1)]> data)
  | None => Raise (KeyError k2)
  end.

(** [del_metrics]: overloaded by [VM] and [KBNet], a no-op elsewhere. *)
Definition del_metrics (self : Subservice) (data : Store) : Exc Store :=
  match cls self with
  | CVM => delitem2 data "/node/vm" (name self)
  | CKBNet => delitem2 data "/node/kb" (name self)
  | _ => OK data
  end.

(** [Node.add_vm] and [Node.add_kbnet]. *)
Definition Node_add_vm (conf : EngineConf) (data : Store) (self : Subservice)
    (nm hypervisor : string) : Exc (Subservice * Store) :=
  '(vm, data) ← VM_init conf data nm hypervisor (Some self);
  OK (set_dependencies (dependencies self ++ [vm]) self, data).

Definition Node_add_kbnet (conf : EngineConf) (data : Store) (self : Subservice)
    (nm framework : string) : Exc (Subservice * Store) :=
  '(kb, data) ← KBNet_init conf data nm framework (Some self);
  OK (set_dependencies (dependencies self ++ [kb]) self, data).

(** The loop shared by [Node.remove_vm] ([c = CVM]) and
    [Node.remove_kbnet] ([c = CKBNet]): the first dependency of class [c]
    named [nm] drops its metrics and is deleted from the list; then
    [break]. *)
Fixpoint remove_first (c : PyClass) (nm : string) (deps : list Subservice)
    (data : Store) : Exc (list Subservice * Store) :=
  match deps with
  | [] => OK ([], data)
  | subservice :: rest =>
      if bool_decide (cls subservice = c) && bool_decide (name subservice = nm)
      then data ← del_metrics subservice data;
           OK (rest, data)
      else '(rest', data) ← remove_first c nm rest data;
           OK (subservice :: rest', data)
  end.

Definition Node_remove_vm (data : Store) (self : Subservice) (nm : string) :
    Exc (Subservice * Store) :=
  '(deps, data) ← remove_first CVM nm (dependencies self) data;
  OK (set_dependencies deps self, data).

Definition Node_remove_kbnet (data : Store) (self : Subservice) (nm : string) :
    Exc (Subservice * Store) :=
  '(deps, data) ← remove_first CKBNet nm (dependencies self) data;
  OK (set_dependencies deps self, data).

(** ** The health engine *)

(** The mutable state of a [HealthEngine]: the shared store, the graph,
    the last-change timestamp, the number of clock readings taken so far
    and the messages passed to [info]. *)
Record HealthEngine := mkHealthEngine {
  conf : EngineConf;
  _data : Store;
  root : Subservice;
  dependency_graph_changed : string;
  clock : nat;
  log : list string
}.

(** [str(time.time())] at the k-th reading of the clock. *)
Variable time_time : nat → string.

Definition _update_graph_changed_timestamp (eng : HealthEngine) : HealthEngine :=
  mkHealthEngine (conf eng) (_data eng) (root eng) (time_time (clock eng))
    (S (clock eng)) (log eng).

Definition with_graph (eng : HealthEngine) (r : Subservice) (data : Store) : HealthEngine :=
  mkHealthEngine (conf eng) data r (dependency_graph_changed eng) (clock eng) (log eng).

(** [HealthEngine.add_vm(name, hypervisor="virtualbox")]. *)
Definition add_vm (eng : HealthEngine) (nm hypervisor : string) : Exc HealthEngine :=
  '(r, data) ← Node_add_vm (conf eng) (_data eng) (root eng) nm hypervisor;
  OK (_update_graph_changed_timestamp (with_graph eng r data)).

(** [HealthEngine.add_kbnet(name, framework="vpp")]. *)
Definition add_kbnet (eng : HealthEngine) (nm framework : string) : Exc HealthEngine :=
  '(r, data) ← Node_add_kbnet (conf eng) (_data eng) (root eng) nm framework;
  OK (_update_graph_changed_timestamp (with_graph eng r data)).

(** [HealthEngine.remove_vm]. *)
Definition remove_vm (eng : HealthEngine) (nm : string) : Exc HealthEngine :=
  '(r, data) ← Node_remove_vm (_data eng) (root eng) nm;
  OK (_update_graph_changed_timestamp (with_graph eng r data)).

(** [HealthEngine.remove_kbnet]. *)
Definition remove_kbnet (eng : HealthEngine) (nm : string) : Exc HealthEngine :=
  '(r, data) ← Node_remove_kbnet (_data eng) (root eng) nm;
  OK (_update_graph_changed_timestamp (with_graph eng r data)).

(** The order in which a [for] loop visits a Python set.  It is
    unspecified; the proofs only assume it enumerates the set. *)
Variable set_iter : gset string → list string.

(** [for x in xs: eng.f(x)]. *)
Fixpoint for_each (f : HealthEngine → string → Exc HealthEngine)
    (xs : list string) (eng : HealthEngine) : Exc HealthEngine :=
  match xs with
  | [] => OK eng
  | x :: rest => eng ← f eng x; for_each f rest eng
  end.

(** The first loop of [_update_dependency_graph]: the names of the
    current [VM] and [KBNet] dependencies of the root. *)
Definition current_names (deps : list Subservice) : gset string * gset string :=
  foldl (λ '(vms, kbs) subservice,
           if bool_decide (cls subservice = CVM) then ({[name subservice]} ∪ vms, kbs)
           else if bool_decide (cls subservice = CKBNet) then (vms, {[name subservice]} ∪ kbs)
           else (vms, kbs))
        (∅, ∅) deps.

(** [HealthEngine._update_dependency_graph]. *)
Definition _update_dependency_graph (eng : HealthEngine) : Exc HealthEngine :=
  let '(vms, kbs) := current_names (dependencies (root eng)) in
  v ← getitem (_data eng) "virtualbox/vms";
  monitored_vms ← keys v;
  v ← getitem (_data eng) "vpp/gnmi";
  monitored_kbs ← keys v;
  eng ← for_each remove_vm (set_iter (vms ∖ monitored_vms)) eng;
  eng ← for_each remove_kbnet (set_iter (kbs ∖ monitored_kbs)) eng;
  eng ← for_each (λ e vm, add_vm e vm "virtualbox") (set_iter (monitored_vms ∖ vms)) eng;
  for_each (λ e kb, add_kbnet e kb "vpp") (set_iter (monitored_kbs ∖ kbs)) eng.

(** ** Metric refresh *)

(** The refresh functions of the table [funcs] in
    [Subservice._update_metrics]. *)
Inductive Adapter :=
| linux_bm_cpu | linux_bm_sensors | linux_bm_disk | linux_bm_mem
| linux_bm_proc | linux_bm_net
| linux_vm_cpu | linux_vm_mem | linux_vm_net | linux_vm_proc
| linux_kb_proc | linux_kb_mem | linux_kb_net
| win_bm_cpu | macos_bm_cpu.

(** [funcs[key]] for [key = (self.sysinfo.system, self.path)]. *)
Definition funcs (system path : string) : Exc Adapter :=
  let key := (system, path) in
  let table :=
    [ (("Linux", "/node/bm/cpu"), linux_bm_cpu);
      (("Linux", "/node/bm/sensors"), linux_bm_sensors);
      (("Linux", "/node/bm/disks"), linux_bm_disk);
      (("Linux", "/node/bm/mem"), linux_bm_mem);
      (("Linux", "/node/bm/proc"), linux_bm_proc);
      (("Linux", "/node/bm/net"), linux_bm_net);
      (("Linux", "/node/vm/cpu"), linux_vm_cpu);
      (("Linux", "/node/vm/mem"), linux_vm_mem);
      (("Linux", "/node/vm/net"), linux_vm_net);
      (("Linux", "/node/vm/proc"), linux_vm_proc);
      (("Linux", "/node/kb/proc"), linux_kb_proc);
      (("Linux", "/node/kb/mem"), linux_kb_mem);
      (("Linux", "/node/kb/net"), linux_kb_net);
      (("Windows", "/node/bm/cpu"), win_bm_cpu);
      (("MacOS", "/node/bm/cpu"), macos_bm_cpu) ] in
  match list_find (λ e, e.1 = key) table with
  | Some (_, (_, f)) => OK f
  | None => Raise (KeyError path)
  end.

(** The bodies of the Linux refresh functions, which copy producer
    samples from the raw scopes into the assurance scope of the node.  They
    read the node, its parent (for [parent.name] and the parent's
    hypervisor or framework) and the store. *)
Variable linux_adapter :
  Adapter → Subservice → option Subservice → Store → Exc Store.

(** Running a refresh function: the Windows and MacOS entries are
    [pass]. *)
Definition run_adapter (f : Adapter) (self : Subservice)
    (parent : option Subservice) (data : Store) : Exc Store :=
  match f with
  | win_bm_cpu | macos_bm_cpu => OK data
  | _ => linux_adapter f self parent data
  end.

(** [self._data[k1][k2][k3][k4].append(v)]. *)
Definition append4 (data : Store) (k1 k2 k3 k4 : string) (v : PyVal) : Exc Store :=
  d1 ← getdict data k1;
  d2 ← getdict d1 k2;
  d3 ← getdict d2 k3;
  x ← getitem d3 k4;
  rb ← as_rb x;
  OK (<[k1 := VDict (<[k2 := VDict (<[k3 := VDict (<[k4 := VRb (rb_append rb v)]> d3)]> d2)]> d1)]> data).

(** [self._data[k1][k2][k3]._top()]. *)
Definition top3 (data : Store) (k1 k2 k3 : string) : Exc PyVal :=
  d1 ← getdict data k1;
  d2 ← getdict d1 k2;
  x ← getitem d2 k3;
  rb ← as_rb x;
  OK (_top rb).

(** [VM._update_metrics]. *)
Definition VM__update_metrics (self : Subservice) (data : Store) :
    Exc (Subservice * Store) :=
  let vm_name := name self in
  let hypervisor := backend self in
  state ← top3 data (hypervisor +:+ "/vms") vm_name "state";
  let self := set_active (py_eq_str state "Running") self in
  data ← append4 data "/node/vm" vm_name "/node/vm" "active" (PBool (active self));
  OK (self, data).

(** [KBNet._update_metrics]. *)
Definition KBNet__update_metrics (self : Subservice) (data : Store) :
    Exc (Subservice * Store) :=
  let kb_name := name self in
  let framework := backend self in
  status ← top3 data (framework +:+ "/gnmi") kb_name "status";
  let self := set_active (py_eq_str status "synced") self in
  data ← append4 data "/node/kb" kb_name "/node/kb" "active" (PBool (active self));
  OK (self, data).

(** [_update_metrics], dispatched on the class of the object: [Node] and
    [Baremetal] override it with [pass], [VM] and [KBNet] set [active],
    plain subservices look their refresh function up in [funcs]. *)
Definition _update_metrics (system : string) (parent : option Subservice)
    (self : Subservice) (data : Store) : Exc (Subservice * Store) :=
  match cls self with
  | CNode | CBaremetal => OK (self, data)
  | CVM => VM__update_metrics self data
  | CKBNet => KBNet__update_metrics self data
  | CSubservice =>
      f ← funcs system (path self);
      data ← run_adapter f self parent data;
      OK (self, data)
  end.

(** [for subservice in self.dependencies: subservice.update_metrics()],
    for a given recursive call [upd]. *)
Definition refresh_loop (upd : Subservice → Store → Exc (Subservice * Store)) :
    list Subservice → Store → Exc (list Subservice * Store) :=
  fix loop deps data :=
    match deps with
    | [] => OK ([], data)
    | subservice :: rest =>
        '(subservice', data) ← upd subservice data;
        '(rest', data) ← loop rest data;
        OK (subservice' :: rest', data)
    end.

(** [Subservice.update_metrics]. *)
Fixpoint update_metrics (system : string) (parent : option Subservice)
    (self : Subservice) (data : Store) {struct self} : Exc (Subservice * Store) :=
  '(self', data) ← _update_metrics system parent self data;
  if negb (active self') then OK (self', data)
  else
    '(deps, data) ← refresh_loop (update_metrics system (Some self'))
                      (dependencies self) data;
    OK (set_dependencies deps self', data).

(** [HealthEngine.update_health]. *)
Definition update_health (eng : HealthEngine) : Exc HealthEngine :=
  eng ← _update_dependency_graph eng;
  '(r, data) ← update_metrics (system (conf eng)) None (root eng) (_data eng);
  let '(r, (symptoms, health_scores)) := update_symptoms data r in
  let data := <["symptoms" := VSymptoms symptoms]> data in
  let data := <["health_scores" := VScores health_scores]> data in
  OK (with_graph eng r data).

(** ** Rule loading *)

(** One row of [rules.csv] as [csv.DictReader] yields it for the header
    [name, path, severity, rule]: a field missing from a short row is
    [None]. *)
Record RuleRow := mkRuleRow {
  r_name : option string;
  r_path : option string;
  r_severity : option string;
  r_rule : option string
}.

Definition upper_ascii (c : ascii) : ascii :=
  let n := nat_of_ascii c in
  if (97 <=? n)%nat && (n <=? 122)%nat then ascii_of_nat (n - 32) else c.

(** [str.upper] on ASCII text. *)
Fixpoint str_upper (s : string) : string :=
  match s with
  | EmptyString => EmptyString
  | String c rest => String (upper_ascii c) (str_upper rest)
  end.

(** [str.upper(x)]: a [TypeError] when [x] is [None]. *)
Definition py_str_upper (x : option string) : Exc string :=
  match x with
  | Some s => OK (str_upper s)
  | None => Raise TypeError
  end.

(** ["{}".format(x)]. *)
Definition py_format (x : option string) : string := default "None" x.

(** The body of the loop of [_read_rule_file] on
    [(self._symptoms_args, messages passed to self.info)].  Only a
    [KeyError] of the severity lookup is caught. *)
Definition read_rule_row (metrics : list string)
    (st : list SymptomArgs * list string) (r : RuleRow) :
    Exc (list SymptomArgs * list string) :=
  let '(args, log) := st in
  let '(name, path, rule) := (r_name r, r_path r, r_rule r) in
  key ← py_str_upper (r_severity r);
  match Severity_getitem key with
  | Raise (KeyError _) =>
      OK (args, log ++ ["Invalid rule Severity: " +:+ py_format (r_severity r)])
  | Raise e => Raise e
  | OK severity =>
      symptom ← Symptom_init (name, path, severity, rule) None;
      safe ← _safe_rule symptom metrics;
      if negb safe then OK (args, log ++ ["Invalid rule: " +:+ py_format rule])
      else OK (args ++ [(name, path, severity, rule)], log)
  end.

(** [HealthEngine._read_rule_file] over the rows of the file. *)
Fixpoint read_rule_rows (metrics : list string) (rows : list RuleRow)
    (st : list SymptomArgs * list string) : Exc (list SymptomArgs * list string) :=
  match rows with
  | [] => OK st
  | r :: rest => st ← read_rule_row metrics st r; read_rule_rows metrics rest st
  end.

Definition _read_rule_file (metrics : list string) (rows : list RuleRow)
    (log : list string) : Exc (list SymptomArgs * list string) :=
  read_rule_rows metrics rows ([], log).

(** [HealthEngine.__init__], given the registry [_read_metrics_file]
    loaded ([lookup] and the metric names), the rows of the rule file and
    the host's [sysinfo]. *)
Definition HealthEngine_init (data : Store) (lookup : gmap string MetricsRec)
    (metric_names : list string) (rules : list RuleRow)
    (system node : string) : Exc HealthEngine :=
  let data := <["/node/vm" := VDict ∅]> data in
  let data := <["/node/kb" := VDict ∅]> data in
  let data := <["symptoms" := VSymptoms []]> data in
  let data := <["health_scores" := VScores ∅]> data in
  '(args, log) ← _read_rule_file metric_names rules [];
  let conf := mkEngineConf lookup metric_names args system node in
  '(r, data) ← Node_init conf data node None;
  OK (_update_graph_changed_timestamp
        (mkHealthEngine conf data r EmptyString 0 log)).

(** ** The agent cycle *)

(** The part of a [DXAgent] the cycle touches.  [sbuffer] lists the
    snapshots handed to [ShareableBuffer.write] (absent), each with its
    [skip] list; [scheduled] counts the calls to [scheduler.enter]. *)
Record DXAgent := mkDXAgent {
  engine : HealthEngine;
  disable_shm : bool;
  verbose : bool;
  sbuffer : list (Store * list string);
  scheduled : nat
}.

(** [DXAgent._input]: the three watchers write the raw scopes of the
    store. *)
Variable watchers_input : Store → Exc Store.

(** [DXAgent.process]. *)
Definition process (a : DXAgent) : Exc DXAgent :=
  data ← watchers_input (_data (engine a));
  eng ← update_health (with_graph (engine a) (root (engine a)) data);
  let sb :=
    if negb (disable_shm a) then
      let skip := if negb (verbose a) then ["stats"] else [] in
      sbuffer a ++ [(_data eng, skip)]
    else sbuffer a in
  OK (mkDXAgent eng (disable_shm a) (verbose a) sb (S (scheduled a))).

(** ** Sequences of graph mutations *)

(** The ways the graph is mutated: the four public methods of the engine,
    and a reconciliation run after the producers left the store as
    [observed]. *)
Inductive GraphOp :=
| OpAddVM (nm hypervisor : string)
| OpAddKBNet (nm framework : string)
| OpRemoveVM (nm : string)
| OpRemoveKBNet (nm : string)
| OpReconcile (observed : Store).

Definition run_op (eng : HealthEngine) (op : GraphOp) : Exc HealthEngine :=
  match op with
  | OpAddVM nm hypervisor => add_vm eng nm hypervisor
  | OpAddKBNet nm framework => add_kbnet eng nm framework
  | OpRemoveVM nm => remove_vm eng nm
  | OpRemoveKBNet nm => remove_kbnet eng nm
  | OpReconcile observed =>
      _update_dependency_graph (with_graph eng (root eng) observed)
  end.

Fixpoint run_ops (ops : list GraphOp) (eng : HealthEngine) : Exc HealthEngine :=
  match ops with
  | [] => OK eng
  | op :: rest => eng ← run_op eng op; run_ops rest eng
  end.

End Model.

(** ** The score as the specification words it *)

(** Start at 100; for each impacting child subtract [100 - child score],
    clamping at 0 after each subtraction; then subtract the weight of each
    firing symptom, again clamping at 0. *)
Definition spec_score (impacting_child_scores fired_weights : list Z) : Z :=
  let after_children :=
    foldl (λ score child, Z.max 0 (score - (100 - child))) 100 impacting_child_scores in
  foldl (λ score w, Z.max 0 (score - w)) after_children fired_weights.

(** The effect of one updated child on the score of its parent. *)
Definition child_step (score : Z) (c' : Subservice) : Z :=
  if impacting c' then Z.max 0 (score - (100 - health_score c')) else score.

(** ** Views of the graph used in the statements *)

(** The dependencies of a node that are instances of class [c], and their
    names. *)
Definition children_of (c : PyClass) (r : Subservice) : list Subservice :=
  filter (λ s, cls s = c) (dependencies r).

Definition names_of (c : PyClass) (r : Subservice) : list string :=
  name <$> children_of c r.

(** The dependencies that are neither a [VM] nor a [KBNet]. *)
Definition fixed_children (r : Subservice) : list Subservice :=
  filter (λ s, cls s ≠ CVM ∧ cls s ≠ CKBNet) (dependencies r).

(** The metric scope [VM.__init__] builds for a VM, in terms of the four
    ring-buffer groups it draws from the registry. *)
Definition fresh_vm_scope (rb_vm rb_proc rb_net rb_mem : gmap string Value) :
    gmap string Value :=
  <["/node/vm/mem" := VDict rb_mem]>
    (<["/node/vm/net" := VDict rb_net]>
      (<["/node/vm/proc" := VDict rb_proc]>
        (<["/node/vm/net/if" := VDict ∅]>
          (<["/node/vm" := VDict rb_vm]> ∅)))).

(** The metric scope [KBNet.__init__] builds. *)
Definition fresh_kb_scope (rb_kb rb_mem rb_proc : gmap string Value) :
    gmap string Value :=
  <["/node/kb/proc" := VDict rb_proc]>
    (<["/node/kb/mem" := VDict rb_mem]>
      (<["/node/kb/net/if" := VDict ∅]>
        (<["/node/kb" := VDict rb_kb]> ∅))).

(** A group of ring buffers none of which holds a sample. *)
Definition all_empty (group : gmap string Value) : Prop :=
  ∀ k v, group !! k = Some v → ∃ rb, v = VRb rb ∧ rb_samples rb = [].

(** [eng'] differs from [eng] at most in the root's children of class [c],
    in the store entry [scope], and in the change timestamp and clock. *)
Definition touches_only (c : PyClass) (scope : string) (eng eng' : HealthEngine) : Prop :=
  conf eng' = conf eng ∧
  log eng' = log eng ∧
  (∀ c', c' ≠ c → children_of c' (root eng') = children_of c' (root eng)) ∧
  fixed_children (root eng') = fixed_children (root eng) ∧
  (∀ k, k ≠ scope → _data eng' !! k = _data eng !! k).

(** Every [VM] child of the root was built for the hypervisor
    ["virtualbox"] and every [KBNet] child for the framework ["vpp"], the
    defaults [_update_dependency_graph] calls [add_vm] and [add_kbnet]
    with. *)
Definition backends_ok (r : Subservice) : Prop :=
  Forall (λ s, (cls s = CVM → backend s = "virtualbox") ∧
               (cls s = CKBNet → backend s = "vpp")) (dependencies r).

(** ** Refresh functions of the table *)

(** The functions [_update_metrics] dispatches to that only move samples
    between buffers.  They copy what [_top] returns unread. *)

(** [v[k1][k2]...[kn]]. *)
Fixpoint get_path (v : Value) (ks : list string) : Exc Value :=
  match ks with
  | [] => OK v
  | k :: ks => d ← as_dict v; x ← getitem d k; get_path x ks
  end.

(** [self._data[k1]...[kn]]. *)
Definition get_store (data : Store) (ks : list string) : Exc Value :=
  get_path (VDict data) ks.

(** The value with [f] applied to what sits at the path, where the path
    exists. *)
Fixpoint alter_path (f : Value → Value) (ks : list string) (v : Value) : Value :=
  match ks with
  | [] => f v
  | k :: ks =>
      match v with
      | VDict d => VDict (alter (alter_path f ks) k d)
      | _ => v
      end
  end.

Definition alter_store (f : Value → Value) (ks : list string) (data : Store) : Store :=
  match ks with
  | [] => data
  | k :: ks => alter (alter_path f ks) k data
  end.

(** [self._data[dst...].append(self._data[src...]._top())]: the buffer is
    looked up first, then the argument is evaluated. *)
Definition append_top (data : Store) (dst src : list string) : Exc Store :=
  x ← get_store data dst;
  rb ← as_rb x;
  y ← get_store data src;
  srb ← as_rb y;
  OK (alter_store (λ _, VRb (rb_append rb (_top srb))) dst data).

(** [self._data[ks...][k] = v]. *)
Definition assign_at (data : Store) (ks : list string) (k : string) (v : Value) :
    Exc Store :=
  x ← get_store data ks;
  d ← as_dict x;
  OK (alter_store (λ _, VDict (<[k := v]> d)) ks data).

(** [self.parent] as an instance of class [c]: reading [hypervisor] or
    [framework] off anything else is an [AttributeError]. *)
Definition parent_of_class (c : PyClass) (parent : option Subservice) : Exc Subservice :=
  match parent with
  | Some p => if bool_decide (cls p = c) then OK p else Raise AttributeError
  | None => Raise AttributeError
  end.

(** [for x in xs: data = step(data, x)]. *)
Fixpoint for_store (step : Store → string → Exc Store) (xs : list string)
    (data : Store) : Exc Store :=
  match xs with
  | [] => OK data
  | x :: rest => data ← step data x; for_store step rest data
  end.

Section Adapters.

Variable capacity : nat.

(** The order in which a [for] loop visits the keys of a dict. *)
Variable dict_iter : gmap string Value → list string.

(** [_update_metrics_linux_bm_proc]. *)
Definition _update_metrics_linux_bm_proc (data : Store) : Exc Store :=
  data ← append_top data ["/node/bm/proc"; "total_count"] ["stats_global"; "proc_count"];
  data ← append_top data ["/node/bm/proc"; "run_count"] ["stats_global"; "run_count"];
  data ← append_top data ["/node/bm/proc"; "sleep_count"] ["stats_global"; "sleep_count"];
  data ← append_top data ["/node/bm/proc"; "idle_count"] ["stats_global"; "idle_count"];
  data ← append_top data ["/node/bm/proc"; "wait_count"] ["stats_global"; "wait_count"];
  data ← append_top data ["/node/bm/proc"; "zombie_count"] ["stats_global"; "zombie_count"];
  append_top data ["/node/bm/proc"; "dead_count"] ["stats_global"; "dead_count"].

(** [_update_metrics_linux_kb_proc]. *)
Definition _update_metrics_linux_kb_proc (parent : option Subservice) (data : Store) :
    Exc Store :=
  p ← parent_of_class CKBNet parent;
  let kb_name := name p in
  let framework := backend p in
  append_top data ["/node/kb"; kb_name; "/node/kb/proc"; "worker_count"]
    [framework +:+ "/gnmi"; kb_name; "/sys/num_worker_threads"].

(** [_update_metrics_linux_vm_proc]: reads the parent's name and
    hypervisor and does nothing. *)
Definition _update_metrics_linux_vm_proc (parent : option Subservice) (data : Store) :
    Exc Store :=
  p ← parent_of_class CVM parent;
  OK data.

(** [_update_metrics_linux_vm_cpu]. *)
Definition _update_metrics_linux_vm_cpu (conf : EngineConf)
    (parent : option Subservice) (data : Store) : Exc Store :=
  p ← parent_of_class CVM parent;
  let vm_name := name p in
  let hypervisor := backend p in
  let cpu_label := "cpu" in
  scope ← get_store data ["/node/vm"; vm_name];
  scope ← as_dict scope;
  data ← (match scope !! "/node/vm/cpu" with
          | Some _ => OK data
          | None =>
              data ← assign_at data ["/node/vm"; vm_name] "/node/vm/cpu" (VDict ∅);
              rb ← _init_metrics_rb capacity conf "cpu";
              assign_at data ["/node/vm"; vm_name; "/node/vm/cpu"] cpu_label (VDict rb)
          end);
  data ← append_top data ["/node/vm"; vm_name; "/node/vm/cpu"; cpu_label; "cpu_count"]
           [hypervisor +:+ "/vms"; vm_name; "cpu"];
  data ← append_top data ["/node/vm"; vm_name; "/node/vm/cpu"; cpu_label; "user_time"]
           [hypervisor +:+ "/vms"; vm_name; "Guest/CPU/Load/User"];
  data ← append_top data ["/node/vm"; vm_name; "/node/vm/cpu"; cpu_label; "system_time"]
           [hypervisor +:+ "/vms"; vm_name; "Guest/CPU/Load/Kernel"];
  append_top data ["/node/vm"; vm_name; "/node/vm/cpu"; cpu_label; "idle_time"]
    [hypervisor +:+ "/vms"; vm_name; "Guest/CPU/Load/Idle"].

(** The body of the second loop of [_update_metrics_linux_bm_cpu]. *)
Definition fill_cpu (data : Store) (cpu_label : string) : Exc Store :=
  data ← append_top data ["/node/bm/cpu"; cpu_label; "idle_time"]
           ["stat/cpu"; cpu_label; "idle_all_perc"];
  data ← append_top data ["/node/bm/cpu"; cpu_label; "system_time"]
           ["stat/cpu"; cpu_label; "system_all_perc"];
  data ← append_top data ["/node/bm/cpu"; cpu_label; "user_time"]
           ["stat/cpu"; cpu_label; "user_perc"];
  append_top data ["/node/bm/cpu"; cpu_label; "guest_time"]
    ["stat/cpu"; cpu_label; "guest_all_perc"].

(** [_update_metrics_linux_bm_cpu]. *)
Definition _update_metrics_linux_bm_cpu (conf : EngineConf) (data : Store) : Exc Store :=
  data ← (match data !! "/node/bm/cpu" with
          | Some _ => OK data
          | None =>
              let data := <["/node/bm/cpu" := VDict ∅]> data in
              stat ← getdict data "stat/cpu";
              for_store (λ data cpu_label,
                           rb ← _init_metrics_rb capacity conf "cpu";
                           assign_at data ["/node/bm/cpu"] cpu_label (VDict rb))
                        (dict_iter stat) data
          end);
  stat ← getdict data "stat/cpu";
  for_store fill_cpu (dict_iter stat) data.

End Adapters.

(** [self._data[dst...].append(v)]. *)
Definition append_val (data : Store) (dst : list string) (v : PyVal) : Exc Store :=
  x ← get_store data dst;
  rb ← as_rb x;
  OK (alter_store (λ _, VRb (rb_append rb v)) dst data).

(** [v in d] for a dict [d] with string keys. *)
Definition py_in_keys (v : PyVal) (d : gmap string Value) : bool :=
  match v with
  | PStr s => bool_decide (s ∈ dom d)
  | _ => false
  end.

(** The dict [attr_mapping] of [_update_metrics_linux_bm_net], in the
    order of its keys (the second ["bus_info"] of the literal repeats the
    first). *)
Definition attr_mapping : list (string * string) :=
  [ ("rx_packets", "rx_packets"); ("rx_bytes", "rx_bytes"); ("rx_errs", "rx_error");
    ("rx_drop", "rx_drop"); ("tx_packets", "tx_packets"); ("tx_bytes", "tx_bytes");
    ("tx_errs", "tx_error"); ("tx_drop", "tx_drop"); ("carrier_up_count", "up_count");
    ("carrier_down_count", "down_count"); ("carrier_changes", "changes_count");
    ("operstate", "state"); ("mtu", "mtu"); ("numa_node", "numa");
    ("local_cpulist", "cpulist"); ("tx_queue_len", "tx_queue");
    ("wireless", "wireless"); ("dns_server", "dns_server");
    ("dhcp_server", "dhcp_server"); ("type", "type"); ("driver", "driver");
    ("bus_info", "bus_info"); ("ufo", "ufo");
    ("tx-checksum-ipv4", "tx-checksum-ipv4");
    ("tx-checksum-ip-generic", "tx-checksum-ip-generic");
    ("tx-checksum-ipv6", "tx-checksum-ipv6");
    ("tx-generic-segmentation", "tx-generic-segmentation");
    ("tx-lockless", "tx-lockless"); ("rx-gro", "rx-gro"); ("rx-lro", "rx-lro");
    ("tx-tcp-segmentation", "tx-tcp-segmentation");
    ("tx-gso-robust", "tx-gso-robust");
    ("tx-tcp-ecn-segmentation", "tx-tcp-ecn-segmentation");
    ("tx-tcp6-segmentation", "tx-tcp6-segmentation");
    ("tx-gre-segmentation", "tx-gre-segmentation");
    ("tx-gre-csum-segmentation", "tx-gre-csum-segmentation");
    ("tx-udp-segmentation", "tx-udp-segmentation");
    ("rx-hashing", "rx-hashing"); ("rx-checksum", "rx-checksum");
    ("wireless_protocol", "wireless_protocol"); ("broadcast", "broadcast");
    ("debug", "debug"); ("point_to_point", "point_to_point");
    ("notrailers", "notrailers"); ("running", "running"); ("noarp", "noarp");
    ("promisc", "promisc"); ("allmulticast", "allmulticast");
    ("multicast_support", "multicast_support") ].

(** [if attr in rbs and not rbs[attr].is_empty(): ....append(rbs[attr]._top())]. *)
Definition copy_attr (net : string) (rbs : gmap string Value) (data : Store)
    (am : string * string) : Exc Store :=
  match rbs !! am.1 with
  | None => OK data
  | Some x =>
      rb ← as_rb x;
      if rb_is_empty rb then OK data
      else append_val data ["/node/bm/net/if"; net; am.2] (_top rb)
  end.

Fixpoint copy_attrs (net : string) (rbs : gmap string Value)
    (ams : list (string * string)) (data : Store) : Exc Store :=
  match ams with
  | [] => OK data
  | am :: rest => data ← copy_attr net rbs data am; copy_attrs net rbs rest data
  end.

(** The body of the loop over the interfaces of [net/dev]. *)
Definition refresh_if (data : Store) (net : string) : Exc Store :=
  rbs ← get_store data ["net/dev"; net];
  rbs ← as_dict rbs;
  data ← copy_attrs net rbs attr_mapping data;
  match rbs !! "ip4_gw_addr" with
  | None => OK data
  | Some x =>
      dst ← get_store data ["/node/bm/net/if"; net; "gw_in_arp"];
      drb ← as_rb dst;
      rb ← as_rb x;
      arp ← getdict data "net/arp";
      OK (alter_store (λ _, VRb (rb_append drb (PBool (py_in_keys (_top rb) arp))))
            ["/node/bm/net/if"; net; "gw_in_arp"] data)
  end.

Section NetAdapter.

Variable capacity : nat.
Variable dict_iter : gmap string Value → list string.
Variable set_iter : gset string → list string.

(** [_update_metrics_linux_bm_net]. *)
Definition _update_metrics_linux_bm_net (conf : EngineConf) (data : Store) : Exc Store :=
  v ← getitem data "/node/bm/net/if";
  previous ← keys v;
  v ← getitem data "net/dev";
  current ← keys v;
  data ← for_store (λ data net,
                      rb ← _init_metrics_rb capacity conf "if";
                      setitem2 data "/node/bm/net/if" net (VDict rb))
                   (set_iter (current ∖ previous)) data;
  data ← for_store (λ data net, delitem2 data "/node/bm/net/if" net)
                   (set_iter (previous ∖ current)) data;
  snmp ← getdict data "snmp";
  data ← for_store (λ data field,
                      append_top data ["/node/bm/net"; "snmp_" +:+ field] ["snmp"; field])
                   (dict_iter snmp) data;
  netdev ← getdict data "net/dev";
  for_store refresh_if (dict_iter netdev) data.

End NetAdapter.

(** ** More views of the graph and the store *)

(** The nodes of a subtree in the order [update_symptoms] finishes them:
    dependencies first, the node last. *)
Fixpoint post_order (n : Subservice) : list Subservice :=
  flat_map post_order (dependencies n) ++ [n].

(** A subtree without what [update_symptoms] writes: every score back at
    100 and no positive symptom. *)
Fixpoint erase_scores (n : Subservice) : Subservice :=
  mkSubservice (cls n) (_type n) (name n) (impacting n)
    (map erase_scores (dependencies n)) (active n) (fullname n) (path n) 100
    (symptoms n) [] (backend n).

(** A subtree without what [update_metrics] writes: every node active. *)
Fixpoint erase_active (n : Subservice) : Subservice :=
  mkSubservice (cls n) (_type n) (name n) (impacting n)
    (map erase_active (dependencies n)) true (fullname n) (path n)
    (health_score n) (symptoms n) (positive_symptoms n) (backend n).

(** The store holds, under [scope], a dict with an entry for every child
    of class [c] of the root. *)
Definition scope_ok (c : PyClass) (scope : string) (eng : HealthEngine) : Prop :=
  ∃ d, _data eng !! scope = Some (VDict d) ∧
       ∀ nm, nm ∈ names_of c (root eng) → is_Some (d !! nm).

Definition scopes_ok (eng : HealthEngine) : Prop :=
  scope_ok CVM "/node/vm" eng ∧ scope_ok CKBNet "/node/kb" eng.

(** The registry knows the subservice classes the constructors of [VM] and
    [KBNet] ask it for. *)
Definition registry_ok (conf : EngineConf) : Prop :=
  ∀ k, k ∈ ["vm"; "kb"; "proc"; "net"; "mem"] → is_Some (metrics_lookup conf !! k).

(** The symptom constructor accepts the stored rules for any node. *)
Definition constructors_ok (Symptom_init : SymptomArgs → option string → Exc Symptom)
    (conf : EngineConf) : Prop :=
  ∀ a bound, a ∈ _symptoms_args conf → is_OK (Symptom_init a bound).

(** Every plain resource node of the subtree has an entry in the refresh
    table of the given system. *)
Definition dispatchable (sys : string) (r : Subservice) : Prop :=
  ∀ n, n ∈ subservices r → cls n = CSubservice → is_OK (funcs sys (path n)).

(** A dependency of the root is the bare-metal node, a VM or a KBNet, and
    carries the type string of its class. *)
Definition child_typed (c : Subservice) : Prop :=
  (cls c = CBaremetal ∧ _type c = "bm") ∨ (cls c = CVM ∧ _type c = "vm")
  ∨ (cls c = CKBNet ∧ _type c = "kb").

(** What holds of the root of an engine between cycles. *)
Definition graph_ok (r : Subservice) : Prop :=
  cls r = CNode ∧ path r = "/node" ∧
  NoDup (names_of CVM r) ∧ NoDup (names_of CKBNet r) ∧ backends_ok r ∧
  length (children_of CBaremetal r) = 1%nat ∧
  dispatchable "Linux" r ∧
  Forall child_typed (dependencies r).

(** [Subservice.__contains__]: [item in self]. *)
Definition Subservice_contains (self : Subservice) (item : string) : bool :=
  existsb (λ subservice, bool_decide (_type subservice = item)) (dependencies self).

(** The rule of [get_symptoms]: a stored rule is bound to a node when its
    path is the node's path or the node's path followed by [/if]. *)
Definition bound_to (node_path : string) (a : SymptomArgs) : Prop :=
  a.1.1.2 = Some node_path ∨ a.1.1.2 = Some (node_path +:+ "/if").

Global Instance bound_to_dec node_path a : Decision (bound_to node_path a).
Proof. unfold bound_to. apply _. Defined.


(** ** A small host, used to run the model *)

(** A rule fires when its text is the literal [True]. *)
Definition sample_check : Symptom → Store → bool :=
  λ s _, bool_decide (s_rule s = "True").

(** A constructor that rejects missing fields and the empty rule text. *)
Definition sample_Symptom_init : SymptomArgs → option string → Exc Symptom :=
  λ '(name, path, severity, rule) bound,
    match name, path, rule with
    | Some n, Some p, Some r =>
        if bool_decide (r = EmptyString) then Raise (RuleException r)
        else OK (mkSymptom n p severity r bound)
    | _, _, _ => Raise TypeError
    end.

Definition sample_safe_rule : Symptom → list string → Exc bool :=
  λ s metrics, OK (bool_decide (s_rule s = "True") || bool_decide (s_rule s ∈ metrics)).

Definition sample_adapter :
    Adapter → Subservice → option Subservice → Store → Exc Store :=
  λ _ _ _ data, OK data.

Definition sample_time : nat → string := λ _, "0.0".

Definition sample_watchers : Store → Exc Store := OK.

Definition sample_lookup : gmap string MetricsRec :=
  list_to_map
    [ ("net", mkMetricsRec ["ssh"] [Tint] [EmptyString]);
      ("mem", mkMetricsRec ["total"; "free"] [Tfloat; Tfloat] ["MB"; "MB"]);
      ("proc", mkMetricsRec ["worker_count"] [Tint] [EmptyString]);
      ("vm", mkMetricsRec ["active"] [Tbool] [EmptyString]);
      ("kb", mkMetricsRec ["active"] [Tbool] [EmptyString]) ].

(** One rule, bound to every VM, that always fires with severity red. *)
Definition sample_rules : list RuleRow :=
  [ mkRuleRow (Some "vm down") (Some "/node/vm") (Some "red") (Some "True") ].

(** The raw scopes once the watchers have seen one powered-off VM. *)
Definition sample_raw : Store :=
  <["virtualbox/vms" :=
      VDict (<["vm1" :=
                VDict (<["state" := VRb (mkRingBuffer Tstr EmptyString false 20
                                           [PStr "Running"; PStr "PoweredOff"])]> ∅)]> ∅)]>
    (<["vpp/gnmi" := VDict ∅]> ∅).

Definition empty_node : Subservice :=
  mkSubservice CNode "node" EmptyString true [] true "/node" "/node" 100 [] []
    EmptyString.

Definition empty_engine : HealthEngine :=
  mkHealthEngine (mkEngineConf ∅ [] [] EmptyString EmptyString) ∅ empty_node
    EmptyString 0 [].

(** The value of a computation that did not raise. *)
Definition value_of {A} (d : A) (m : Exc A) : A :=
  match m with
  | OK a => a
  | Raise _ => d
  end.

(** The engine as constructed on the sample host. *)
Definition sample_engine : HealthEngine :=
  Eval vm_compute in
    value_of empty_engine
      (HealthEngine_init 20 sample_Symptom_init sample_safe_rule sample_time
         sample_raw sample_lookup ["ssh"; "total"; "free"] sample_rules "Linux" "host").

(** After one reconciliation: the graph holds [vm1]. *)
Definition sample_reconciled : HealthEngine :=
  Eval vm_compute in
    value_of empty_engine
      (_update_dependency_graph 20 sample_Symptom_init sample_time elements sample_engine).

(** After one full cycle of [update_health]. *)
Definition sample_cycled : HealthEngine :=
  Eval vm_compute in
    value_of empty_engine
      (update_health sample_check 20 sample_Symptom_init sample_time elements
         sample_adapter sample_engine).

(** The [VM] child of the reconciled graph. *)
Definition sample_vm : Subservice :=
  Eval vm_compute in default empty_node (head (children_of CVM (root sample_reconciled))).

(** After removing [vm1] again. *)
Definition sample_removed : HealthEngine :=
  Eval vm_compute in
    value_of empty_engine (remove_vm sample_time sample_reconciled "vm1").

(** The refresh of that VM alone. *)
Definition sample_refreshed : Subservice * Store :=
  Eval vm_compute in
    value_of (empty_node, ∅)
      (_update_metrics sample_adapter "Linux" (Some (root sample_reconciled))
         sample_vm (_data sample_reconciled)).

(** Building [vm1] once more on the store the cycle left. *)
Definition sample_rebuilt : Subservice * Store :=
  Eval vm_compute in
    value_of (empty_node, ∅)
      (VM_init 20 sample_Symptom_init (conf sample_cycled) (_data sample_cycled)
         "vm1" "virtualbox" (Some (root sample_cycled))).

Definition sample_ops : list GraphOp :=
  [ OpReconcile (_data sample_engine); OpAddKBNet "kb1" "vpp"; OpRemoveVM "vm1";
    OpAddVM "vm2" "virtualbox"; OpRemoveKBNet "kb1" ].

Definition sample_final : HealthEngine :=
  Eval vm_compute in
    value_of empty_engine
      (run_ops 20 sample_Symptom_init sample_time elements sample_ops sample_engine).

Definition sample_agent : DXAgent := mkDXAgent sample_engine false false [] 0.

Definition sample_agent' : DXAgent :=
  Eval vm_compute in
    value_of sample_agent
      (process sample_check 20 sample_Symptom_init sample_time elements
         sample_adapter sample_watchers sample_agent).

(** Hand-built nodes for the scoring examples: a healthy leaf, a leaf with
    a red symptom that fires, attached as an informational dependency. *)
Definition sample_symptom : Symptom :=
  mkSymptom "cpu busy" "/node/bm/cpu" RED "True" (Some "/node/bm/cpu").

Definition sample_quiet : Subservice :=
  mkSubservice CSubservice "mem" EmptyString true [] true "/node/bm/mem" "/node/bm/mem"
    100 [] [] EmptyString.

Definition sample_noisy : Subservice :=
  mkSubservice CSubservice "cpu" EmptyString false [] true "/node/bm/cpu" "/node/bm/cpu"
    100 [sample_symptom] [] EmptyString.

Definition sample_silent : Subservice :=
  mkSubservice CSubservice "cpu" EmptyString false [] true "/node/bm/cpu" "/node/bm/cpu"
    100 [] [] EmptyString.

Definition sample_parent : Subservice :=
  mkSubservice CBaremetal "bm" EmptyString true [sample_quiet; sample_noisy] true
    "/node/bm" "/node/bm" 100 [] [] EmptyString.


(** ** More sample data *)

(** The hand-built sample tree once scored. *)
Definition sample_scored : Subservice :=
  Eval vm_compute in (update_symptoms sample_check ∅ sample_parent).1.

(** The reconciled engine with the scope of [vm1] lost from the store. *)
Definition sample_orphaned : HealthEngine :=
  Eval vm_compute in
    with_graph sample_reconciled (root sample_reconciled)
      (<["/node/vm" := VDict ∅]> (_data sample_reconciled)).

(** The refresh of the whole reconciled graph. *)
Definition sample_refreshed_graph : Subservice * Store :=
  Eval vm_compute in
    value_of (empty_node, ∅)
      (update_metrics sample_adapter "Linux" None (root sample_reconciled)
         (_data sample_reconciled)).




(** A registry that also knows the metrics of a cpu and of an interface. *)
Definition sample_conf : EngineConf :=
  mkEngineConf
    (<["cpu" := mkMetricsRec ["idle_time"; "system_time"; "user_time"; "guest_time"]
                  [Tfloat; Tfloat; Tfloat; Tfloat] ["%"; "%"; "%"; "%"]]>
       (<["if" := mkMetricsRec ["rx_packets"; "gw_in_arp"] [Tint; Tbool]
                    [EmptyString; EmptyString]]> sample_lookup))
    [] [] "Linux" "host".

Definition sample_rb (v : PyVal) : Value :=
  VRb (mkRingBuffer Tint EmptyString false 20 [v]).

(** What the producer publishes for one cpu. *)
Definition sample_cpu : Value :=
  VDict (list_to_map
           [ ("idle_all_perc", sample_rb (PInt 90)); ("system_all_perc", sample_rb (PInt 4));
             ("user_perc", sample_rb (PInt 6)); ("guest_all_perc", sample_rb (PInt 0)) ]).

Definition sample_dict_iter : gmap string Value → list string :=
  λ d, elements (dom d).

(** A store with one cpu and no assurance scope for it yet. *)
Definition sample_stat : Store :=
  <["stat/cpu" := VDict (<["cpu0" := sample_cpu]> ∅)]> ∅.

(** After the first refresh of the cpu. *)
Definition sample_stat_after : Store :=
  Eval vm_compute in
    value_of ∅ (_update_metrics_linux_bm_cpu 20 sample_dict_iter sample_conf sample_stat).

(** The producer then publishes a second cpu. *)
Definition sample_stat_grown : Store :=
  <["stat/cpu" := VDict (<["cpu1" := sample_cpu]> (<["cpu0" := sample_cpu]> ∅))]>
    sample_stat_after.

(** A store where interface [eth0] went away and [eth1] came up. *)
Definition sample_net : Store :=
  list_to_map
    [ ("/node/bm/net/if", VDict (<["eth0" := VDict ∅]> ∅));
      ("/node/bm/net", VDict (<["snmp_InOctets" := sample_rb (PInt 1)]> ∅));
      ("snmp", VDict (<["InOctets" := sample_rb (PInt 2)]> ∅));
      ("net/dev",
       VDict (<["eth1" :=
                 VDict (list_to_map
                          [ ("rx_packets", sample_rb (PInt 7));
                            ("ip4_gw_addr", sample_rb (PStr "10.0.0.1")) ])]> ∅));
      ("net/arp", VDict (<["10.0.0.1" := VDict ∅]> ∅)) ].

Definition sample_net_after : Store :=
  Eval vm_compute in
    value_of ∅
      (_update_metrics_linux_bm_net 20 sample_dict_iter elements sample_conf sample_net).


(** * Properties *)

(** Structural induction through the list of dependencies. *)
Lemma Subservice_tree_ind (P : Subservice → Prop) :
  (∀ n, Forall P (dependencies n) → P n) → ∀ n, P n.
Proof.
  intros IH. fix rec 1. intros [c t nm i deps a f p h s ps b].
  apply IH. simpl. induction deps as [|d deps IHd]; constructor.
  - apply rec.
  - apply IHd.
Qed.

Section AggregationProofs.

Variable check : Symptom → Store → bool.
Variable data : Store.

Local Abbreviation upd := (update_symptoms check data).
Local Abbreviation fired := (λ s : Symptom, check s data = true).

Lemma deps_loop_spec (f : Subservice → Subservice * (list Symptom * gmap string Z))
    deps score pos hs :
  ∃ hs', deps_loop f deps (score, pos, hs) =
    ((λ d, (f d).1) <$> deps,
     (foldl child_step score ((λ d, (f d).1) <$> deps),
      pos ++ concat ((λ d, (f d).2.1) <$> deps), hs')).
Proof.
  revert score pos hs. induction deps as [|d deps IH]; intros score pos hs; simpl.
  - exists hs. by rewrite app_nil_r.
  - destruct (f d) as [d' [p h]] eqn:Hd. simpl.
    destruct (IH (child_step score d') (pos ++ p) (h ∪ hs)) as [hs' Heq].
    unfold child_step in Heq at 1. rewrite Heq. exists hs'.
    by rewrite <-app_assoc.
Qed.

Lemma symptoms_loop_spec syms pos score :
  symptoms_loop check data syms (pos, score) =
    (pos ++ filter fired syms,
     foldl (λ sc w, Z.max 0 (sc - w)) score (Symptom_weight <$> filter fired syms)).
Proof.
  revert pos score. induction syms as [|s syms IH]; intros pos score; simpl.
  - by rewrite app_nil_r.
  - rewrite filter_cons. destruct (check s data) eqn:Hc; rewrite IH.
    + rewrite decide_True by done. simpl. by rewrite <-app_assoc.
    + rewrite decide_False by done. done.
Qed.

(** [update_symptoms] in closed form. *)
Lemma update_symptoms_spec (n : Subservice) :
  let deps' := (λ d, (upd d).1) <$> dependencies n in
  let pos := filter fired (symptoms n) in
  let score :=
    foldl (λ sc w, Z.max 0 (sc - w)) (foldl child_step 100 deps')
      (Symptom_weight <$> pos) in
  ∃ hs, upd n =
    (set_scoring deps' score pos n,
     (concat ((λ d, (upd d).2.1) <$> dependencies n) ++ pos,
      <[fullname n := score]> hs)).
Proof.
  destruct n as [c t nm i deps a f p h s ps b]. simpl.
  destruct (deps_loop_spec upd deps 100 [] ∅) as [hs Heq].
  rewrite Heq. rewrite symptoms_loop_spec. simpl. by exists hs.
Qed.

Lemma upd_health_score n :
  health_score (upd n).1 =
    foldl (λ sc w, Z.max 0 (sc - w))
      (foldl child_step 100 ((λ d, (upd d).1) <$> dependencies n))
      (Symptom_weight <$> filter fired (symptoms n)).
Proof. destruct (update_symptoms_spec n) as [hs ->]. done. Qed.

Lemma upd_impacting n : impacting (upd n).1 = impacting n.
Proof. destruct (update_symptoms_spec n) as [hs ->]. done. Qed.

Lemma upd_dependencies n :
  dependencies (upd n).1 = (λ d, (upd d).1) <$> dependencies n.
Proof. destruct (update_symptoms_spec n) as [hs ->]. done. Qed.

Lemma upd_positive_symptoms n :
  positive_symptoms (upd n).1 = filter fired (symptoms n).
Proof. destruct (update_symptoms_spec n) as [hs ->]. done. Qed.

Lemma upd_positives n :
  (upd n).2.1 =
    concat ((λ d, (upd d).2.1) <$> dependencies n) ++ filter fired (symptoms n).
Proof. destruct (update_symptoms_spec n) as [hs ->]. done. Qed.

Lemma Symptom_weight_nonneg s : 0 ≤ Symptom_weight s.
Proof. unfold Symptom_weight. destruct (s_severity s); simpl; lia. Qed.

Lemma child_step_bounds score cs :
  0 ≤ score ≤ 100 → Forall (λ c, health_score c ≤ 100) cs →
  0 ≤ foldl child_step score cs ≤ 100.
Proof.
  intros Hs Hcs. revert score Hs.
  induction Hcs as [|c cs Hc _ IH]; intros score Hs; simpl; [done|].
  apply IH. unfold child_step. destruct (impacting c); lia.
Qed.

Lemma weight_step_bounds score ws :
  0 ≤ score ≤ 100 → Forall (λ w, 0 ≤ w) ws →
  0 ≤ foldl (λ sc w, Z.max 0 (sc - w)) score ws ≤ 100.
Proof.
  intros Hs Hws. revert score Hs.
  induction Hws as [|w ws Hw _ IH]; intros score Hs; simpl; [done|].
  apply IH. lia.
Qed.

Lemma subservices_unfold n :
  subservices n = n :: flat_map subservices (dependencies n).
Proof. by destruct n. Qed.

(** C1: after [update_symptoms], every node of the graph carries a health
    score between 0 and 100. *)
Theorem health_score_bounds (n m : Subservice) :
  m ∈ subservices (upd n).1 → 0 ≤ health_score m ≤ 100.
Proof.
  revert m. induction n as [n IH] using Subservice_tree_ind. intros m Hm.
  rewrite subservices_unfold, upd_dependencies in Hm.
  apply elem_of_cons in Hm as [-> | Hm].
  - rewrite upd_health_score. apply weight_step_bounds.
    + apply child_step_bounds; [lia|].
      apply Forall_fmap. eapply Forall_impl; [exact IH|].
      intros c Hc. simpl. apply Hc. rewrite subservices_unfold. left.
    + apply Forall_fmap, Forall_forall. intros s _. apply Symptom_weight_nonneg.
  - apply list_elem_of_In, in_flat_map in Hm as (c' & Hc' & Hm).
    apply list_elem_of_In, list_elem_of_fmap in Hc' as (c & -> & Hc).
    rewrite Forall_forall in IH. apply (IH c Hc). by apply list_elem_of_In.
Qed.

Lemma child_step_filter score cs :
  foldl child_step score cs =
    foldl (λ sc child, Z.max 0 (sc - (100 - child))) score
      (health_score <$> filter (λ c, impacting c) cs).
Proof.
  revert score. induction cs as [|c cs IH]; intros score; simpl; [done|].
  rewrite filter_cons. unfold child_step at 2.
  destruct (impacting c); simpl; by rewrite IH.
Qed.

Lemma child_step_skip score c : impacting c = false → child_step score c = score.
Proof. intros H. unfold child_step. by rewrite H. Qed.

Lemma child_step_not_impacting score cs :
  Forall (λ c, impacting c = false) cs → foldl child_step score cs = score.
Proof.
  intros H. revert score. induction H as [|c cs Hc _ IH]; intros score; simpl; [done|].
  rewrite IH. unfold child_step. by rewrite Hc.
Qed.

Lemma filter_fired_none syms :
  Forall (λ s, check s data = false) syms → filter fired syms = [].
Proof.
  induction 1 as [|s syms Hs _ IH]; [done|].
  rewrite filter_cons, decide_False, IH; [done|]. by rewrite Hs.
Qed.

(** C3: the score [update_symptoms] leaves on a node is the one the
    specification describes, computed from the updated impacting children
    and the weights of the firing symptoms; a node none of whose symptoms
    fires and none of whose children is impacting scores 100. *)
Theorem update_symptoms_score (n : Subservice) :
  health_score (upd n).1 =
    spec_score
      (health_score <$> filter (λ c, impacting c) ((λ c, (upd c).1) <$> dependencies n))
      (Symptom_weight <$> filter fired (symptoms n))
  ∧ ((∀ s, s ∈ symptoms n → check s data = false) →
     (∀ c, c ∈ dependencies n → impacting c = false) →
     health_score (upd n).1 = 100).
Proof.
  split.
  - rewrite upd_health_score, child_step_filter. done.
  - intros Hsym Hdep. rewrite upd_health_score.
    rewrite child_step_not_impacting.
    + rewrite filter_fired_none; [done|].
      apply Forall_forall. intros s Hs. by apply Hsym.
    + apply Forall_fmap, Forall_forall. intros c Hc. simpl.
      rewrite upd_impacting. by apply Hdep.
Qed.

(** C4: a non-impacting child contributes no malus, whatever it is and
    whatever it scores: replacing it by any other non-impacting node
    leaves the parent's score unchanged.  Its positive symptoms, and the
    flat list it returns, are still part of the parent's flat list. *)
Theorem non_impacting_child (p c c' : Subservice) (l1 l2 : list Subservice) :
  dependencies p = l1 ++ c :: l2 →
  impacting c = false →
  impacting c' = false →
  health_score (upd (set_dependencies (l1 ++ c' :: l2) p)).1 = health_score (upd p).1
  ∧ (∀ s, s ∈ positive_symptoms (upd c).1 → s ∈ (upd p).2.1)
  ∧ (∀ s, s ∈ (upd c).2.1 → s ∈ (upd p).2.1).
Proof.
  intros Hdeps Hc Hc'.
  assert (Hflat : ∀ s, s ∈ (upd c).2.1 → s ∈ (upd p).2.1).
  { intros s Hs. rewrite (upd_positives p), Hdeps, fmap_app, fmap_cons.
    rewrite concat_app, concat_cons. set_solver. }
  split; [|split; [|exact Hflat]].
  - rewrite !upd_health_score. simpl. rewrite Hdeps.
    rewrite !fmap_app, !fmap_cons, !foldl_app. simpl.
    rewrite !child_step_skip by (by rewrite upd_impacting). done.
  - intros s Hs. apply Hflat. rewrite upd_positives, <-upd_positive_symptoms.
    set_solver.
Qed.

End AggregationProofs.

(** ** Outcomes of monadic code *)

Lemma bind_OK {A B} (m : Exc A) (k : A → Exc B) (b : B) :
  m ≫= k = OK b → ∃ a, m = OK a ∧ k a = OK b.
Proof. destruct m as [a|e]; simpl; [eauto | discriminate]. Qed.

Ltac exc_inv H :=
  repeat match type of H with
  | _ ≫= _ = OK _ =>
      let a := fresh "a" in
      let E := fresh "E" in
      apply bind_OK in H as (a & E & H)
  | (let (_, _) := ?p in _) = OK _ => destruct p; simpl in H
  | (match ?p with (_, _) => _ end) = OK _ => destruct p; simpl in H
  | OK _ = OK _ => simplify_eq
  | Raise _ = OK _ => discriminate H
  end.

Lemma getdict_OK (d : gmap string Value) k d' :
  getdict d k = OK d' ↔ d !! k = Some (VDict d').
Proof.
  unfold getdict, getitem. destruct (d !! k) as [[]|]; simpl; split; intros H;
    try discriminate; congruence.
Qed.

Lemma setitem2_OK (data : Store) k1 k2 v data' :
  setitem2 data k1 k2 v = OK data' ↔
  ∃ d1, data !! k1 = Some (VDict d1) ∧ data' = <[k1 := VDict (<[k2 := v]> d1)]> data.
Proof.
  unfold setitem2. split.
  - intros H. exc_inv H. apply getdict_OK in E. subst. eauto.
  - intros (d1 & H1 & ->). apply getdict_OK in H1. by rewrite H1.
Qed.

Lemma setitem3_OK (data : Store) k1 k2 k3 v data' :
  setitem3 data k1 k2 k3 v = OK data' ↔
  ∃ d1 d2, data !! k1 = Some (VDict d1) ∧ d1 !! k2 = Some (VDict d2) ∧
    data' = <[k1 := VDict (<[k2 := VDict (<[k3 := v]> d2)]> d1)]> data.
Proof.
  unfold setitem3. split.
  - intros H. exc_inv H. apply getdict_OK in E, E0. subst. eauto.
  - intros (d1 & d2 & H1 & H2 & ->). apply getdict_OK in H1, H2.
    rewrite H1. simpl. by rewrite H2.
Qed.

(** ** Constructors *)

Section ConstructorProofs.

Variable capacity : nat.
Variable Symptom_init : SymptomArgs → option string → Exc Symptom.

Lemma Subservice_init_inv c t nm conf parent b s :
  Subservice_init Symptom_init c t nm conf parent b = OK s →
  cls s = c ∧ name s = nm ∧ backend s = b ∧ dependencies s = [] ∧
  active s = true ∧ _type s = t.
Proof.
  unfold Subservice_init. intros H. exc_inv H. done.
Qed.

(** What [VM.__init__] returns: a [VM] object of that name and
    hypervisor, and the store whose entry ["/node/vm"][nm] has been
    replaced by a scope built only from the registry. *)
Lemma VM_init_inv conf (data : Store) nm hyp parent vm data' :
  VM_init capacity Symptom_init conf data nm hyp parent = OK (vm, data') →
  cls vm = CVM ∧ name vm = nm ∧ backend vm = hyp ∧
  ∃ d rb_vm rb_proc rb_net rb_mem,
    data !! "/node/vm" = Some (VDict d) ∧
    _init_metrics_rb capacity conf "vm" = OK rb_vm ∧
    _init_metrics_rb capacity conf "proc" = OK rb_proc ∧
    _init_metrics_rb capacity conf "net" = OK rb_net ∧
    _init_metrics_rb capacity conf "mem" = OK rb_mem ∧
    data' = <["/node/vm" :=
               VDict (<[nm := VDict (fresh_vm_scope rb_vm rb_proc rb_net rb_mem)]> d)]> data.
Proof.
  unfold VM_init. intros H. exc_inv H.
  apply Subservice_init_inv in E as (Hc & Hn & Hb & _).
  apply setitem2_OK in E1 as (d & Hd & ->).
  apply setitem3_OK in E3 as (d1 & d2 & H1 & H2 & ->).
  apply setitem3_OK in E4 as (d3 & d4 & H3 & H4 & ->).
  apply setitem3_OK in E6 as (d5 & d6 & H5 & H6 & ->).
  apply setitem3_OK in E8 as (d7 & d8 & H7 & H8 & ->).
  apply setitem3_OK in E10 as (d9 & d10 & H9 & H10 & ->).
  simplify_map_eq.
  repeat split; try done.
  exists d, a2, a5, a7, a9. repeat split; try done.
  unfold fresh_vm_scope. by rewrite !insert_insert_eq.
Qed.

(** The same for [KBNet.__init__] and ["/node/kb"][nm]. *)
Lemma KBNet_init_inv conf (data : Store) nm fw parent kb data' :
  KBNet_init capacity Symptom_init conf data nm fw parent = OK (kb, data') →
  cls kb = CKBNet ∧ name kb = nm ∧ backend kb = fw ∧
  ∃ d rb_kb rb_mem rb_proc,
    data !! "/node/kb" = Some (VDict d) ∧
    _init_metrics_rb capacity conf "kb" = OK rb_kb ∧
    _init_metrics_rb capacity conf "mem" = OK rb_mem ∧
    _init_metrics_rb capacity conf "proc" = OK rb_proc ∧
    data' = <["/node/kb" :=
               VDict (<[nm := VDict (fresh_kb_scope rb_kb rb_mem rb_proc)]> d)]> data.
Proof.
  unfold KBNet_init. intros H. exc_inv H.
  apply Subservice_init_inv in E as (Hc & Hn & Hb & _).
  apply setitem2_OK in E1 as (d & Hd & ->).
  apply setitem3_OK in E3 as (d1 & d2 & H1 & H2 & ->).
  apply setitem3_OK in E4 as (d3 & d4 & H3 & H4 & ->).
  apply setitem3_OK in E6 as (d5 & d6 & H5 & H6 & ->).
  apply setitem3_OK in E8 as (d7 & d8 & H7 & H8 & ->).
  simplify_map_eq.
  repeat split; try done.
  exists d, a2, a5, a7. repeat split; try done.
  unfold fresh_kb_scope. by rewrite !insert_insert_eq.
Qed.

Lemma Baremetal_init_inv conf (data : Store) nm parent bm data' :
  Baremetal_init capacity Symptom_init conf data nm parent = OK (bm, data') →
  cls bm = CBaremetal.
Proof.
  unfold Baremetal_init. intros H. exc_inv H.
  by apply Subservice_init_inv in E as (Hc & _).
Qed.

Lemma Node_init_inv conf (data : Store) nm parent r data' :
  Node_init capacity Symptom_init conf data nm parent = OK (r, data') →
  ∃ bm, cls bm = CBaremetal ∧ dependencies r = [bm].
Proof.
  unfold Node_init. intros H. exc_inv H.
  apply Baremetal_init_inv in E0. eauto.
Qed.

(** Ring-buffer groups drawn from the registry hold no sample. *)
Lemma init_rb_dict_empty ns ts us : all_empty (init_rb_dict capacity ns ts us).
Proof.
  unfold init_rb_dict.
  generalize (imap (λ (i : nat) (n : string), (i, n)) ns). intros l.
  assert (Hbase : all_empty (∅ : gmap string Value)).
  { intros k v Hk. by rewrite lookup_empty in Hk. }
  revert Hbase. generalize (∅ : gmap string Value).
  induction l as [|[i n] l IH]; intros g Hg; simpl; [done|].
  apply IH. intros k v Hk.
  destruct (decide (n = k)) as [->|Hne].
  - rewrite lookup_insert_eq in Hk. injection Hk as <-. eauto.
  - rewrite lookup_insert_ne in Hk by done. by apply (Hg k).
Qed.

Lemma _init_metrics_rb_empty conf sub group :
  _init_metrics_rb capacity conf sub = OK group → all_empty group.
Proof.
  unfold _init_metrics_rb. destruct (metrics_lookup conf !! sub); [|done].
  intros [= <-]. apply init_rb_dict_empty.
Qed.

End ConstructorProofs.

(** ** Graph mutation *)

Section ListFacts.

Context (c : PyClass) (nm : string).

Local Abbreviation matches := (λ s : Subservice, cls s = c ∧ name s = nm).

Lemma remove_first_inv deps (data : Store) deps' data' :
  remove_first c nm deps data = OK (deps', data') →
  (deps' = deps ∧ data' = data ∧ Forall (λ s, ¬ matches s) deps)
  ∨ ∃ l1 x l2, deps = l1 ++ x :: l2 ∧ deps' = l1 ++ l2 ∧ matches x ∧
      Forall (λ s, ¬ matches s) l1 ∧ del_metrics x data = OK data'.
Proof.
  revert deps' data'. induction deps as [|s deps IH]; intros deps' data' H; simpl in H.
  - simplify_eq. left. by repeat split.
  - destruct (bool_decide (cls s = c)) eqn:Hc; simpl in H;
      [destruct (bool_decide (name s = nm)) eqn:Hn; simpl in H|].
    + apply bool_decide_eq_true in Hc, Hn. exc_inv H.
      right. exists [], s, deps'. by repeat split.
    + apply bool_decide_eq_false in Hn. exc_inv H.
      destruct (IH _ _ E) as [(-> & -> & Hall) | (l1 & x & l2 & -> & -> & Hx & Hall & Hdel)].
      * left. repeat split; [done..|]. constructor; [tauto | done].
      * right. exists (s :: l1), x, l2. repeat split; try done; try tauto.
        constructor; [tauto | done].
    + apply bool_decide_eq_false in Hc. exc_inv H.
      destruct (IH _ _ E) as [(-> & -> & Hall) | (l1 & x & l2 & -> & -> & Hx & Hall & Hdel)].
      * left. repeat split; [done..|]. constructor; [tauto | done].
      * right. exists (s :: l1), x, l2. repeat split; try done; try tauto.
        constructor; [tauto | done].
Qed.

(** Removing the first match keeps every child a predicate [P] that
    excludes class [c] selects. *)
Lemma remove_first_filter (P : Subservice → Prop) `{!∀ s, Decision (P s)}
    deps (data : Store) deps' data' :
  (∀ s, P s → cls s ≠ c) →
  remove_first c nm deps data = OK (deps', data') →
  filter P deps' = filter P deps.
Proof.
  intros HP Hrm. apply remove_first_inv in Hrm
    as [(-> & _) | (l1 & x & l2 & -> & -> & [Hx _] & _)]; [done|].
  rewrite !filter_app, filter_cons, decide_False; [done|].
  intros HPx. by apply (HP x).
Qed.

Lemma filter_no_match (l : list Subservice) :
  Forall (λ s, ¬ matches s) l → nm ∉ name <$> filter (λ s, cls s = c) l.
Proof.
  intros Hall Hin. apply list_elem_of_fmap in Hin as (s & Hn & Hs).
  apply list_elem_of_filter in Hs as [Hc Hs].
  rewrite Forall_forall in Hall. by apply (Hall s Hs).
Qed.

(** With pairwise distinct names, removing the first match removes the
    name. *)
Lemma remove_first_names deps (data : Store) deps' data' :
  remove_first c nm deps data = OK (deps', data') →
  NoDup (name <$> filter (λ s, cls s = c) deps) →
  NoDup (name <$> filter (λ s, cls s = c) deps') ∧
  (list_to_set (name <$> filter (λ s, cls s = c) deps') : gset string) =
    list_to_set (name <$> filter (λ s, cls s = c) deps) ∖ {[nm]}.
Proof.
  intros H Hnd. apply remove_first_inv in H
    as [(-> & _ & Hall) | (l1 & x & l2 & -> & -> & [Hc Hn] & Hall & _)].
  - split; [done|]. apply filter_no_match in Hall. set_solver.
  - rewrite filter_app, filter_cons, decide_True in Hnd by done.
    rewrite fmap_app, fmap_cons, Hn in Hnd.
    rewrite !filter_app, filter_cons, decide_True by done.
    rewrite !fmap_app, fmap_cons, Hn.
    apply NoDup_app in Hnd as (Hnd1 & Hdisj & Hnd2).
    apply NoDup_cons in Hnd2 as [Hnm2 Hnd2].
    split.
    + apply NoDup_app. repeat split; [done| |done].
      intros y Hy1 Hy2. apply (Hdisj y Hy1). by right.
    + assert (nm ∉ name <$> filter (λ s, cls s = c) l1).
      { intros Hin. apply (Hdisj nm Hin). left. }
      set_solver.
Qed.

(** Properties of the remaining children of class [c] are kept. *)
Lemma remove_first_Forall (P : Subservice → Prop) deps (data : Store) deps' data' :
  remove_first c nm deps data = OK (deps', data') →
  Forall P deps → Forall P deps'.
Proof.
  intros H Hall. apply remove_first_inv in H
    as [(-> & _) | (l1 & x & l2 & -> & -> & _)]; [done|].
  apply Forall_app in Hall as [H1 H2]. apply Forall_cons in H2 as [_ H2].
  by apply Forall_app.
Qed.

End ListFacts.

Lemma delitem2_OK (data : Store) k1 k2 data' :
  delitem2 data k1 k2 = OK data' ↔
  ∃ d1, data !! k1 = Some (VDict d1) ∧ is_Some (d1 !! k2) ∧
    data' = <[k1 := VDict (delete k2 d1)]> data.
Proof.
  unfold delitem2. split.
  - intros H. exc_inv H. apply getdict_OK in E.
    destruct (a !! k2) eqn:Hk; [|done]. simplify_eq. eauto.
  - intros (d1 & H1 & [v Hv] & ->). apply getdict_OK in H1. rewrite H1. simpl.
    by rewrite Hv.
Qed.

Lemma touches_only_refl c scope eng : touches_only c scope eng eng.
Proof. by repeat split. Qed.

Lemma touches_only_trans c scope e1 e2 e3 :
  touches_only c scope e1 e2 → touches_only c scope e2 e3 → touches_only c scope e1 e3.
Proof.
  intros (A1 & A2 & A3 & A4 & A5) (B1 & B2 & B3 & B4 & B5). repeat split.
  - congruence.
  - congruence.
  - intros c' Hc'. rewrite B3, A3; done.
  - congruence.
  - intros k Hk. rewrite B5, A5; done.
Qed.

Section GraphProofs.

Variable capacity : nat.
Variable Symptom_init : SymptomArgs → option string → Exc Symptom.
Variable time_time : nat → string.

Lemma remove_vm_inv eng nm eng' :
  remove_vm time_time eng nm = OK eng' →
  ∃ deps' data',
    remove_first CVM nm (dependencies (root eng)) (_data eng) = OK (deps', data') ∧
    eng' = _update_graph_changed_timestamp time_time
             (with_graph eng (set_dependencies deps' (root eng)) data').
Proof.
  unfold remove_vm, Node_remove_vm. intros H. exc_inv H. exc_inv E. eauto.
Qed.

Lemma remove_kbnet_inv eng nm eng' :
  remove_kbnet time_time eng nm = OK eng' →
  ∃ deps' data',
    remove_first CKBNet nm (dependencies (root eng)) (_data eng) = OK (deps', data') ∧
    eng' = _update_graph_changed_timestamp time_time
             (with_graph eng (set_dependencies deps' (root eng)) data').
Proof.
  unfold remove_kbnet, Node_remove_kbnet. intros H. exc_inv H. exc_inv E. eauto.
Qed.

Lemma add_vm_inv eng nm hyp eng' :
  add_vm capacity Symptom_init time_time eng nm hyp = OK eng' →
  ∃ vm data',
    VM_init capacity Symptom_init (conf eng) (_data eng) nm hyp (Some (root eng))
      = OK (vm, data') ∧
    eng' = _update_graph_changed_timestamp time_time
             (with_graph eng (set_dependencies (dependencies (root eng) ++ [vm]) (root eng)) data').
Proof.
  unfold add_vm, Node_add_vm. intros H. exc_inv H. exc_inv E. eauto.
Qed.

Lemma add_kbnet_inv eng nm fw eng' :
  add_kbnet capacity Symptom_init time_time eng nm fw = OK eng' →
  ∃ kb data',
    KBNet_init capacity Symptom_init (conf eng) (_data eng) nm fw (Some (root eng))
      = OK (kb, data') ∧
    eng' = _update_graph_changed_timestamp time_time
             (with_graph eng (set_dependencies (dependencies (root eng) ++ [kb]) (root eng)) data').
Proof.
  unfold add_kbnet, Node_add_kbnet. intros H. exc_inv H. exc_inv E. eauto.
Qed.

Lemma del_metrics_frame x (data data' : Store) k :
  del_metrics x data = OK data' →
  (cls x = CVM → k ≠ "/node/vm") → (cls x = CKBNet → k ≠ "/node/kb") →
  data' !! k = data !! k.
Proof.
  unfold del_metrics. intros H Hvm Hkb. destruct (cls x); try by simplify_eq.
  - apply delitem2_OK in H as (d & _ & _ & ->).
    rewrite lookup_insert_ne; [done|]. intros <-. by apply Hvm.
  - apply delitem2_OK in H as (d & _ & _ & ->).
    rewrite lookup_insert_ne; [done|]. intros <-. by apply Hkb.
Qed.

(** What removing a child of class [c] does to an engine, for [c] one of
    [CVM] (scope ["/node/vm"]) and [CKBNet] (scope ["/node/kb"]). *)
Lemma remove_first_step c scope eng nm deps' data' :
  (c = CVM ∧ scope = "/node/vm") ∨ (c = CKBNet ∧ scope = "/node/kb") →
  remove_first c nm (dependencies (root eng)) (_data eng) = OK (deps', data') →
  let eng' := _update_graph_changed_timestamp time_time
                (with_graph eng (set_dependencies deps' (root eng)) data') in
  touches_only c scope eng eng' ∧
  (NoDup (names_of c (root eng)) →
     NoDup (names_of c (root eng')) ∧
     (list_to_set (names_of c (root eng')) : gset string) =
       list_to_set (names_of c (root eng)) ∖ {[nm]}) ∧
  (backends_ok (root eng) → backends_ok (root eng')).
Proof.
  intros Hc H. simpl. split; [|split].
  - repeat split; simpl.
    + intros c' Hc'. unfold children_of. simpl.
      apply (remove_first_filter c nm) with (data := _data eng) (data' := data');
        [|exact H]. intros s Hs. congruence.
    + unfold fixed_children. simpl.
      apply (remove_first_filter c nm) with (data := _data eng) (data' := data');
        [|exact H].
      intros s [Hs1 Hs2]. by destruct Hc as [[-> _]|[-> _]].
    + intros k Hk. apply remove_first_inv in H
        as [(_ & -> & _) | (l1 & x & l2 & _ & _ & [Hx _] & _ & Hdel)]; [done|].
      eapply del_metrics_frame; [exact Hdel|..];
        destruct Hc as [[-> ->]|[-> ->]]; intros Hx'; congruence.
  - unfold names_of, children_of. simpl.
    by apply remove_first_names with (data := _data eng) (data' := data').
  - unfold backends_ok. simpl.
    by apply (remove_first_Forall c nm) with (data := _data eng) (data' := data').
Qed.

Lemma remove_vm_step eng nm eng' :
  remove_vm time_time eng nm = OK eng' →
  touches_only CVM "/node/vm" eng eng' ∧
  (NoDup (names_of CVM (root eng)) →
     NoDup (names_of CVM (root eng')) ∧
     (list_to_set (names_of CVM (root eng')) : gset string) =
       list_to_set (names_of CVM (root eng)) ∖ {[nm]}) ∧
  (backends_ok (root eng) → backends_ok (root eng')).
Proof.
  intros H. apply remove_vm_inv in H as (deps' & data' & H & ->).
  apply remove_first_step; auto.
Qed.

Lemma remove_kbnet_step eng nm eng' :
  remove_kbnet time_time eng nm = OK eng' →
  touches_only CKBNet "/node/kb" eng eng' ∧
  (NoDup (names_of CKBNet (root eng)) →
     NoDup (names_of CKBNet (root eng')) ∧
     (list_to_set (names_of CKBNet (root eng')) : gset string) =
       list_to_set (names_of CKBNet (root eng)) ∖ {[nm]}) ∧
  (backends_ok (root eng) → backends_ok (root eng')).
Proof.
  intros H. apply remove_kbnet_inv in H as (deps' & data' & H & ->).
  apply remove_first_step; auto.
Qed.

(** What appending a fresh child [x] of class [c] does. *)
Lemma append_child_step c scope eng x (data' : Store) :
  (c = CVM ∧ scope = "/node/vm") ∨ (c = CKBNet ∧ scope = "/node/kb") →
  cls x = c →
  (∀ k, k ≠ scope → data' !! k = _data eng !! k) →
  let eng' := _update_graph_changed_timestamp time_time
                (with_graph eng (set_dependencies (dependencies (root eng) ++ [x]) (root eng)) data') in
  touches_only c scope eng eng' ∧
  names_of c (root eng') = names_of c (root eng) ++ [name x].
Proof.
  intros Hc Hx Hframe. simpl. split.
  - repeat split; simpl; [| |done].
    + intros c' Hc'. unfold children_of. simpl.
      rewrite filter_app, filter_cons, decide_False by congruence.
      by rewrite filter_nil, app_nil_r.
    + unfold fixed_children. simpl.
      rewrite filter_app, filter_cons, decide_False.
      * by rewrite filter_nil, app_nil_r.
      * rewrite Hx. intros [H1 H2]. by destruct Hc as [[-> _]|[-> _]].
  - unfold names_of, children_of. simpl.
    rewrite filter_app, filter_cons, decide_True by done.
    by rewrite filter_nil, fmap_app.
Qed.

Lemma add_vm_step eng nm hyp eng' :
  add_vm capacity Symptom_init time_time eng nm hyp = OK eng' →
  touches_only CVM "/node/vm" eng eng' ∧
  names_of CVM (root eng') = names_of CVM (root eng) ++ [nm] ∧
  (hyp = "virtualbox" → backends_ok (root eng) → backends_ok (root eng')).
Proof.
  intros H. apply add_vm_inv in H as (vm & data' & H & ->).
  apply VM_init_inv in H as (Hc & Hn & Hb & d & ? & ? & ? & ? & Hd & _ & _ & _ & _ & ->).
  destruct (append_child_step CVM "/node/vm" eng vm
    (<["/node/vm" := VDict (<[nm:=VDict (fresh_vm_scope x x0 x1 x2)]> d)]> (_data eng)))
    as [Ht Hnames]; [auto|done| |].
  { intros k Hk. by rewrite lookup_insert_ne. }
  rewrite Hn in Hnames. repeat split; [apply Ht..|done|].
  intros -> Hok. unfold backends_ok. simpl. apply Forall_app. split; [done|].
  constructor; [|done]. split; [done|congruence].
Qed.

Lemma add_kbnet_step eng nm fw eng' :
  add_kbnet capacity Symptom_init time_time eng nm fw = OK eng' →
  touches_only CKBNet "/node/kb" eng eng' ∧
  names_of CKBNet (root eng') = names_of CKBNet (root eng) ++ [nm] ∧
  (fw = "vpp" → backends_ok (root eng) → backends_ok (root eng')).
Proof.
  intros H. apply add_kbnet_inv in H as (kb & data' & H & ->).
  apply KBNet_init_inv in H as (Hc & Hn & Hb & d & ? & ? & ? & Hd & _ & _ & _ & ->).
  destruct (append_child_step CKBNet "/node/kb" eng kb
    (<["/node/kb" := VDict (<[nm:=VDict (fresh_kb_scope x x0 x1)]> d)]> (_data eng)))
    as [Ht Hnames]; [auto|done| |].
  { intros k Hk. by rewrite lookup_insert_ne. }
  rewrite Hn in Hnames. repeat split; [apply Ht..|done|].
  intros -> Hok. unfold backends_ok. simpl. apply Forall_app. split; [done|].
  constructor; [|done]. split; [congruence|done].
Qed.

Lemma for_each_remove_vm l eng eng' :
  for_each (remove_vm time_time) l eng = OK eng' →
  touches_only CVM "/node/vm" eng eng' ∧
  (NoDup (names_of CVM (root eng)) →
     NoDup (names_of CVM (root eng')) ∧
     (list_to_set (names_of CVM (root eng')) : gset string) =
       list_to_set (names_of CVM (root eng)) ∖ list_to_set l) ∧
  (backends_ok (root eng) → backends_ok (root eng')).
Proof.
  revert eng. induction l as [|x l IH]; intros eng H; simpl in H.
  - simplify_eq. split; [apply touches_only_refl|]. split; [|done].
    intros Hnd. split; [done|]. set_solver.
  - exc_inv H. apply remove_vm_step in E as (Ht & Hn & Hb).
    apply IH in H as (Ht' & Hn' & Hb'). split; [|split].
    + by eapply touches_only_trans.
    + intros Hnd. destruct (Hn Hnd) as [Hnd1 Hs1].
      destruct (Hn' Hnd1) as [Hnd2 Hs2]. split; [done|].
      rewrite Hs2, Hs1. set_solver.
    + auto.
Qed.

Lemma for_each_remove_kbnet l eng eng' :
  for_each (remove_kbnet time_time) l eng = OK eng' →
  touches_only CKBNet "/node/kb" eng eng' ∧
  (NoDup (names_of CKBNet (root eng)) →
     NoDup (names_of CKBNet (root eng')) ∧
     (list_to_set (names_of CKBNet (root eng')) : gset string) =
       list_to_set (names_of CKBNet (root eng)) ∖ list_to_set l) ∧
  (backends_ok (root eng) → backends_ok (root eng')).
Proof.
  revert eng. induction l as [|x l IH]; intros eng H; simpl in H.
  - simplify_eq. split; [apply touches_only_refl|]. split; [|done].
    intros Hnd. split; [done|]. set_solver.
  - exc_inv H. apply remove_kbnet_step in E as (Ht & Hn & Hb).
    apply IH in H as (Ht' & Hn' & Hb'). split; [|split].
    + by eapply touches_only_trans.
    + intros Hnd. destruct (Hn Hnd) as [Hnd1 Hs1].
      destruct (Hn' Hnd1) as [Hnd2 Hs2]. split; [done|].
      rewrite Hs2, Hs1. set_solver.
    + auto.
Qed.

Lemma for_each_add_vm l eng eng' :
  for_each (λ e vm, add_vm capacity Symptom_init time_time e vm "virtualbox") l eng
    = OK eng' →
  touches_only CVM "/node/vm" eng eng' ∧
  names_of CVM (root eng') = names_of CVM (root eng) ++ l ∧
  (backends_ok (root eng) → backends_ok (root eng')).
Proof.
  revert eng. induction l as [|x l IH]; intros eng H; simpl in H.
  - simplify_eq. split; [apply touches_only_refl|]. by rewrite app_nil_r.
  - exc_inv H. apply add_vm_step in E as (Ht & Hn & Hb).
    apply IH in H as (Ht' & Hn' & Hb'). split; [|split].
    + by eapply touches_only_trans.
    + by rewrite Hn', Hn, <-app_assoc.
    + auto.
Qed.

Lemma for_each_add_kbnet l eng eng' :
  for_each (λ e kb, add_kbnet capacity Symptom_init time_time e kb "vpp") l eng
    = OK eng' →
  touches_only CKBNet "/node/kb" eng eng' ∧
  names_of CKBNet (root eng') = names_of CKBNet (root eng) ++ l ∧
  (backends_ok (root eng) → backends_ok (root eng')).
Proof.
  revert eng. induction l as [|x l IH]; intros eng H; simpl in H.
  - simplify_eq. split; [apply touches_only_refl|]. by rewrite app_nil_r.
  - exc_inv H. apply add_kbnet_step in E as (Ht & Hn & Hb).
    apply IH in H as (Ht' & Hn' & Hb'). split; [|split].
    + by eapply touches_only_trans.
    + by rewrite Hn', Hn, <-app_assoc.
    + auto.
Qed.

Lemma current_names_spec deps :
  current_names deps =
    (list_to_set (name <$> filter (λ s, cls s = CVM) deps),
     list_to_set (name <$> filter (λ s, cls s = CKBNet) deps)).
Proof.
  unfold current_names.
  assert (Hgen : ∀ (V K : gset string),
    foldl (λ '(vms, kbs) subservice,
             if bool_decide (cls subservice = CVM) then ({[name subservice]} ∪ vms, kbs)
             else if bool_decide (cls subservice = CKBNet)
                  then (vms, {[name subservice]} ∪ kbs)
                  else (vms, kbs)) (V, K) deps =
      (list_to_set (name <$> filter (λ s, cls s = CVM) deps) ∪ V,
       list_to_set (name <$> filter (λ s, cls s = CKBNet) deps) ∪ K)).
  { induction deps as [|s deps IH]; intros V K; simpl.
    - f_equal; set_solver.
    - rewrite !filter_cons. destruct (cls s) eqn:Hc; simpl; rewrite IH; f_equal;
        set_solver. }
  rewrite Hgen. f_equal; set_solver.
Qed.

Variable set_iter : gset string → list string.
Hypothesis set_iter_perm : ∀ S, set_iter S ≡ₚ elements S.

Lemma list_to_set_set_iter (S : gset string) : list_to_set (set_iter S) = S.
Proof. rewrite (set_iter_perm S). apply list_to_set_elements_L. Qed.

Lemma NoDup_set_iter (S : gset string) : NoDup (set_iter S).
Proof. rewrite (set_iter_perm S). apply NoDup_elements. Qed.

(** The run of [_update_dependency_graph] as its four loops, with what
    each of them does to the names of the root's children. *)
Lemma reconcile_inv eng eng' :
  _update_dependency_graph capacity Symptom_init time_time set_iter eng = OK eng' →
  NoDup (names_of CVM (root eng)) →
  NoDup (names_of CKBNet (root eng)) →
  ∃ (d_vms d_kbs : Value) (M MK : gset string),
    _data eng !! "virtualbox/vms" = Some d_vms ∧ keys d_vms = OK M ∧
    _data eng !! "vpp/gnmi" = Some d_kbs ∧ keys d_kbs = OK MK ∧
    (list_to_set (names_of CVM (root eng')) : gset string) = M ∧
    (list_to_set (names_of CKBNet (root eng')) : gset string) = MK ∧
    NoDup (names_of CVM (root eng')) ∧
    NoDup (names_of CKBNet (root eng')) ∧
    conf eng' = conf eng ∧
    fixed_children (root eng') = fixed_children (root eng) ∧
    (∀ k, k ≠ "/node/vm" → k ≠ "/node/kb" → _data eng' !! k = _data eng !! k) ∧
    (backends_ok (root eng) → backends_ok (root eng')).
Proof.
  unfold _update_dependency_graph. rewrite current_names_spec.
  fold (children_of CVM (root eng)) (children_of CKBNet (root eng)).
  fold (names_of CVM (root eng)) (names_of CKBNet (root eng)).
  set (V := list_to_set (names_of CVM (root eng)) : gset string).
  set (K := list_to_set (names_of CKBNet (root eng)) : gset string).
  intros H HndV HndK. exc_inv H.
  rename a into d_vms, a0 into M, a1 into d_kbs, a2 into MK.
  rename a3 into e1, a4 into e2, a5 into e3.
  unfold getitem in E, E1.
  destruct (_data eng !! "virtualbox/vms") as [v1|] eqn:Hv1; [|done].
  destruct (_data eng !! "vpp/gnmi") as [v2|] eqn:Hv2; [|done].
  simplify_eq.
  apply for_each_remove_vm in E3 as (T1 & N1 & B1).
  apply for_each_remove_kbnet in E4 as (T2 & N2 & B2).
  apply for_each_add_vm in E5 as (T3 & N3 & B3).
  apply for_each_add_kbnet in H as (T4 & N4 & B4).
  destruct T1 as (C1 & _ & K1 & F1 & D1). destruct T2 as (C2 & _ & K2 & F2 & D2).
  destruct T3 as (C3 & _ & K3 & F3 & D3). destruct T4 as (C4 & _ & K4 & F4 & D4).
  destruct (N1 HndV) as [Hnd1 Hs1].
  assert (HK1 : names_of CKBNet (root e1) = names_of CKBNet (root eng)).
  { unfold names_of. by rewrite K1. }
  rewrite <-HK1 in HndK. destruct (N2 HndK) as [Hnd2 Hs2].
  assert (HV2 : names_of CVM (root e2) = names_of CVM (root e1)).
  { unfold names_of. by rewrite K2. }
  assert (HK3 : names_of CKBNet (root e3) = names_of CKBNet (root e2)).
  { unfold names_of. by rewrite K3. }
  assert (HV4 : names_of CVM (root eng') = names_of CVM (root e3)).
  { unfold names_of. by rewrite K4. }
  rewrite list_to_set_set_iter in Hs1, Hs2. fold V in Hs1. rewrite HK1 in Hs2. fold K in Hs2.
  exists d_vms, d_kbs, M, MK. repeat split.
  - exact E0.
  - exact E2.
  - rewrite HV4, N3, HV2, list_to_set_app_L, Hs1, list_to_set_set_iter.
    clearbody V. apply set_eq. intros x.
    rewrite elem_of_union, !elem_of_difference.
    destruct (decide (x ∈ V)), (decide (x ∈ M)); tauto.
  - rewrite N4, HK3, list_to_set_app_L, Hs2, list_to_set_set_iter.
    clearbody K. apply set_eq. intros x.
    rewrite elem_of_union, !elem_of_difference.
    destruct (decide (x ∈ K)), (decide (x ∈ MK)); tauto.
  - rewrite HV4, N3, HV2. apply NoDup_app. repeat split; [done| |apply NoDup_set_iter].
    intros x Hx1 Hx2.
    assert (Hx3 : x ∈ (list_to_set (names_of CVM (root e1)) : gset string))
      by (by apply elem_of_list_to_set).
    assert (Hx4 : x ∈ (list_to_set (set_iter (M ∖ V)) : gset string))
      by (by apply elem_of_list_to_set).
    rewrite list_to_set_set_iter in Hx4. rewrite Hs1 in Hx3.
    rewrite !elem_of_difference in Hx3, Hx4. tauto.
  - rewrite N4, HK3. apply NoDup_app. repeat split; [done| |apply NoDup_set_iter].
    intros x Hx1 Hx2.
    assert (Hx3 : x ∈ (list_to_set (names_of CKBNet (root e2)) : gset string))
      by (by apply elem_of_list_to_set).
    assert (Hx4 : x ∈ (list_to_set (set_iter (MK ∖ K)) : gset string))
      by (by apply elem_of_list_to_set).
    rewrite list_to_set_set_iter in Hx4. rewrite Hs2 in Hx3.
    rewrite !elem_of_difference in Hx3, Hx4. tauto.
  - congruence.
  - congruence.
  - intros k Hk1 Hk2. rewrite D4, D3, D2, D1; done.
  - auto.
Qed.

(** C2: after [_update_dependency_graph], the names of the root's [VM]
    children are exactly the keys of the store entry ["virtualbox/vms"],
    and the names of its [KBNet] children exactly the keys of
    ["vpp/gnmi"], provided the names were pairwise distinct before. *)
Theorem reconcile_children (eng eng' : HealthEngine) :
  NoDup (names_of CVM (root eng)) →
  NoDup (names_of CKBNet (root eng)) →
  _update_dependency_graph capacity Symptom_init time_time set_iter eng = OK eng' →
  ∃ d_vms d_kbs,
    _data eng' !! "virtualbox/vms" = Some d_vms ∧
    _data eng' !! "vpp/gnmi" = Some d_kbs ∧
    keys d_vms = OK (list_to_set (names_of CVM (root eng'))) ∧
    keys d_kbs = OK (list_to_set (names_of CKBNet (root eng'))).
Proof.
  intros HndV HndK H.
  destruct (reconcile_inv eng eng' H HndV HndK)
    as (d_vms & d_kbs & M & MK & Hv & HM & Hk & HMK & HV & HK & _ & _ & _ & _ & D & _).
  exists d_vms, d_kbs. rewrite !D by done. rewrite HV, HK. done.
Qed.

(** Reconciliation leaves every child that is neither a [VM] nor a
    [KBNet] in place, whatever the store holds. *)
Lemma reconcile_fixed_children eng eng' :
  _update_dependency_graph capacity Symptom_init time_time set_iter eng = OK eng' →
  fixed_children (root eng') = fixed_children (root eng) ∧
  children_of CBaremetal (root eng') = children_of CBaremetal (root eng).
Proof.
  unfold _update_dependency_graph. destruct (current_names _) as [V K].
  intros H. exc_inv H.
  apply for_each_remove_vm in E3 as ((_ & _ & K1 & F1 & _) & _).
  apply for_each_remove_kbnet in E4 as ((_ & _ & K2 & F2 & _) & _).
  apply for_each_add_vm in E5 as ((_ & _ & K3 & F3 & _) & _).
  apply for_each_add_kbnet in H as ((_ & _ & K4 & F4 & _) & _).
  split; [congruence|]. rewrite K4, K3, K2, K1; done.
Qed.

(** C5: [remove_vm(name)] on a graph that holds a VM of that name deletes
    the key [name] from the dict [_data["/node/vm"]] and changes nothing
    else in the store; [remove_kbnet(name)] does the same with
    [_data["/node/kb"]]. *)
Theorem remove_deletes_scope (eng eng' : HealthEngine) (nm : string) :
  (nm ∈ names_of CVM (root eng) →
   remove_vm time_time eng nm = OK eng' →
   ∃ d, _data eng !! "/node/vm" = Some (VDict d) ∧ is_Some (d !! nm) ∧
        _data eng' = <["/node/vm" := VDict (delete nm d)]> (_data eng))
  ∧
  (nm ∈ names_of CKBNet (root eng) →
   remove_kbnet time_time eng nm = OK eng' →
   ∃ d, _data eng !! "/node/kb" = Some (VDict d) ∧ is_Some (d !! nm) ∧
        _data eng' = <["/node/kb" := VDict (delete nm d)]> (_data eng)).
Proof.
  split; intros Hin H.
  - apply remove_vm_inv in H as (deps' & data' & H & ->). simpl.
    apply remove_first_inv in H
      as [(_ & _ & Hall) | (l1 & x & l2 & _ & _ & [Hc Hn] & _ & Hdel)].
    + by apply filter_no_match in Hall.
    + unfold del_metrics in Hdel. rewrite Hc, Hn in Hdel.
      apply delitem2_OK in Hdel as (d & Hd & Hk & ->). eauto.
  - apply remove_kbnet_inv in H as (deps' & data' & H & ->). simpl.
    apply remove_first_inv in H
      as [(_ & _ & Hall) | (l1 & x & l2 & _ & _ & [Hc Hn] & _ & Hdel)].
    + by apply filter_no_match in Hall.
    + unfold del_metrics in Hdel. rewrite Hc, Hn in Hdel.
      apply delitem2_OK in Hdel as (d & Hd & Hk & ->). eauto.
Qed.

Lemma run_op_fixed_children eng op eng' :
  run_op capacity Symptom_init time_time set_iter eng op = OK eng' →
  fixed_children (root eng') = fixed_children (root eng) ∧
  children_of CBaremetal (root eng') = children_of CBaremetal (root eng).
Proof.
  destruct op; simpl; intros H.
  - apply add_vm_step in H as ((_ & _ & K1 & F1 & _) & _). by rewrite K1.
  - apply add_kbnet_step in H as ((_ & _ & K1 & F1 & _) & _). by rewrite K1.
  - apply remove_vm_step in H as ((_ & _ & K1 & F1 & _) & _). by rewrite K1.
  - apply remove_kbnet_step in H as ((_ & _ & K1 & F1 & _) & _). by rewrite K1.
  - by apply reconcile_fixed_children in H.
Qed.

Lemma run_ops_fixed_children ops eng eng' :
  run_ops capacity Symptom_init time_time set_iter ops eng = OK eng' →
  fixed_children (root eng') = fixed_children (root eng) ∧
  children_of CBaremetal (root eng') = children_of CBaremetal (root eng).
Proof.
  revert eng. induction ops as [|op ops IH]; intros eng H; simpl in H.
  - by simplify_eq.
  - exc_inv H. apply run_op_fixed_children in E as [F1 K1].
    apply IH in H as [F2 K2]. split; congruence.
Qed.

Variable _safe_rule : Symptom → list string → Exc bool.

Lemma HealthEngine_init_root data lookup metric_names rules sys nd eng :
  HealthEngine_init capacity Symptom_init _safe_rule time_time
    data lookup metric_names rules sys nd = OK eng →
  ∃ bm, cls bm = CBaremetal ∧ dependencies (root eng) = [bm].
Proof.
  unfold HealthEngine_init. intros H. exc_inv H.
  apply Node_init_inv in E0 as (bm & Hc & Hdeps). by exists bm.
Qed.

(** C9: from construction on, and through any sequence of [add_vm],
    [add_kbnet], [remove_vm], [remove_kbnet] and reconciliations against
    arbitrary store contents, the root keeps exactly one [Baremetal] child,
    the one built by the constructor, and that child is its only
    dependency that is neither a [VM] nor a [KBNet]. *)
Theorem single_baremetal data lookup metric_names rules sys nd
    (eng0 eng : HealthEngine) (ops : list GraphOp) :
  HealthEngine_init capacity Symptom_init _safe_rule time_time
    data lookup metric_names rules sys nd = OK eng0 →
  run_ops capacity Symptom_init time_time set_iter ops eng0 = OK eng →
  ∃ bm, cls bm = CBaremetal ∧
    dependencies (root eng0) = [bm] ∧
    children_of CBaremetal (root eng) = [bm] ∧
    fixed_children (root eng) = [bm].
Proof.
  intros Hinit Hops.
  apply HealthEngine_init_root in Hinit as (bm & Hc & Hdeps).
  apply run_ops_fixed_children in Hops as [F K].
  exists bm. repeat split; [done..| |].
  - rewrite K. unfold children_of. rewrite Hdeps, filter_cons, decide_True by done.
    done.
  - rewrite F. unfold fixed_children.
    rewrite Hdeps, filter_cons, decide_True; [done|]. rewrite Hc. done.
Qed.

(** C10: [VM.__init__] replaces [_data["/node/vm"][name]], whatever it
    held, by a scope made of the four groups the registry yields for
    ["vm"], ["proc"], ["net"] and ["mem"] and an empty interface dict, and
    none of these groups holds a sample; [KBNet.__init__] does the same
    with [_data["/node/kb"][name]]. *)
Theorem init_overwrites_scope conf (data data' : Store) (nm backend : string)
    (parent : option Subservice) (n : Subservice) :
  (VM_init capacity Symptom_init conf data nm backend parent = OK (n, data') →
   ∃ d rb_vm rb_proc rb_net rb_mem,
     data !! "/node/vm" = Some (VDict d) ∧
     data' = <["/node/vm" :=
                VDict (<[nm := VDict (fresh_vm_scope rb_vm rb_proc rb_net rb_mem)]> d)]> data ∧
     _init_metrics_rb capacity conf "vm" = OK rb_vm ∧
     _init_metrics_rb capacity conf "proc" = OK rb_proc ∧
     _init_metrics_rb capacity conf "net" = OK rb_net ∧
     _init_metrics_rb capacity conf "mem" = OK rb_mem ∧
     all_empty rb_vm ∧ all_empty rb_proc ∧ all_empty rb_net ∧ all_empty rb_mem)
  ∧
  (KBNet_init capacity Symptom_init conf data nm backend parent = OK (n, data') →
   ∃ d rb_kb rb_mem rb_proc,
     data !! "/node/kb" = Some (VDict d) ∧
     data' = <["/node/kb" :=
                VDict (<[nm := VDict (fresh_kb_scope rb_kb rb_mem rb_proc)]> d)]> data ∧
     _init_metrics_rb capacity conf "kb" = OK rb_kb ∧
     _init_metrics_rb capacity conf "mem" = OK rb_mem ∧
     _init_metrics_rb capacity conf "proc" = OK rb_proc ∧
     all_empty rb_kb ∧ all_empty rb_mem ∧ all_empty rb_proc).
Proof.
  split; intros H.
  - apply VM_init_inv in H
      as (_ & _ & _ & d & r1 & r2 & r3 & r4 & Hd & H1 & H2 & H3 & H4 & ->).
    exists d, r1, r2, r3, r4.
    repeat split; try done; eapply _init_metrics_rb_empty; eassumption.
  - apply KBNet_init_inv in H
      as (_ & _ & _ & d & r1 & r2 & r3 & Hd & H1 & H2 & H3 & ->).
    exists d, r1, r2, r3.
    repeat split; try done; eapply _init_metrics_rb_empty; eassumption.
Qed.

End GraphProofs.

(** ** Metric refresh *)

Lemma top3_OK (data : Store) k1 k2 k3 v :
  top3 data k1 k2 k3 = OK v ↔
  ∃ d1 d2 rb, data !! k1 = Some (VDict d1) ∧ d1 !! k2 = Some (VDict d2) ∧
    d2 !! k3 = Some (VRb rb) ∧ v = _top rb.
Proof.
  unfold top3. split.
  - intros H. apply bind_OK in H as (d1 & H1 & H). apply bind_OK in H as (d2 & H2 & H).
    apply bind_OK in H as (x & H3 & H). apply bind_OK in H as (rb & H4 & H).
    apply getdict_OK in H1, H2. unfold getitem in H3.
    destruct (d2 !! k3) as [y|] eqn:Hy; [|done].
    destruct x; simplify_eq. simpl in H4. simplify_eq. eauto 10.
  - intros (d1 & d2 & rb & H1 & H2 & H3 & ->). apply getdict_OK in H1, H2.
    rewrite H1. simpl. rewrite H2. simpl. unfold getitem. by rewrite H3.
Qed.

Section RefreshProofs.

Variable linux_adapter :
  Adapter → Subservice → option Subservice → Store → Exc Store.
Variable check : Symptom → Store → bool.

(** The node's own refresh never touches its dependencies. *)
Lemma _update_metrics_dependencies sys parent n (data : Store) n' data' :
  _update_metrics linux_adapter sys parent n data = OK (n', data') →
  dependencies n' = dependencies n.
Proof.
  unfold _update_metrics, VM__update_metrics, KBNet__update_metrics.
  destruct (cls n); intros H; exc_inv H; done.
Qed.

(** After [update_symptoms], the positive symptoms of every node of the
    graph are those of its bound symptoms whose check holds. *)
Lemma update_symptoms_evaluates_all (data : Store) (n m : Subservice) :
  m ∈ subservices (update_symptoms check data n).1 →
  positive_symptoms m = filter (λ s, check s data = true) (symptoms m).
Proof.
  revert m. induction n as [n IH] using Subservice_tree_ind. intros m Hm.
  rewrite subservices_unfold, upd_dependencies in Hm.
  apply elem_of_cons in Hm as [-> | Hm].
  - rewrite upd_positive_symptoms.
    destruct (update_symptoms_spec check data n) as [hs ->]. done.
  - apply list_elem_of_In, in_flat_map in Hm as (c' & Hc' & Hm).
    apply list_elem_of_In, list_elem_of_fmap in Hc' as (c & -> & Hc).
    rewrite Forall_forall in IH. apply (IH c Hc). by apply list_elem_of_In.
Qed.

(** C7: the refresh of a [VM] sets [active] to whether the most recent
    sample of [virtualbox/vms/<name>/state] is ["Running"], the refresh of
    a [KBNet] to whether that of [vpp/gnmi/<name>/status] is ["synced"];
    when a node is inactive after its own refresh, [update_metrics] returns
    right there, without refreshing any of its dependencies; and
    [update_symptoms] evaluates the bound symptoms of every node of the
    graph, whatever its [active] flag. *)
Theorem active_flag_and_refresh sys parent (n n' : Subservice) (data data' : Store) :
  _update_metrics linux_adapter sys parent n data = OK (n', data') →
  (cls n = CVM → backend n = "virtualbox" →
     ∃ d1 d2 rb, data !! "virtualbox/vms" = Some (VDict d1) ∧
       d1 !! name n = Some (VDict d2) ∧ d2 !! "state" = Some (VRb rb) ∧
       active n' = py_eq_str (_top rb) "Running")
  ∧ (cls n = CKBNet → backend n = "vpp" →
     ∃ d1 d2 rb, data !! "vpp/gnmi" = Some (VDict d1) ∧
       d1 !! name n = Some (VDict d2) ∧ d2 !! "status" = Some (VRb rb) ∧
       active n' = py_eq_str (_top rb) "synced")
  ∧ (active n' = false →
     update_metrics linux_adapter sys parent n data = OK (n', data') ∧
     dependencies n' = dependencies n)
  ∧ (∀ store root m, m ∈ subservices (update_symptoms check store root).1 →
     positive_symptoms m = filter (λ s, check s store = true) (symptoms m)).
Proof.
  intros H. split; [|split; [|split]].
  - intros Hc Hb. unfold _update_metrics in H. rewrite Hc in H.
    unfold VM__update_metrics in H. rewrite Hb in H. exc_inv H.
    apply top3_OK in E as (d1 & d2 & rb & H1 & H2 & H3 & ->).
    exists d1, d2, rb. done.
  - intros Hc Hb. unfold _update_metrics in H. rewrite Hc in H.
    unfold KBNet__update_metrics in H. rewrite Hb in H. exc_inv H.
    apply top3_OK in E as (d1 & d2 & rb & H1 & H2 & H3 & ->).
    exists d1, d2, rb. done.
  - intros Ha. split; [|by eapply _update_metrics_dependencies].
    destruct n. unfold update_metrics. rewrite H. simpl. by rewrite Ha.
  - intros store r m. apply update_symptoms_evaluates_all.
Qed.

End RefreshProofs.

(** ** The cycle *)

Section CycleProofs.

Variable capacity : nat.
Variable Symptom_init : SymptomArgs → option string → Exc Symptom.
Variable time_time : nat → string.
Variable set_iter : gset string → list string.
Variable linux_adapter :
  Adapter → Subservice → option Subservice → Store → Exc Store.
Variable check : Symptom → Store → bool.
Variable watchers_input : Store → Exc Store.

Local Abbreviation reconcile :=
  (_update_dependency_graph capacity Symptom_init time_time set_iter).
Local Abbreviation health :=
  (update_health check capacity Symptom_init time_time set_iter linux_adapter).
Local Abbreviation cycle :=
  (process check capacity Symptom_init time_time set_iter linux_adapter watchers_input).

(** [update_health] is reconciliation, then refresh of the reconciled
    graph, then aggregation over the refreshed store. *)
Lemma update_health_inv eng eng' :
  health eng = OK eng' →
  ∃ e_rec r_ref d_ref,
    reconcile eng = OK e_rec ∧
    update_metrics linux_adapter (system (conf e_rec)) None (root e_rec) (_data e_rec)
      = OK (r_ref, d_ref) ∧
    root eng' = (update_symptoms check d_ref r_ref).1 ∧
    _data eng' =
      <["health_scores" := VScores (update_symptoms check d_ref r_ref).2.2]>
        (<["symptoms" := VSymptoms (update_symptoms check d_ref r_ref).2.1]> d_ref).
Proof.
  unfold update_health. intros H.
  apply bind_OK in H as (e_rec & Hrec & H).
  apply bind_OK in H as ([r_ref d_ref] & Href & H).
  exists e_rec, r_ref, d_ref.
  destruct (update_symptoms check d_ref r_ref) as [r [sy hs]]. by simplify_eq.
Qed.

(** C8: in a cycle that completes, the watchers' input comes first;
    reconciliation runs on the store they left; the refresh runs on the
    reconciled graph and store; aggregation runs on the refreshed graph
    and store; and the one snapshot handed to the shared buffer (none when
    it is disabled) is the store [update_health] returned.  A cycle in
    which [update_health] raises publishes nothing: it raises too. *)
Theorem cycle_order (a : DXAgent) :
  (∀ a', cycle a = OK a' →
     ∃ d_in e_rec r_ref d_ref,
       watchers_input (_data (engine a)) = OK d_in ∧
       reconcile (with_graph (engine a) (root (engine a)) d_in) = OK e_rec ∧
       update_metrics linux_adapter (system (conf e_rec)) None (root e_rec) (_data e_rec)
         = OK (r_ref, d_ref) ∧
       root (engine a') = (update_symptoms check d_ref r_ref).1 ∧
       _data (engine a') =
         <["health_scores" := VScores (update_symptoms check d_ref r_ref).2.2]>
           (<["symptoms" := VSymptoms (update_symptoms check d_ref r_ref).2.1]> d_ref) ∧
       health (with_graph (engine a) (root (engine a)) d_in) = OK (engine a') ∧
       sbuffer a' =
         if disable_shm a then sbuffer a
         else sbuffer a ++ [(_data (engine a'), if verbose a then [] else ["stats"])])
  ∧ (∀ d_in e,
       watchers_input (_data (engine a)) = OK d_in →
       health (with_graph (engine a) (root (engine a)) d_in) = Raise e →
       cycle a = Raise e).
Proof.
  split.
  - intros a' H. unfold process in H.
    apply bind_OK in H as (d_in & Hin & H).
    apply bind_OK in H as (eng & Hh & H). simplify_eq. simpl.
    destruct (update_health_inv _ _ Hh) as (e_rec & r_ref & d_ref & H1 & H2 & H3 & H4).
    exists d_in, e_rec, r_ref, d_ref. repeat split; try done.
    by destruct (disable_shm a), (verbose a).
  - intros d_in e Hin Hh. unfold process. rewrite Hin. simpl. by rewrite Hh.
Qed.

End CycleProofs.

(** ** Rule loading *)

Section RuleProofs.

Variable Symptom_init : SymptomArgs → option string → Exc Symptom.
Variable _safe_rule : Symptom → list string → Exc bool.

Local Abbreviation load_row := (read_rule_row Symptom_init _safe_rule).
Local Abbreviation load := (_read_rule_file Symptom_init _safe_rule).

(** A row whose severity names no member of the enumeration is logged and
    skipped. *)
Lemma unknown_severity_skipped metrics args log r sev :
  r_severity r = Some sev →
  Severity_getitem (str_upper sev) = Raise (KeyError (str_upper sev)) →
  load_row metrics (args, log) r =
    OK (args, log ++ ["Invalid rule Severity: " +:+ sev]).
Proof.
  intros Hs Hk. unfold read_rule_row. rewrite Hs. simpl. by rewrite Hk.
Qed.

(** A row whose rule fails the whitelist is logged and skipped. *)
Lemma unsafe_rule_skipped metrics args log r sev severity symptom :
  r_severity r = Some sev →
  Severity_getitem (str_upper sev) = OK severity →
  Symptom_init (r_name r, r_path r, severity, r_rule r) None = OK symptom →
  _safe_rule symptom metrics = OK false →
  load_row metrics (args, log) r =
    OK (args, log ++ ["Invalid rule: " +:+ py_format (r_rule r)]).
Proof.
  intros Hs Hk Hi Hsafe. unfold read_rule_row. rewrite Hs. simpl. rewrite Hk.
  rewrite Hi. simpl. by rewrite Hsafe.
Qed.

(** An exception of the symptom constructor is not caught: it leaves the
    loop. *)
Lemma constructor_error_escapes metrics args log r sev severity e rest :
  r_severity r = Some sev →
  Severity_getitem (str_upper sev) = OK severity →
  Symptom_init (r_name r, r_path r, severity, r_rule r) None = Raise e →
  read_rule_rows Symptom_init _safe_rule metrics (r :: rest) (args, log) = Raise e.
Proof.
  intros Hs Hk Hi. simpl. unfold read_rule_row. rewrite Hs. simpl. rewrite Hk.
  by rewrite Hi.
Qed.

(** C6 (the code departs from the claim): a row shorter than the header,
    whose severity field is therefore [None], makes [_read_rule_file]
    raise a [TypeError], whatever rows follow, and with it the
    constructor of the engine. *)
Theorem short_row_aborts_loading capacity time_time data lookup metrics
    (name path : string) (rest : list RuleRow) (log : list string) sys nd :
  let row := mkRuleRow (Some name) (Some path) None None in
  load metrics (row :: rest) log = Raise TypeError
  ∧ HealthEngine_init capacity Symptom_init _safe_rule time_time
      data lookup metrics (row :: rest) sys nd = Raise TypeError.
Proof. split; reflexivity. Qed.

End RuleProofs.

(** * Further properties of the code *)

(** ** Aggregation *)

Section MoreAggregation.

Variable check : Symptom → Store → bool.
Variable data : Store.

Local Abbreviation upd := (update_symptoms check data).
Local Abbreviation fired := (λ s : Symptom, check s data = true).

Lemma deps_loop_scores (f : Subservice → Subservice * (list Symptom * gmap string Z))
    deps score pos hs :
  (deps_loop f deps (score, pos, hs)).2.2 = foldl (λ acc d, (f d).2.2 ∪ acc) hs deps.
Proof.
  revert score pos hs. induction deps as [|d deps IH]; intros score pos hs; simpl; [done|].
  destruct (f d) as [d' [p h]] eqn:Hd. simpl.
  specialize (IH (if impacting d' then Z.max 0 (score - (100 - health_score d')) else score)
                 (pos ++ p) (h ∪ hs)).
  destruct (deps_loop f deps _) as [rest' st']. simpl in *. exact IH.
Qed.

Lemma upd_scores n :
  (upd n).2.2 =
    <[fullname n := health_score (upd n).1]>
      (foldl (λ acc d, (upd d).2.2 ∪ acc) ∅ (dependencies n)).
Proof.
  rewrite <-(deps_loop_scores upd (dependencies n) 100 [] ∅).
  destruct n as [c t nm i deps a f p h s ps b]. simpl.
  destruct (deps_loop _ deps _) as [deps' [[sc pos] hs]]. simpl.
  destruct (symptoms_loop _ _ _ _) as [ps' sc']. done.
Qed.

Lemma foldl_weights_le score ws :
  Forall (λ w, 0 ≤ w) ws → 0 ≤ score →
  foldl (λ sc w, Z.max 0 (sc - w)) score ws ≤ score.
Proof.
  intros H. revert score. induction H as [|w ws Hw _ IH]; intros score Hs; simpl; [lia|].
  etrans; [apply IH|]; lia.
Qed.

Lemma foldl_child_step_le score cs :
  Forall (λ c, health_score c ≤ 100) cs → 0 ≤ score →
  foldl child_step score cs ≤ score.
Proof.
  intros H. revert score. induction H as [|c cs Hc _ IH]; intros score Hs; simpl; [lia|].
  etrans; [apply IH|]; unfold child_step; destruct (impacting c); lia.
Qed.

Lemma foldl_child_step_le_child score cs c :
  Forall (λ c, 0 ≤ health_score c ≤ 100) cs → 0 ≤ score ≤ 100 →
  c ∈ cs → impacting c = true →
  foldl child_step score cs ≤ health_score c.
Proof.
  intros H. revert score. induction H as [|c0 cs Hc0 Hcs IH]; intros score Hs Hin Hi.
  - by apply elem_of_nil in Hin.
  - simpl. apply elem_of_cons in Hin as [<- | Hin].
    + etrans; [apply foldl_child_step_le|].
      * eapply Forall_impl; [exact Hcs|]. simpl. intros; lia.
      * unfold child_step. destruct (impacting c); lia.
      * unfold child_step. rewrite Hi. lia.
    + apply IH; [|done..]. unfold child_step. destruct (impacting c0); lia.
Qed.

Lemma upd_score_bounds n : 0 ≤ health_score (upd n).1 ≤ 100.
Proof.
  induction n as [n IH] using Subservice_tree_ind.
  rewrite upd_health_score. apply weight_step_bounds.
  - apply child_step_bounds; [lia|]. apply Forall_fmap.
    eapply Forall_impl; [exact IH|]. simpl. intros; lia.
  - apply Forall_fmap, Forall_forall. intros s _. apply Symptom_weight_nonneg.
Qed.

Lemma subservices_score_bounds n m :
  m ∈ subservices (upd n).1 → 0 ≤ health_score m ≤ 100.
Proof.
  revert m. induction n as [n IH] using Subservice_tree_ind. intros m Hm.
  rewrite subservices_unfold, upd_dependencies in Hm.
  apply elem_of_cons in Hm as [-> | Hm]; [apply upd_score_bounds|].
  apply list_elem_of_In, in_flat_map in Hm as (c' & Hc' & Hm).
  apply list_elem_of_In, list_elem_of_fmap in Hc' as (c & -> & Hc).
  rewrite Forall_forall in IH. apply (IH c Hc). by apply list_elem_of_In.
Qed.

(** X1: a node never scores higher than any of its impacting
    dependencies. *)
Theorem parent_at_most_impacting_child (n c' : Subservice) :
  c' ∈ dependencies (upd n).1 → impacting c' = true →
  health_score (upd n).1 ≤ health_score c'.
Proof.
  intros Hin Hi. rewrite upd_dependencies in Hin. rewrite upd_health_score.
  assert (Hb : Forall (λ c, 0 ≤ health_score c ≤ 100) ((λ d, (upd d).1) <$> dependencies n)).
  { apply Forall_fmap, Forall_forall. intros d _. simpl.
    apply upd_score_bounds. }
  etrans; [apply foldl_weights_le|].
  - apply Forall_fmap, Forall_forall. intros s _. apply Symptom_weight_nonneg.
  - apply child_step_bounds; [lia|]. eapply Forall_impl; [exact Hb|]. simpl. intros; lia.
  - apply foldl_child_step_le_child; [done|lia|done..].
Qed.

Lemma upd_fields n :
  cls (upd n).1 = cls n ∧ _type (upd n).1 = _type n ∧ name (upd n).1 = name n ∧
  active (upd n).1 = active n ∧ fullname (upd n).1 = fullname n ∧
  path (upd n).1 = path n ∧ symptoms (upd n).1 = symptoms n ∧
  backend (upd n).1 = backend n.
Proof. destruct (update_symptoms_spec check data n) as [hs ->]. done. Qed.

Lemma erase_scores_unfold n :
  erase_scores n =
    mkSubservice (cls n) (_type n) (name n) (impacting n)
      (erase_scores <$> dependencies n) (active n) (fullname n) (path n) 100
      (symptoms n) [] (backend n).
Proof. by destruct n. Qed.

Lemma erase_scores_upd (n : Subservice) :
  erase_scores (upd n).1 = erase_scores n.
Proof.
  induction n as [n IH] using Subservice_tree_ind.
  rewrite (erase_scores_unfold (upd n).1), (erase_scores_unfold n).
  destruct (upd_fields n) as (-> & -> & -> & -> & -> & -> & -> & ->).
  rewrite upd_impacting, upd_dependencies. f_equal.
  rewrite <-list_fmap_compose. apply Forall_fmap_ext_1.
  eapply Forall_impl; [exact IH|]. done.
Qed.

(** Two subtrees that differ only in scores and positive symptoms are
    updated to the same result. *)
Lemma upd_erase_scores n : upd (erase_scores n) = upd n.
Proof.
  induction n as [n IH] using Subservice_tree_ind.
  destruct n as [c t nm i deps a f p h s ps b]. simpl in *.
  assert (Hloop : ∀ st, deps_loop upd (map erase_scores deps) st = deps_loop upd deps st).
  { clear -IH. induction IH as [|d deps Hd _ IHd]; intros [[sc pos] hs]; simpl; [done|].
    rewrite Hd. destruct (upd d) as [d' [p0 h0]]. by rewrite IHd. }
  rewrite Hloop. destruct (deps_loop upd deps _) as [deps' [[sc pos] hs]].
  by destruct (symptoms_loop _ _ _ _).
Qed.

Lemma erase_scores_eq_upd n m :
  erase_scores n = erase_scores m → upd n = upd m.
Proof. intros H. by rewrite <-(upd_erase_scores n), H, upd_erase_scores. Qed.

(** X2: [update_symptoms] changes nothing of a subtree but the scores and
    the positive symptoms: classes, names, paths, flags, bound symptoms and
    the shape of the tree stay. *)
Theorem update_symptoms_keeps_graph (n : Subservice) :
  erase_scores (upd n).1 = erase_scores n.
Proof. apply erase_scores_upd. Qed.

(** X3: the result of [update_symptoms] does not depend on the scores and
    positive symptoms a previous run left on the nodes; in particular
    running it again on its own output gives the same output. *)
Theorem update_symptoms_forgets_previous (n m : Subservice) :
  (erase_scores n = erase_scores m → upd n = upd m)
  ∧ upd (upd n).1 = upd n.
Proof.
  split; [apply erase_scores_eq_upd|]. apply erase_scores_eq_upd, erase_scores_upd.
Qed.

Lemma post_order_unfold n :
  post_order n = flat_map post_order (dependencies n) ++ [n].
Proof. by destruct n. Qed.

Lemma flat_map_concat {A B} (f : A → list B) l : flat_map f l = concat (f <$> l).
Proof. induction l as [|x l IH]; simpl; [done|]. by rewrite IH. Qed.

Lemma upd_positives_post_order (n : Subservice) :
  (upd n).2.1 = concat (positive_symptoms <$> post_order (upd n).1).
Proof.
  induction n as [n IH] using Subservice_tree_ind.
  rewrite upd_positives, post_order_unfold, upd_dependencies.
  rewrite fmap_app, concat_app. simpl. rewrite app_nil_r, upd_positive_symptoms.
  f_equal.
  induction IH as [|d deps Hd _ IHd]; csimpl; [done|].
  rewrite fmap_app, concat_app. by rewrite Hd, IHd.
Qed.

(** X4: the flat list [update_symptoms] returns is made of the positive
    symptoms of the nodes of the subtree, dependencies before the node that
    depends on them, and every symptom in it fired on the store. *)
Theorem positives_in_post_order (n : Subservice) :
  (upd n).2.1 = concat (positive_symptoms <$> post_order (upd n).1)
  ∧ Forall fired (upd n).2.1.
Proof.
  split; [apply upd_positives_post_order|].
  induction n as [n IH] using Subservice_tree_ind.
  rewrite upd_positives. apply Forall_app. split.
  - apply Forall_concat, Forall_fmap. exact IH.
  - apply Forall_forall. intros s Hs. by apply list_elem_of_filter in Hs as [Hs _].
Qed.

Lemma foldl_union_dom (l : list Subservice) (acc : gmap string Z) :
  Forall (λ d, dom (upd d).2.2 = list_to_set (fullname <$> subservices d)) l →
  dom (foldl (λ acc d, (upd d).2.2 ∪ acc) acc l) =
    list_to_set (fullname <$> flat_map subservices l) ∪ dom acc.
Proof.
  intros H. revert acc. induction H as [|d l Hd _ IH]; intros acc; simpl.
  - set_solver.
  - rewrite IH, dom_union_L, Hd, fmap_app, list_to_set_app_L. set_solver.
Qed.

Lemma upd_scores_dom n :
  dom (upd n).2.2 = list_to_set (fullname <$> subservices n).
Proof.
  induction n as [n IH] using Subservice_tree_ind.
  rewrite upd_scores, dom_insert_L, foldl_union_dom by done.
  rewrite subservices_unfold. simpl. set_solver.
Qed.

Lemma subservices_upd_fullnames n :
  fullname <$> subservices (upd n).1 = fullname <$> subservices n.
Proof.
  induction n as [n IH] using Subservice_tree_ind.
  rewrite (subservices_unfold (upd n).1), (subservices_unfold n), upd_dependencies.
  rewrite !fmap_cons. destruct (upd_fields n) as (_ & _ & _ & _ & -> & _). f_equal.
  induction IH as [|d deps Hd _ IHd]; csimpl; [done|].
  by rewrite !fmap_app, Hd, IHd.
Qed.

Lemma foldl_union_lookup (l : list Subservice) (acc : gmap string Z) k v :
  foldl (λ acc d, (upd d).2.2 ∪ acc) acc l !! k = Some v →
  acc !! k = Some v ∨ ∃ d, d ∈ l ∧ (upd d).2.2 !! k = Some v.
Proof.
  revert acc. induction l as [|d l IH]; intros acc H; simpl in H; [by left|].
  apply IH in H as [H | (d' & Hd' & H)].
  - apply lookup_union_Some_raw in H as [H | [_ H]].
    + right. exists d. split; [left|done].
    + by left.
  - right. exists d'. split; [by right|done].
Qed.

Lemma upd_scores_lookup n k v :
  (upd n).2.2 !! k = Some v →
  ∃ m, m ∈ subservices (upd n).1 ∧ fullname m = k ∧ health_score m = v.
Proof.
  revert k v. induction n as [n IH] using Subservice_tree_ind. intros k v H.
  rewrite upd_scores in H. rewrite subservices_unfold, upd_dependencies.
  destruct (decide (fullname n = k)) as [<- | Hne].
  - rewrite lookup_insert_eq in H. simplify_eq. exists (upd n).1.
    split; [left|]. split; [|done]. by destruct (upd_fields n) as (_ & _ & _ & _ & -> & _).
  - rewrite lookup_insert_ne in H by done.
    apply foldl_union_lookup in H as [H | (d & Hd & H)]; [by rewrite lookup_empty in H|].
    rewrite Forall_forall in IH. destruct (IH d Hd k v H) as (m & Hm & Hk & Hv).
    exists m. split; [|done]. right. apply list_elem_of_In, in_flat_map.
    exists (upd d).1. split; apply list_elem_of_In; [|done].
    apply list_elem_of_fmap. by exists d.
Qed.

(** X5: the dict of health scores [update_symptoms] returns has one key
    per fullname of the subtree; under the node's own fullname it holds the
    node's score; and every value in it is the score of some node of that
    fullname, hence between 0 and 100. *)
Theorem health_scores_dict (n : Subservice) :
  dom (upd n).2.2 = list_to_set (fullname <$> subservices n)
  ∧ (upd n).2.2 !! fullname n = Some (health_score (upd n).1)
  ∧ ∀ k v, (upd n).2.2 !! k = Some v →
      0 ≤ v ≤ 100 ∧
      ∃ m, m ∈ subservices (upd n).1 ∧ fullname m = k ∧ health_score m = v.
Proof.
  split; [apply upd_scores_dom|]. split.
  - rewrite upd_scores. apply lookup_insert_eq.
  - intros k v H. destruct (upd_scores_lookup n k v H) as (m & Hm & Hk & Hv).
    split; [|eauto]. subst v. eapply subservices_score_bounds, Hm.
Qed.

End MoreAggregation.

(** ** Adding, removing and reconciling children *)

Lemma bind_ret {A B} (a : A) (k : A → Exc B) : OK a ≫= k = k a.
Proof. reflexivity. Qed.

Lemma set_dependencies_id r : set_dependencies (dependencies r) r = r.
Proof. by destruct r. Qed.

Lemma with_graph_id eng : with_graph eng (root eng) (_data eng) = eng.
Proof. by destruct eng. Qed.

Section MoreGraph.

Variable capacity : nat.
Variable Symptom_init : SymptomArgs → option string → Exc Symptom.
Variable time_time : nat → string.

Lemma remove_first_absent c nm deps (data : Store) :
  nm ∉ name <$> filter (λ s, cls s = c) deps →
  remove_first c nm deps data = OK (deps, data).
Proof.
  induction deps as [|s deps IH]; intros Hnot; simpl; [done|].
  rewrite filter_cons in Hnot.
  destruct (decide (cls s = c)) as [Hc|Hc].
  - rewrite fmap_cons in Hnot. apply not_elem_of_cons in Hnot as [Hne Hnot].
    rewrite (bool_decide_eq_true_2 _ Hc), bool_decide_eq_false_2 by done. simpl.
    by rewrite IH.
  - rewrite bool_decide_eq_false_2 by done. simpl. by rewrite IH.
Qed.

(** X6: removing a name the graph does not hold changes neither the graph
    nor the store; the change timestamp is refreshed all the same. *)
Theorem remove_absent (eng : HealthEngine) (nm : string) :
  (nm ∉ names_of CVM (root eng) →
     remove_vm time_time eng nm = OK (_update_graph_changed_timestamp time_time eng))
  ∧ (nm ∉ names_of CKBNet (root eng) →
     remove_kbnet time_time eng nm = OK (_update_graph_changed_timestamp time_time eng)).
Proof.
  split; intros Hnot.
  - unfold remove_vm, Node_remove_vm. rewrite remove_first_absent by done. simpl.
    by rewrite set_dependencies_id, with_graph_id.
  - unfold remove_kbnet, Node_remove_kbnet. rewrite remove_first_absent by done. simpl.
    by rewrite set_dependencies_id, with_graph_id.
Qed.

Lemma remove_first_last c nm deps x (data : Store) :
  nm ∉ name <$> filter (λ s, cls s = c) deps →
  cls x = c → name x = nm →
  remove_first c nm (deps ++ [x]) data =
    data' ← del_metrics x data; OK (deps, data').
Proof.
  intros Hnot Hc Hn. induction deps as [|s deps IH]; simpl.
  - rewrite !bool_decide_eq_true_2 by done. done.
  - rewrite filter_cons in Hnot.
    destruct (decide (cls s = c)) as [Hs|Hs].
    + rewrite fmap_cons in Hnot. apply not_elem_of_cons in Hnot as [Hne Hnot].
      rewrite (bool_decide_eq_true_2 _ Hs), bool_decide_eq_false_2 by done. simpl.
      rewrite IH by done. by destruct (del_metrics x data).
    + rewrite bool_decide_eq_false_2 by done. simpl.
      rewrite IH by done. by destruct (del_metrics x data).
Qed.

(** X7: adding a VM under a name the graph does not hold and removing it
    again gives back the root as it was; if the store held no scope of that
    name either, it gives back the store too.  Two timestamps were taken. *)
Theorem add_then_remove_vm (eng e1 : HealthEngine) (nm hyp : string) :
  nm ∉ names_of CVM (root eng) →
  add_vm capacity Symptom_init time_time eng nm hyp = OK e1 →
  ∃ e2, remove_vm time_time e1 nm = OK e2 ∧
    root e2 = root eng ∧
    conf e2 = conf eng ∧
    clock e2 = S (S (clock eng)) ∧
    ∀ d, _data eng !! "/node/vm" = Some (VDict d) → d !! nm = None →
         _data e2 = _data eng.
Proof.
  intros Hnot H. apply add_vm_inv in H as (vm & data' & H & ->).
  apply VM_init_inv in H as (Hc & Hn & _ & d & r1 & r2 & r3 & r4 & Hd & _ & _ & _ & _ & ->).
  unfold remove_vm, Node_remove_vm. simpl.
  rewrite remove_first_last by done.
  unfold del_metrics. rewrite Hc, Hn. unfold delitem2, getdict, getitem.
  rewrite lookup_insert_eq. simpl. rewrite lookup_insert_eq. simpl.
  eexists. split; [reflexivity|]. simpl.
  repeat split; [by destruct (root eng)|].
  intros d0 Hd0 Hnone. simplify_eq.
  rewrite insert_insert_eq, delete_insert_eq, delete_id by done. by apply insert_id.
Qed.

(** X8: [remove_vm] on a VM the graph holds, but whose scope is missing
    from [_data["/node/vm"]], raises a [KeyError]. *)
Theorem remove_vm_without_scope (eng : HealthEngine) (nm : string) d :
  nm ∈ names_of CVM (root eng) →
  _data eng !! "/node/vm" = Some (VDict d) →
  d !! nm = None →
  remove_vm time_time eng nm = Raise (KeyError nm).
Proof.
  intros Hin Hd Hnone. unfold remove_vm, Node_remove_vm.
  assert (Hloop : remove_first CVM nm (dependencies (root eng)) (_data eng)
                  = Raise (KeyError nm)).
  { unfold names_of, children_of in Hin. induction (dependencies (root eng)) as [|s deps IH].
    - by apply elem_of_nil in Hin.
    - simpl. rewrite filter_cons in Hin. destruct (decide (cls s = CVM)) as [Hc|Hc].
      + rewrite (bool_decide_eq_true_2 _ Hc). rewrite fmap_cons in Hin.
        destruct (decide (name s = nm)) as [Hn|Hn].
        * rewrite (bool_decide_eq_true_2 _ Hn). simpl.
          unfold del_metrics. rewrite Hc, Hn. unfold delitem2, getdict, getitem.
          rewrite Hd. simpl. by rewrite Hnone.
        * rewrite bool_decide_eq_false_2 by done. simpl.
          apply elem_of_cons in Hin as [Hin|Hin]; [congruence|]. by rewrite IH.
      + rewrite bool_decide_eq_false_2 by done. simpl. by rewrite IH. }
  by rewrite Hloop.
Qed.

Lemma get_symptoms_OK args p f :
  (∀ a bound, a ∈ args → is_OK (Symptom_init a bound)) →
  is_OK (get_symptoms Symptom_init args p f).
Proof.
  induction args as [|a args IH]; intros Hok; simpl; [by eexists|].
  destruct IH as [l Hl]. { intros a' b Ha'. apply Hok. by right. }
  destruct (_ || _); [|by eexists].
  destruct (Hok a (Some f)) as [s Hs]; [left|]. rewrite Hs. simpl. rewrite Hl.
  by eexists.
Qed.

Lemma Subservice_init_OK c t nm conf parent b :
  constructors_ok Symptom_init conf →
  is_OK (Subservice_init Symptom_init c t nm conf parent b).
Proof.
  intros Hok. unfold Subservice_init.
  destruct (get_symptoms_OK (_symptoms_args conf) (find_path t parent)
              (find_fullname t nm parent)) as [l Hl]; [exact Hok|].
  rewrite Hl. by eexists.
Qed.

Lemma resource_children_OK conf self deps :
  constructors_ok Symptom_init conf →
  is_OK (resource_children Symptom_init conf self deps).
Proof.
  intros Hok. unfold resource_children. induction deps as [|d deps [l Hl]]; simpl.
  - by eexists.
  - destruct (Subservice_init_OK CSubservice d EmptyString conf (Some self) EmptyString Hok)
      as [x Hx].
    rewrite Hx. simpl. rewrite Hl. by eexists.
Qed.

Lemma _init_metrics_rb_OK conf k :
  is_Some (metrics_lookup conf !! k) → is_OK (_init_metrics_rb capacity conf k).
Proof. intros [r Hr]. unfold _init_metrics_rb. rewrite Hr. by eexists. Qed.

Lemma VM_init_OK conf (data : Store) nm hyp parent d :
  constructors_ok Symptom_init conf → registry_ok conf →
  data !! "/node/vm" = Some (VDict d) →
  is_OK (VM_init capacity Symptom_init conf data nm hyp parent).
Proof.
  intros Hc Hr Hd. unfold VM_init.
  destruct (Subservice_init_OK CVM "vm" nm conf parent hyp Hc) as [self ->].
  rewrite bind_ret.
  destruct (resource_children_OK conf self ["cpu"; "mem"; "net"; "proc"] Hc) as [deps ->].
  rewrite bind_ret.
  destruct (_init_metrics_rb_OK conf "vm") as [r1 ->]; [apply Hr; set_solver|].
  destruct (_init_metrics_rb_OK conf "proc") as [r2 ->]; [apply Hr; set_solver|].
  destruct (_init_metrics_rb_OK conf "net") as [r3 ->]; [apply Hr; set_solver|].
  destruct (_init_metrics_rb_OK conf "mem") as [r4 ->]; [apply Hr; set_solver|].
  unfold setitem2, setitem3, getdict, getitem. rewrite Hd.
  repeat (rewrite ?bind_ret, ?lookup_insert_eq; simpl). by eexists.
Qed.

Lemma KBNet_init_OK conf (data : Store) nm fw parent d :
  constructors_ok Symptom_init conf → registry_ok conf →
  data !! "/node/kb" = Some (VDict d) →
  is_OK (KBNet_init capacity Symptom_init conf data nm fw parent).
Proof.
  intros Hc Hr Hd. unfold KBNet_init.
  destruct (Subservice_init_OK CKBNet "kb" nm conf parent fw Hc) as [self ->].
  rewrite bind_ret.
  destruct (resource_children_OK conf self ["proc"; "mem"; "net"] Hc) as [deps ->].
  rewrite bind_ret.
  destruct (_init_metrics_rb_OK conf "kb") as [r1 ->]; [apply Hr; set_solver|].
  destruct (_init_metrics_rb_OK conf "mem") as [r2 ->]; [apply Hr; set_solver|].
  destruct (_init_metrics_rb_OK conf "proc") as [r3 ->]; [apply Hr; set_solver|].
  unfold setitem2, setitem3, getdict, getitem. rewrite Hd.
  repeat (rewrite ?bind_ret, ?lookup_insert_eq; simpl). by eexists.
Qed.

(** A scope invariant survives changes that touch another class and
    another scope. *)
Lemma scope_ok_frame c scope c' scope' eng eng' :
  touches_only c' scope' eng eng' → c ≠ c' → scope ≠ scope' →
  scope_ok c scope eng → scope_ok c scope eng'.
Proof.
  intros (_ & _ & Hch & _ & Hst) Hc Hs (d & Hd & Hnames).
  exists d. rewrite Hst by done. split; [done|].
  intros nm Hnm. apply Hnames. unfold names_of in *. by rewrite <-Hch.
Qed.

Lemma remove_first_OK c scope nm eng :
  (c = CVM ∧ scope = "/node/vm") ∨ (c = CKBNet ∧ scope = "/node/kb") →
  scope_ok c scope eng →
  NoDup (names_of c (root eng)) →
  ∃ deps' data',
    remove_first c nm (dependencies (root eng)) (_data eng) = OK (deps', data') ∧
    scope_ok c scope
      (_update_graph_changed_timestamp time_time
         (with_graph eng (set_dependencies deps' (root eng)) data')).
Proof.
  intros Hc (d & Hd & Hnames) Hnd.
  destruct (decide (nm ∈ names_of c (root eng))) as [Hin|Hnot].
  - assert (His : is_OK (remove_first c nm (dependencies (root eng)) (_data eng))).
    { unfold names_of, children_of in Hin, Hnames.
      destruct (Hnames nm Hin) as [v Hv]. clear Hnames Hnd.
      induction (dependencies (root eng)) as [|s deps IH].
      - by apply elem_of_nil in Hin.
      - simpl. rewrite filter_cons in Hin. destruct (decide (cls s = c)) as [Hs|Hs].
        + rewrite (bool_decide_eq_true_2 _ Hs). rewrite fmap_cons in Hin.
          destruct (decide (name s = nm)) as [Hn|Hn].
          * rewrite (bool_decide_eq_true_2 _ Hn). simpl.
            unfold del_metrics. rewrite Hs, Hn.
            destruct Hc as [[-> ->]|[-> ->]]; unfold delitem2, getdict, getitem;
              rewrite Hd; simpl; rewrite Hv; by eexists.
          * rewrite bool_decide_eq_false_2 by done. simpl.
            apply elem_of_cons in Hin as [Hin|Hin]; [congruence|].
            destruct (IH Hin) as [[l x] ->]. by eexists.
        + rewrite bool_decide_eq_false_2 by done. simpl.
          destruct (IH Hin) as [[l x] ->]. by eexists. }
    destruct His as [[deps' data'] Hrm]. exists deps', data'. split; [done|].
    destruct (remove_first_step time_time c scope eng nm deps' data' Hc Hrm)
      as (_ & Hn & _).
    destruct (Hn Hnd) as [_ Hset].
    apply remove_first_inv in Hrm
      as [(-> & -> & Hall) | (l1 & x & l2 & _ & _ & [Hx Hxn] & _ & Hdel)].
    + by apply filter_no_match in Hall.
    + unfold del_metrics in Hdel. rewrite Hx, Hxn in Hdel.
      assert (Hdata : data' = <[scope := VDict (delete nm d)]> (_data eng)).
      { destruct Hc as [[-> ->]|[-> ->]];
          apply delitem2_OK in Hdel as (d0 & Hd0 & _ & ->); congruence. }
      exists (delete nm d). simpl. rewrite Hdata, lookup_insert_eq. split; [done|].
      intros y Hy.
      assert (Hy' : y ∈ (list_to_set (names_of c (root eng)) : gset string) ∖ {[nm]}).
      { simpl in Hset. rewrite <-Hset. by apply elem_of_list_to_set. }
      apply elem_of_difference in Hy' as [Hy1 Hy2].
      rewrite lookup_delete_ne by set_solver.
      apply Hnames. by apply elem_of_list_to_set in Hy1.
  - exists (dependencies (root eng)), (_data eng). split.
    + by apply remove_first_absent.
    + rewrite set_dependencies_id, with_graph_id. exists d. simpl. done.
Qed.

Lemma append_child_scope c scope eng x d v :
  cls x = c →
  _data eng !! scope = Some (VDict d) →
  (∀ nm, nm ∈ names_of c (root eng) → is_Some (d !! nm)) →
  scope_ok c scope
    (_update_graph_changed_timestamp time_time
       (with_graph eng (set_dependencies (dependencies (root eng) ++ [x]) (root eng))
          (<[scope := VDict (<[name x := v]> d)]> (_data eng)))).
Proof.
  intros Hx Hd Hnames. exists (<[name x := v]> d). simpl. rewrite lookup_insert_eq.
  split; [done|]. intros nm Hnm. unfold names_of, children_of in Hnm. simpl in Hnm.
  rewrite filter_app, filter_cons, decide_True, filter_nil, fmap_app in Hnm by done.
  apply elem_of_app in Hnm as [Hnm|Hnm].
  - destruct (decide (name x = nm)) as [->|Hne].
    + rewrite lookup_insert_eq. by eexists.
    + rewrite lookup_insert_ne by done. by apply Hnames.
  - apply list_elem_of_singleton in Hnm. subst. rewrite lookup_insert_eq. by eexists.
Qed.

Lemma remove_vm_OK eng nm :
  scopes_ok eng → NoDup (names_of CVM (root eng)) →
  ∃ e', remove_vm time_time eng nm = OK e' ∧ scopes_ok e'.
Proof.
  intros [Hvm Hkb] Hnd.
  destruct (remove_first_OK CVM "/node/vm" nm eng) as (deps' & data' & Hrm & Hok); auto.
  eexists. split.
  - unfold remove_vm, Node_remove_vm. rewrite Hrm. reflexivity.
  - split; [done|].
    destruct (remove_first_step time_time CVM "/node/vm" eng nm deps' data') as (Ht & _); auto.
    by eapply scope_ok_frame.
Qed.

Lemma remove_kbnet_OK eng nm :
  scopes_ok eng → NoDup (names_of CKBNet (root eng)) →
  ∃ e', remove_kbnet time_time eng nm = OK e' ∧ scopes_ok e'.
Proof.
  intros [Hvm Hkb] Hnd.
  destruct (remove_first_OK CKBNet "/node/kb" nm eng) as (deps' & data' & Hrm & Hok); auto.
  eexists. split.
  - unfold remove_kbnet, Node_remove_kbnet. rewrite Hrm. reflexivity.
  - split; [|done].
    destruct (remove_first_step time_time CKBNet "/node/kb" eng nm deps' data') as (Ht & _); auto.
    by eapply scope_ok_frame.
Qed.

Lemma add_vm_OK eng nm hyp :
  scopes_ok eng → constructors_ok Symptom_init (conf eng) → registry_ok (conf eng) →
  ∃ e', add_vm capacity Symptom_init time_time eng nm hyp = OK e' ∧ scopes_ok e'.
Proof.
  intros [(d & Hd & Hnames) Hkb] Hc Hr.
  destruct (VM_init_OK (conf eng) (_data eng) nm hyp (Some (root eng)) d Hc Hr Hd)
    as [[vm data'] Hinit].
  assert (Hadd : add_vm capacity Symptom_init time_time eng nm hyp =
    OK (_update_graph_changed_timestamp time_time
          (with_graph eng (set_dependencies (dependencies (root eng) ++ [vm]) (root eng)) data'))).
  { unfold add_vm, Node_add_vm. by rewrite Hinit. }
  eexists. split; [exact Hadd|].
  destruct (add_vm_step capacity Symptom_init time_time _ _ _ _ Hadd) as (Ht & _).
  split; [|by eapply scope_ok_frame].
  apply VM_init_inv in Hinit
    as (Hcls & Hn & _ & d0 & r1 & r2 & r3 & r4 & Hd0 & _ & _ & _ & _ & ->).
  simplify_eq. by apply append_child_scope.
Qed.

Lemma add_kbnet_OK eng nm fw :
  scopes_ok eng → constructors_ok Symptom_init (conf eng) → registry_ok (conf eng) →
  ∃ e', add_kbnet capacity Symptom_init time_time eng nm fw = OK e' ∧ scopes_ok e'.
Proof.
  intros [Hvm (d & Hd & Hnames)] Hc Hr.
  destruct (KBNet_init_OK (conf eng) (_data eng) nm fw (Some (root eng)) d Hc Hr Hd)
    as [[kb data'] Hinit].
  assert (Hadd : add_kbnet capacity Symptom_init time_time eng nm fw =
    OK (_update_graph_changed_timestamp time_time
          (with_graph eng (set_dependencies (dependencies (root eng) ++ [kb]) (root eng)) data'))).
  { unfold add_kbnet, Node_add_kbnet. by rewrite Hinit. }
  eexists. split; [exact Hadd|].
  destruct (add_kbnet_step capacity Symptom_init time_time _ _ _ _ Hadd) as (Ht & _).
  split; [by eapply scope_ok_frame|].
  apply KBNet_init_inv in Hinit
    as (Hcls & Hn & _ & d0 & r1 & r2 & r3 & Hd0 & _ & _ & _ & ->).
  simplify_eq. by apply append_child_scope.
Qed.

Lemma for_each_remove_vm_OK l eng :
  scopes_ok eng → NoDup (names_of CVM (root eng)) →
  ∃ e', for_each (remove_vm time_time) l eng = OK e' ∧ scopes_ok e'.
Proof.
  revert eng. induction l as [|x l IH]; intros eng Hs Hnd; simpl; [by eexists|].
  destruct (remove_vm_OK eng x Hs Hnd) as (e1 & H1 & Hs1). rewrite H1, bind_ret.
  apply IH; [done|]. apply remove_vm_step in H1 as (_ & Hn & _). by apply Hn.
Qed.

Lemma for_each_remove_kbnet_OK l eng :
  scopes_ok eng → NoDup (names_of CKBNet (root eng)) →
  ∃ e', for_each (remove_kbnet time_time) l eng = OK e' ∧ scopes_ok e'.
Proof.
  revert eng. induction l as [|x l IH]; intros eng Hs Hnd; simpl; [by eexists|].
  destruct (remove_kbnet_OK eng x Hs Hnd) as (e1 & H1 & Hs1). rewrite H1, bind_ret.
  apply IH; [done|]. apply remove_kbnet_step in H1 as (_ & Hn & _). by apply Hn.
Qed.

Lemma for_each_add_vm_OK l eng :
  scopes_ok eng → constructors_ok Symptom_init (conf eng) → registry_ok (conf eng) →
  ∃ e', for_each (λ e vm, add_vm capacity Symptom_init time_time e vm "virtualbox") l eng
          = OK e' ∧ scopes_ok e'.
Proof.
  revert eng. induction l as [|x l IH]; intros eng Hs Hc Hr; simpl; [by eexists|].
  destruct (add_vm_OK eng x "virtualbox" Hs Hc Hr) as (e1 & H1 & Hs1).
  rewrite H1, bind_ret.
  apply add_vm_step in H1 as ((Hconf & _) & _).
  apply IH; [done|by rewrite Hconf..].
Qed.

Lemma for_each_add_kbnet_OK l eng :
  scopes_ok eng → constructors_ok Symptom_init (conf eng) → registry_ok (conf eng) →
  ∃ e', for_each (λ e kb, add_kbnet capacity Symptom_init time_time e kb "vpp") l eng
          = OK e' ∧ scopes_ok e'.
Proof.
  revert eng. induction l as [|x l IH]; intros eng Hs Hc Hr; simpl; [by eexists|].
  destruct (add_kbnet_OK eng x "vpp" Hs Hc Hr) as (e1 & H1 & Hs1).
  rewrite H1, bind_ret.
  apply add_kbnet_step in H1 as ((Hconf & _) & _).
  apply IH; [done|by rewrite Hconf..].
Qed.

Variable set_iter : gset string → list string.
Hypothesis set_iter_perm : ∀ S, set_iter S ≡ₚ elements S.

Lemma set_iter_empty : set_iter ∅ = [].
Proof. apply Permutation_nil_r. rewrite (set_iter_perm ∅). by rewrite elements_empty. Qed.

Lemma length_set_iter (S : gset string) : length (set_iter S) = size S.
Proof. by rewrite (set_iter_perm S). Qed.

(** When the names of the children already are the observed keys,
    reconciliation returns the engine untouched. *)
Lemma reconcile_fixpoint eng d_vms d_kbs :
  _data eng !! "virtualbox/vms" = Some d_vms →
  _data eng !! "vpp/gnmi" = Some d_kbs →
  keys d_vms = OK (list_to_set (names_of CVM (root eng))) →
  keys d_kbs = OK (list_to_set (names_of CKBNet (root eng))) →
  _update_dependency_graph capacity Symptom_init time_time set_iter eng = OK eng.
Proof.
  intros Hv Hk HV HK. unfold _update_dependency_graph.
  rewrite (current_names_spec capacity time_time).
  fold (children_of CVM (root eng)) (children_of CKBNet (root eng)).
  fold (names_of CVM (root eng)) (names_of CKBNet (root eng)).
  unfold getitem. rewrite Hv. simpl. rewrite HV. simpl. rewrite Hk. simpl. rewrite HK. simpl.
  rewrite !difference_diag_L, set_iter_empty. done.
Qed.

(** X9: reconciliation is idempotent: run again on the engine it returned,
    with the store as it left it, it changes nothing, not even the change
    timestamp. *)
Theorem reconcile_idempotent (eng eng' : HealthEngine) :
  NoDup (names_of CVM (root eng)) →
  NoDup (names_of CKBNet (root eng)) →
  _update_dependency_graph capacity Symptom_init time_time set_iter eng = OK eng' →
  _update_dependency_graph capacity Symptom_init time_time set_iter eng' = OK eng'.
Proof.
  intros HndV HndK H.
  destruct (reconcile_inv capacity Symptom_init time_time set_iter set_iter_perm
              eng eng' H HndV HndK)
    as (dv & dk & M & MK & Hv & HM & Hk & HMK & HV & HK & _ & _ & _ & _ & D & _).
  apply (reconcile_fixpoint eng' dv dk).
  - by rewrite D.
  - by rewrite D.
  - by rewrite HV.
  - by rewrite HK.
Qed.

Lemma for_each_clock (f : HealthEngine → string → Exc HealthEngine) l eng eng' :
  (∀ e x e', f e x = OK e' → clock e' = S (clock e)) →
  for_each f l eng = OK eng' → clock eng' = (clock eng + length l)%nat.
Proof.
  intros Hf. revert eng. induction l as [|x l IH]; intros eng H; simpl in H.
  - simplify_eq. simpl. lia.
  - exc_inv H. apply Hf in E. apply IH in H. simpl. lia.
Qed.

(** X10: reconciliation takes one timestamp per child it removes and one per
    child it adds: the clock advances by the number of vanished and of new
    VM and KBNet names, and not at all when the names already agree. *)
Theorem reconcile_timestamps (eng eng' : HealthEngine) d_vms d_kbs M MK :
  _data eng !! "virtualbox/vms" = Some d_vms → keys d_vms = OK M →
  _data eng !! "vpp/gnmi" = Some d_kbs → keys d_kbs = OK MK →
  _update_dependency_graph capacity Symptom_init time_time set_iter eng = OK eng' →
  let V : gset string := list_to_set (names_of CVM (root eng)) in
  let K : gset string := list_to_set (names_of CKBNet (root eng)) in
  clock eng' =
    (clock eng + size (V ∖ M) + size (K ∖ MK) + size (M ∖ V) + size (MK ∖ K))%nat.
Proof.
  intros Hv HM Hk HMK H. simpl. unfold _update_dependency_graph in H.
  rewrite (current_names_spec capacity time_time) in H.
  fold (children_of CVM (root eng)) (children_of CKBNet (root eng)) in H.
  fold (names_of CVM (root eng)) (names_of CKBNet (root eng)) in H.
  unfold getitem in H. rewrite Hv in H. simpl in H. rewrite HM in H. simpl in H.
  rewrite Hk in H. simpl in H. rewrite HMK in H. simpl in H.
  apply bind_OK in H as (e1 & H1 & H). apply bind_OK in H as (e2 & H2 & H).
  apply bind_OK in H as (e3 & H3 & H).
  apply for_each_clock in H1, H2, H3, H.
  - rewrite !length_set_iter in *. lia.
  - intros e x e' Hs. by apply add_kbnet_inv in Hs as (? & ? & _ & ->).
  - intros e x e' Hs. by apply add_vm_inv in Hs as (? & ? & _ & ->).
  - intros e x e' Hs. by apply remove_kbnet_inv in Hs as (? & ? & _ & ->).
  - intros e x e' Hs. by apply remove_vm_inv in Hs as (? & ? & _ & ->).
Qed.

(** X11: reconciliation does not raise on an engine whose store holds the
    two observed dicts and a scope for every VM and KBNet child, whose
    registry knows the classes the constructors ask for, whose stored rules
    the symptom constructor accepts, and whose children have distinct
    names; and it leaves a scope for every child it keeps or adds. *)
Theorem reconcile_succeeds (eng : HealthEngine) d_vms d_kbs M MK :
  _data eng !! "virtualbox/vms" = Some d_vms → keys d_vms = OK M →
  _data eng !! "vpp/gnmi" = Some d_kbs → keys d_kbs = OK MK →
  scopes_ok eng →
  registry_ok (conf eng) →
  constructors_ok Symptom_init (conf eng) →
  NoDup (names_of CVM (root eng)) →
  NoDup (names_of CKBNet (root eng)) →
  ∃ eng', _update_dependency_graph capacity Symptom_init time_time set_iter eng = OK eng'
          ∧ scopes_ok eng'.
Proof.
  intros Hv HM Hk HMK Hs Hr Hc HndV HndK. unfold _update_dependency_graph.
  destruct (current_names (dependencies (root eng))) as [V K].
  unfold getitem. rewrite Hv, bind_ret, HM, bind_ret, Hk, bind_ret, HMK, bind_ret.
  destruct (for_each_remove_vm_OK (set_iter (V ∖ M)) eng Hs HndV) as (e1 & H1 & Hs1).
  rewrite H1, bind_ret.
  apply (for_each_remove_vm capacity) in H1 as ((C1 & _ & K1 & _) & _).
  destruct (for_each_remove_kbnet_OK (set_iter (K ∖ MK)) e1 Hs1) as (e2 & H2 & Hs2).
  { unfold names_of. by rewrite K1. }
  rewrite H2, bind_ret.
  apply (for_each_remove_kbnet capacity) in H2 as ((C2 & _) & _).
  destruct (for_each_add_vm_OK (set_iter (M ∖ V)) e2 Hs2) as (e3 & H3 & Hs3).
  { by rewrite C2, C1. } { by rewrite C2, C1. }
  rewrite H3, bind_ret.
  apply for_each_add_vm in H3 as ((C3 & _) & _).
  apply for_each_add_kbnet_OK; [done|by rewrite C3, C2, C1..].
Qed.

End MoreGraph.

(** ** The refresh and the shape of the graph *)

Lemma erase_active_unfold n :
  erase_active n =
    mkSubservice (cls n) (_type n) (name n) (impacting n)
      (erase_active <$> dependencies n) true (fullname n) (path n)
      (health_score n) (symptoms n) (positive_symptoms n) (backend n).
Proof. by destruct n. Qed.

Section MoreRefresh.

Variable linux_adapter :
  Adapter → Subservice → option Subservice → Store → Exc Store.

Lemma update_metrics_unfold sys parent self (data : Store) :
  update_metrics linux_adapter sys parent self data =
    '(self', data) ← _update_metrics linux_adapter sys parent self data;
    if negb (active self') then OK (self', data)
    else
      '(deps, data) ← refresh_loop (update_metrics linux_adapter sys (Some self'))
                        (dependencies self) data;
      OK (set_dependencies deps self', data).
Proof. by destruct self. Qed.

(** The node's own refresh changes at most its [active] flag. *)
Lemma _update_metrics_node sys parent n (data : Store) n' data' :
  _update_metrics linux_adapter sys parent n data = OK (n', data') →
  n' = set_active (active n') n.
Proof.
  unfold _update_metrics, VM__update_metrics, KBNet__update_metrics.
  destruct n as [c t nm i deps a f p h s ps b]. simpl.
  destruct c; intros H; exc_inv H; reflexivity.
Qed.

Lemma refresh_loop_erase (upd : Subservice → Store → Exc (Subservice * Store))
    deps (data : Store) deps' data' :
  Forall (λ d, ∀ da d' db, upd d da = OK (d', db) → erase_active d' = erase_active d) deps →
  refresh_loop upd deps data = OK (deps', data') →
  erase_active <$> deps' = erase_active <$> deps.
Proof.
  intros Hall. revert data deps' data'.
  induction Hall as [|d deps Hd _ IH]; intros data deps' data' H; simpl in H.
  - by simplify_eq.
  - apply bind_OK in H as ([d1 da] & H1 & H). apply bind_OK in H as ([l1 db] & H2 & H).
    simplify_eq. rewrite !fmap_cons. f_equal; [by eapply Hd | by eapply IH].
Qed.

Lemma erase_active_update_metrics sys parent (n n' : Subservice) (data data' : Store) :
  update_metrics linux_adapter sys parent n data = OK (n', data') →
  erase_active n' = erase_active n.
Proof.
  revert parent data n' data'. induction n as [n IH] using Subservice_tree_ind.
  intros parent data n' data' H. rewrite update_metrics_unfold in H.
  apply bind_OK in H as ([n1 d1] & H1 & H).
  pose proof (_update_metrics_node _ _ _ _ _ _ H1) as Hn1.
  rewrite (erase_active_unfold n).
  destruct (active n1) eqn:Ha; simpl in H.
  - apply bind_OK in H as ([deps' d2] & H2 & H). injection H as <- <-.
    apply refresh_loop_erase in H2; [|eapply Forall_impl; [exact IH|]; naive_solver].
    rewrite erase_active_unfold. simpl. rewrite H2. by rewrite Hn1.
  - injection H as <- <-. rewrite erase_active_unfold. by rewrite Hn1.
Qed.

(** X12: the metric refresh never changes the graph: the tree it returns
    differs from the one it was given at most in [active] flags. *)
Theorem update_metrics_keeps_graph sys parent (n n' : Subservice) (data data' : Store) :
  update_metrics linux_adapter sys parent n data = OK (n', data') →
  erase_active n' = erase_active n.
Proof. apply erase_active_update_metrics. Qed.

End MoreRefresh.

Section BuiltGraphs.

Variable capacity : nat.
Variable Symptom_init : SymptomArgs → option string → Exc Symptom.
Variable linux_adapter :
  Adapter → Subservice → option Subservice → Store → Exc Store.

Lemma Subservice_init_path c t nm conf parent b s :
  Subservice_init Symptom_init c t nm conf parent b = OK s →
  path s = find_path t parent ∧ fullname s = find_fullname t nm parent.
Proof. unfold Subservice_init. intros H. exc_inv H. done. Qed.

Lemma resource_children_inv conf self deps l :
  resource_children Symptom_init conf self deps = OK l →
  Forall2 (λ t c, cls c = CSubservice ∧ dependencies c = [] ∧ active c = true ∧
                  path c = path self +:+ "/" +:+ t) deps l.
Proof.
  unfold resource_children. revert l. induction deps as [|t deps IH]; intros l H; simpl in H.
  - injection H as <-. constructor.
  - apply bind_OK in H as (c & Hc & H). apply bind_OK in H as (l' & Hl & H).
    injection H as <-. constructor; [|by apply IH].
    pose proof (Subservice_init_path _ _ _ _ _ _ _ Hc) as [Hp _].
    apply Subservice_init_inv in Hc as (? & _ & _ & ? & ? & _). done.
Qed.

(** The shape of the graph [Node.__init__] builds under no parent. *)
Lemma Node_init_shape conf (data : Store) nm r data' :
  Node_init capacity Symptom_init conf data nm None = OK (r, data') →
  cls r = CNode ∧ active r = true ∧ path r = "/node" ∧
  ∃ bm, dependencies r = [bm] ∧ cls bm = CBaremetal ∧ _type bm = "bm" ∧
    active bm = true ∧
    Forall2 (λ t c, cls c = CSubservice ∧ dependencies c = [] ∧ active c = true ∧
                    path c = "/node/bm" +:+ "/" +:+ t)
      ["cpu"; "sensors"; "disks"; "mem"; "proc"; "net"] (dependencies bm).
Proof.
  unfold Node_init. intros H.
  apply bind_OK in H as (self & Hself & H). apply bind_OK in H as ([bm d1] & Hbm & H).
  simplify_eq. simpl.
  pose proof (Subservice_init_path _ _ _ _ _ _ _ Hself) as [Hp _].
  apply Subservice_init_inv in Hself as (Hc & _ & _ & _ & Ha & _).
  split; [done|]. split; [done|]. split; [by rewrite Hp|].
  exists bm. split; [done|]. unfold Baremetal_init in Hbm.
  apply bind_OK in Hbm as (b0 & Hb0 & Hbm). apply bind_OK in Hbm as (deps & Hdeps & Hbm).
  exc_inv Hbm. simpl.
  pose proof (Subservice_init_path _ _ _ _ _ _ _ Hb0) as [Hpb _].
  apply resource_children_inv in Hdeps.
  apply Subservice_init_inv in Hb0 as (Hcb & _ & _ & _ & Hab & Htb).
  split; [done|]. split; [done|]. split; [done|].
  unfold find_path in Hpb, Hp. rewrite Hp in Hpb. rewrite Hpb in Hdeps. exact Hdeps.
Qed.




End BuiltGraphs.

(** ** Views of the graph are blind to scores and flags *)

Section Erasers.

Variable e : Subservice → Subservice.
Hypothesis e_cls : ∀ n, cls (e n) = cls n.
Hypothesis e_name : ∀ n, name (e n) = name n.
Hypothesis e_backend : ∀ n, backend (e n) = backend n.
Hypothesis e_path : ∀ n, path (e n) = path n.
Hypothesis e_type : ∀ n, _type (e n) = _type n.
Hypothesis e_deps : ∀ n, dependencies (e n) = e <$> dependencies n.

Lemma eraser_children c r : children_of c (e r) = e <$> children_of c r.
Proof.
  unfold children_of. rewrite e_deps.
  induction (dependencies r) as [|x l IH]; [done|].
  rewrite fmap_cons, !filter_cons, e_cls, IH. by destruct (decide (cls x = c)).
Qed.

Lemma eraser_names c r : names_of c (e r) = names_of c r.
Proof.
  unfold names_of. rewrite eraser_children, <-list_fmap_compose.
  apply list_fmap_ext. intros i x _. simpl. apply e_name.
Qed.

Lemma eraser_backends r : backends_ok (e r) ↔ backends_ok r.
Proof.
  unfold backends_ok. rewrite e_deps, Forall_fmap. apply Forall_iff.
  intros x. simpl. by rewrite e_cls, e_backend.
Qed.

Lemma eraser_subservices n : subservices (e n) = e <$> subservices n.
Proof.
  induction n as [n IH] using Subservice_tree_ind.
  rewrite (subservices_unfold (e n)), (subservices_unfold n), e_deps, fmap_cons. f_equal.
  induction IH as [|d deps Hd _ IHd]; csimpl; [done|].
  by rewrite fmap_app, Hd, IHd.
Qed.

Lemma eraser_dispatchable sys r : dispatchable sys (e r) ↔ dispatchable sys r.
Proof.
  unfold dispatchable. rewrite eraser_subservices. split.
  - intros H n Hn Hc. rewrite <-e_path. apply H; [|by rewrite e_cls].
    apply list_elem_of_fmap. by exists n.
  - intros H n Hn Hc. apply list_elem_of_fmap in Hn as (m & -> & Hm).
    rewrite e_path. apply H; [done|]. by rewrite <-e_cls.
Qed.

Lemma eraser_typed r :
  Forall child_typed (dependencies (e r)) ↔ Forall child_typed (dependencies r).
Proof.
  rewrite e_deps, Forall_fmap. apply Forall_iff. intros x. unfold child_typed. simpl.
  by rewrite e_cls, e_type.
Qed.

Lemma eraser_graph_ok r : graph_ok (e r) ↔ graph_ok r.
Proof.
  unfold graph_ok. rewrite e_cls, e_path, !eraser_names, eraser_backends,
    eraser_children, length_fmap, eraser_dispatchable, eraser_typed. done.
Qed.

End Erasers.

Lemma graph_ok_erase_active r : graph_ok (erase_active r) ↔ graph_ok r.
Proof. apply eraser_graph_ok; intros n; by destruct n. Qed.

Lemma graph_ok_erase_scores r : graph_ok (erase_scores r) ↔ graph_ok r.
Proof. apply eraser_graph_ok; intros n; by destruct n. Qed.

(** ** The invariant of the graph *)

Lemma dispatchable_unfold sys r :
  dispatchable sys r ↔
  (cls r = CSubservice → is_OK (funcs sys (path r))) ∧
  Forall (dispatchable sys) (dependencies r).
Proof.
  unfold dispatchable. rewrite Forall_forall. split.
  - intros H. split; [apply H; rewrite subservices_unfold; left|].
    intros c Hc n Hn. apply H. rewrite subservices_unfold. right.
    apply list_elem_of_In, in_flat_map. exists c. split; by apply list_elem_of_In.
  - intros [Hr Hd] n Hn. rewrite subservices_unfold in Hn.
    apply elem_of_cons in Hn as [-> | Hn]; [done|].
    apply list_elem_of_In, in_flat_map in Hn as (c & Hc & Hn).
    apply (Hd c); by apply list_elem_of_In.
Qed.

Lemma resources_dispatchable sys P ts (l : list Subservice) :
  Forall2 (λ t c, cls c = CSubservice ∧ dependencies c = [] ∧ active c = true ∧
                  path c = P +:+ "/" +:+ t) ts l →
  (∀ t, t ∈ ts → is_OK (funcs sys (P +:+ "/" +:+ t))) →
  Forall (dispatchable sys) l.
Proof.
  induction 1 as [|t c ts l (Hc & Hd & _ & Hp) _ IH]; intros Hts; constructor.
  - apply dispatchable_unfold. rewrite Hd, Hp. split; [|constructor].
    intros _. apply Hts. left.
  - apply IH. intros t' Ht'. apply Hts. by right.
Qed.

Section InvariantProofs.

Variable capacity : nat.
Variable Symptom_init : SymptomArgs → option string → Exc Symptom.
Variable time_time : nat → string.
Variable set_iter : gset string → list string.
Hypothesis set_iter_perm : ∀ S, set_iter S ≡ₚ elements S.

Lemma VM_init_dispatchable conf (data : Store) nm hyp parent vm data' :
  VM_init capacity Symptom_init conf data nm hyp (Some parent) = OK (vm, data') →
  path parent = "/node" →
  dispatchable "Linux" vm ∧ child_typed vm.
Proof.
  unfold VM_init. intros H Hpar.
  apply bind_OK in H as (self & Hself & H). apply bind_OK in H as (deps & Hdeps & H).
  exc_inv H.
  pose proof (Subservice_init_path _ _ _ _ _ _ _ _ Hself) as [Hp _].
  apply Subservice_init_inv in Hself as (Hc & _ & _ & _ & _ & Hty).
  split; [|right; left; by destruct self].
  apply resource_children_inv in Hdeps. unfold find_path in Hp. rewrite Hpar in Hp.
  rewrite Hp in Hdeps.
  apply dispatchable_unfold. simpl. split; [by rewrite Hc|].
  eapply resources_dispatchable; [exact Hdeps|].
  intros t Ht. repeat (apply elem_of_cons in Ht as [->|Ht]; [by eexists|]).
  by apply elem_of_nil in Ht.
Qed.

Lemma KBNet_init_dispatchable conf (data : Store) nm fw parent kb data' :
  KBNet_init capacity Symptom_init conf data nm fw (Some parent) = OK (kb, data') →
  path parent = "/node" →
  dispatchable "Linux" kb ∧ child_typed kb.
Proof.
  unfold KBNet_init. intros H Hpar.
  apply bind_OK in H as (self & Hself & H). apply bind_OK in H as (deps & Hdeps & H).
  exc_inv H.
  pose proof (Subservice_init_path _ _ _ _ _ _ _ _ Hself) as [Hp _].
  apply Subservice_init_inv in Hself as (Hc & _ & _ & _ & _ & Hty).
  split; [|right; right; by destruct self].
  apply resource_children_inv in Hdeps. unfold find_path in Hp. rewrite Hpar in Hp.
  rewrite Hp in Hdeps.
  apply dispatchable_unfold. simpl. split; [by rewrite Hc|].
  eapply resources_dispatchable; [exact Hdeps|].
  intros t Ht. repeat (apply elem_of_cons in Ht as [->|Ht]; [by eexists|]).
  by apply elem_of_nil in Ht.
Qed.

Lemma for_each_invariant (Q : HealthEngine → Prop)
    (f : HealthEngine → string → Exc HealthEngine) l eng eng' :
  (∀ e x e', f e x = OK e' → Q e → Q e') →
  for_each f l eng = OK eng' → Q eng → Q eng'.
Proof.
  intros Hf. revert eng. induction l as [|x l IH]; intros eng H HQ; simpl in H.
  - by simplify_eq.
  - apply bind_OK in H as (e1 & H1 & H). eapply IH; [exact H|]. by eapply Hf.
Qed.

(** The part of the invariant the store has no say in: the root is the
    node ["/node"] and all its dependencies can be dispatched on Linux. *)
Local Abbreviation rooted := (λ e : HealthEngine,
  cls (root e) = CNode ∧ path (root e) = "/node" ∧
  Forall (λ c, dispatchable "Linux" c ∧ child_typed c) (dependencies (root e))).

Lemma remove_vm_rooted e x e' :
  remove_vm time_time e x = OK e' → rooted e → rooted e'.
Proof.
  intros H (Hc & Hp & Hd). apply remove_vm_inv in H as (deps' & data' & H & ->). simpl.
  repeat split; [done..|]. by eapply remove_first_Forall.
Qed.

Lemma remove_kbnet_rooted e x e' :
  remove_kbnet time_time e x = OK e' → rooted e → rooted e'.
Proof.
  intros H (Hc & Hp & Hd). apply remove_kbnet_inv in H as (deps' & data' & H & ->). simpl.
  repeat split; [done..|]. by eapply remove_first_Forall.
Qed.

Lemma add_vm_rooted e x hyp e' :
  add_vm capacity Symptom_init time_time e x hyp = OK e' → rooted e → rooted e'.
Proof.
  intros H (Hc & Hp & Hd). apply add_vm_inv in H as (vm & data' & H & ->). simpl.
  repeat split; [done..|]. apply Forall_app. split; [done|].
  constructor; [|done]. by eapply VM_init_dispatchable.
Qed.

Lemma add_kbnet_rooted e x fw e' :
  add_kbnet capacity Symptom_init time_time e x fw = OK e' → rooted e → rooted e'.
Proof.
  intros H (Hc & Hp & Hd). apply add_kbnet_inv in H as (kb & data' & H & ->). simpl.
  repeat split; [done..|]. apply Forall_app. split; [done|].
  constructor; [|done]. by eapply KBNet_init_dispatchable.
Qed.

Lemma reconcile_rooted eng eng' :
  _update_dependency_graph capacity Symptom_init time_time set_iter eng = OK eng' →
  rooted eng → rooted eng'.
Proof.
  unfold _update_dependency_graph.
  destruct (current_names (dependencies (root eng))) as [V K]. intros H HQ.
  apply bind_OK in H as (v1 & _ & H). apply bind_OK in H as (M & _ & H).
  apply bind_OK in H as (v2 & _ & H). apply bind_OK in H as (MK & _ & H).
  apply bind_OK in H as (e1 & H1 & H). apply bind_OK in H as (e2 & H2 & H).
  apply bind_OK in H as (e3 & H3 & H).
  eapply (for_each_invariant rooted) in H1; [|apply remove_vm_rooted|done].
  eapply (for_each_invariant rooted) in H2; [|apply remove_kbnet_rooted|done].
  eapply (for_each_invariant rooted) in H3;
    [|intros e x e' Hs; by apply (add_vm_rooted e x "virtualbox" e')|done].
  eapply (for_each_invariant rooted) in H;
    [done|intros e x e' Hs; by apply (add_kbnet_rooted e x "vpp" e')|done].
Qed.

Lemma reconcile_graph_ok eng eng' :
  _update_dependency_graph capacity Symptom_init time_time set_iter eng = OK eng' →
  graph_ok (root eng) → graph_ok (root eng').
Proof.
  intros H (Hc & Hp & HndV & HndK & Hb & Hbm & Hd & Ht).
  apply dispatchable_unfold in Hd as [_ Hd].
  destruct (reconcile_rooted eng eng' H) as (Hc' & Hp' & Hd');
    [by rewrite Forall_and|].
  apply Forall_and in Hd' as [Hd' Ht'].
  destruct (reconcile_inv capacity Symptom_init time_time set_iter set_iter_perm
              eng eng' H HndV HndK)
    as (_ & _ & _ & _ & _ & _ & _ & _ & _ & _ & HndV' & HndK' & _ & _ & _ & Hb').
  apply (reconcile_fixed_children capacity Symptom_init time_time set_iter) in H as [_ Hbm'].
  repeat split; [done..|by apply Hb'|by rewrite Hbm'| |done].
  apply dispatchable_unfold. split; [by rewrite Hc'|done].
Qed.

Variable _safe_rule : Symptom → list string → Exc bool.
Variable linux_adapter :
  Adapter → Subservice → option Subservice → Store → Exc Store.
Variable check : Symptom → Store → bool.

Lemma Node_init_graph_ok conf (data : Store) nm r data' :
  Node_init capacity Symptom_init conf data nm None = OK (r, data') → graph_ok r.
Proof.
  intros H. apply Node_init_shape in H
    as (Hc & _ & Hp & bm & Hdeps & Hcb & Htb & _ & Hch).
  unfold graph_ok, names_of, children_of, backends_ok. rewrite Hdeps, !filter_cons.
  rewrite !decide_False, decide_True by (done || by rewrite Hcb).
  split; [done|]. split; [done|]. split; [constructor|]. split; [constructor|].
  split; [|split; [done|split]].
  - constructor; [|constructor]. by rewrite Hcb.
  - apply dispatchable_unfold. rewrite Hdeps. split; [by rewrite Hc|].
    constructor; [|constructor]. apply dispatchable_unfold. split; [by rewrite Hcb|].
    eapply resources_dispatchable; [exact Hch|].
    intros t Ht. repeat (apply elem_of_cons in Ht as [->|Ht]; [by eexists|]).
    by apply elem_of_nil in Ht.
  - constructor; [|constructor]. by left.
Qed.

Lemma existsb_type_iff (deps : list Subservice) item :
  existsb (λ s, bool_decide (_type s = item)) deps = true ↔
  ∃ s, s ∈ deps ∧ _type s = item.
Proof.
  rewrite existsb_exists. split.
  - intros (s & Hs & Ht). exists s. split; [by apply list_elem_of_In|].
    by apply bool_decide_eq_true in Ht.
  - intros (s & Hs & Ht). exists s. split; [by apply list_elem_of_In|].
    by apply bool_decide_eq_true.
Qed.

Lemma contains_class r c t :
  Forall child_typed (dependencies r) →
  (c = CBaremetal ∧ t = "bm") ∨ (c = CVM ∧ t = "vm") ∨ (c = CKBNet ∧ t = "kb") →
  Subservice_contains r t = true ↔ children_of c r ≠ [].
Proof.
  intros Hty Hc. unfold Subservice_contains, children_of.
  rewrite existsb_type_iff, Forall_forall in *. split.
  - intros (s & Hs & Ht) Hnil.
    assert (Hin : s ∈ filter (λ s, cls s = c) (dependencies r)).
    { apply list_elem_of_filter. split; [|done].
      destruct (Hty s Hs) as [[? ?]|[[? ?]|[? ?]]], Hc as [[-> ->]|[[-> ->]|[-> ->]]];
        congruence. }
    rewrite Hnil in Hin. by apply elem_of_nil in Hin.
  - intros Hne. destruct (filter _ _) as [|s l] eqn:Hf; [done|].
    assert (Hin : s ∈ filter (λ s, cls s = c) (dependencies r)) by (rewrite Hf; left).
    apply list_elem_of_filter in Hin as [Hcs Hs]. exists s. split; [done|].
    destruct (Hty s Hs) as [[? ?]|[[? ?]|[? ?]]], Hc as [[-> ->]|[[-> ->]|[-> ->]]];
      congruence.
Qed.

(** X14: on a graph that satisfies the invariant, ["bm" in root] holds,
    and ["vm" in root] and ["kb" in root] hold exactly when the root has a
    VM, respectively a KBNet, among its dependencies. *)
Theorem contains_by_type (r : Subservice) :
  graph_ok r →
  Subservice_contains r "bm" = true
  ∧ (Subservice_contains r "vm" = true ↔ names_of CVM r ≠ [])
  ∧ (Subservice_contains r "kb" = true ↔ names_of CKBNet r ≠ []).
Proof.
  intros (_ & _ & _ & _ & _ & Hbm & _ & Hty). split; [|split].
  - apply (contains_class r CBaremetal "bm" Hty); [by left|].
    intros Hnil. by rewrite Hnil in Hbm.
  - rewrite (contains_class r CVM "vm" Hty) by auto. unfold names_of.
    split; intros H Hnil; apply H; [by apply fmap_nil_inv in Hnil|by rewrite Hnil].
  - rewrite (contains_class r CKBNet "kb" Hty) by auto. unfold names_of.
    split; intros H Hnil; apply H; [by apply fmap_nil_inv in Hnil|by rewrite Hnil].
Qed.

Lemma HealthEngine_init_graph_ok data lookup metric_names rules sys nd eng0 :
  HealthEngine_init capacity Symptom_init _safe_rule time_time
    data lookup metric_names rules sys nd = OK eng0 → graph_ok (root eng0).
Proof.
  unfold HealthEngine_init. intros H.
  apply bind_OK in H as ([args lg] & _ & H). apply bind_OK in H as ([r d] & Hn & H).
  exc_inv H. simpl. by eapply Node_init_graph_ok.
Qed.

Lemma update_health_graph_ok eng eng' :
  graph_ok (root eng) →
  update_health check capacity Symptom_init time_time set_iter linux_adapter eng
    = OK eng' →
  graph_ok (root eng').
Proof.
  intros Hok H. unfold update_health in H.
  apply bind_OK in H as (e1 & H1 & H). apply bind_OK in H as ([r2 d2] & H2 & H).
  apply reconcile_graph_ok in H1; [|done].
  apply erase_active_update_metrics in H2.
  destruct (update_symptoms check d2 r2) as [r3 [sy hs]] eqn:H3. exc_inv H. simpl.
  assert (Hr3 : erase_scores r3 = erase_scores r2).
  { replace r3 with (update_symptoms check d2 r2).1 by (by rewrite H3).
    apply erase_scores_upd. }
  apply graph_ok_erase_scores. rewrite Hr3. apply graph_ok_erase_scores.
  apply graph_ok_erase_active. rewrite H2. by apply graph_ok_erase_active.
Qed.

(** X15: the graph invariant.  The root the constructor builds is the node
    ["/node"] with exactly one [Baremetal] child, VM and KBNet children of
    pairwise distinct names built for the default hypervisor and framework
    and carrying the type string of their class, and a refresh function on
    Linux for every plain resource node; and every [update_health] that
    returns keeps all of this, whatever the store held. *)
Theorem graph_invariant data lookup metric_names rules sys nd (eng0 : HealthEngine) :
  (HealthEngine_init capacity Symptom_init _safe_rule time_time
     data lookup metric_names rules sys nd = OK eng0 → graph_ok (root eng0))
  ∧ (∀ eng eng',
       graph_ok (root eng) →
       update_health check capacity Symptom_init time_time set_iter linux_adapter eng
         = OK eng' →
       graph_ok (root eng')).
Proof.
  split; [apply HealthEngine_init_graph_ok|apply update_health_graph_ok].
Qed.

End InvariantProofs.

(** ** The published store *)

Section MoreCycle.

Variable check : Symptom → Store → bool.
Variable capacity : nat.
Variable Symptom_init : SymptomArgs → option string → Exc Symptom.
Variable time_time : nat → string.
Variable set_iter : gset string → list string.
Variable linux_adapter :
  Adapter → Subservice → option Subservice → Store → Exc Store.

(** X16: after a cycle that completes, the store holds under
    ["symptoms"] the positive symptoms of the new graph, dependencies
    first, and under ["health_scores"] a dict with exactly one key per
    fullname of the new graph, the root's own score under the root's
    fullname and every value between 0 and 100. *)
Theorem update_health_publishes (eng eng' : HealthEngine) :
  update_health check capacity Symptom_init time_time set_iter linux_adapter eng
    = OK eng' →
  ∃ sy hs,
    _data eng' !! "symptoms" = Some (VSymptoms sy) ∧
    _data eng' !! "health_scores" = Some (VScores hs) ∧
    sy = concat (positive_symptoms <$> post_order (root eng')) ∧
    dom hs = list_to_set (fullname <$> subservices (root eng')) ∧
    hs !! fullname (root eng') = Some (health_score (root eng')) ∧
    ∀ k v, hs !! k = Some v → 0 ≤ v ≤ 100.
Proof.
  intros H. apply update_health_inv in H as (e_rec & r & d & _ & _ & Hr & Hd).
  exists (update_symptoms check d r).2.1, (update_symptoms check d r).2.2.
  rewrite Hd, Hr. split; [by rewrite lookup_insert_ne, lookup_insert_eq|].
  split; [by rewrite lookup_insert_eq|].
  split; [apply upd_positives_post_order|].
  split; [by rewrite upd_scores_dom, subservices_upd_fullnames|].
  split.
  - destruct (upd_fields check d r) as (_ & _ & _ & _ & -> & _).
    rewrite upd_scores. apply lookup_insert_eq.
  - intros k v Hk. destruct (upd_scores_lookup _ _ r k v Hk) as (m & Hm & _ & <-).
    eapply subservices_score_bounds, Hm.
Qed.

End MoreCycle.

(** ** Rules and symptoms *)

Section MoreRules.

Variable Symptom_init : SymptomArgs → option string → Exc Symptom.
Variable _safe_rule : Symptom → list string → Exc bool.




(** X18: [get_symptoms] builds, in the order of the stored rules, one
    symptom for each rule bound to the node's path or to that path followed
    by [/if], and raises what the first failing constructor raises; a node
    no rule is bound to gets no symptom and no exception. *)
Theorem get_symptoms_bound args node_path node_fullname :
  get_symptoms Symptom_init args node_path node_fullname =
    mapM (λ a, Symptom_init a (Some node_fullname)) (filter (bound_to node_path) args)
  ∧ (Forall (λ a, ¬ bound_to node_path a) args →
     get_symptoms Symptom_init args node_path node_fullname = OK []).
Proof.
  assert (Heq : get_symptoms Symptom_init args node_path node_fullname =
    mapM (λ a, Symptom_init a (Some node_fullname)) (filter (bound_to node_path) args)).
  { induction args as [|a args IH]; [done|]. simpl. rewrite filter_cons.
    destruct (decide (bound_to node_path a)) as [Hb|Hb].
    - assert (Hor : bool_decide (a.1.1.2 = Some node_path)
                    || bool_decide (a.1.1.2 = Some (node_path +:+ "/if")) = true).
      { destruct Hb as [Hb|Hb]; rewrite (bool_decide_eq_true_2 _ Hb); [done|].
        apply orb_true_r. }
      rewrite Hor, IH. done.
    - assert (Hor : bool_decide (a.1.1.2 = Some node_path)
                    || bool_decide (a.1.1.2 = Some (node_path +:+ "/if")) = false).
      { apply orb_false_iff. split; apply bool_decide_eq_false_2; intros Heq;
          apply Hb; [by left|by right]. }
      by rewrite Hor. }
  split; [exact Heq|]. intros Hnone. rewrite Heq.
  replace (filter (bound_to node_path) args) with (@nil SymptomArgs); [done|].
  symmetry. clear Heq. induction Hnone as [|a args Ha _ IH]; [done|].
  rewrite filter_cons, decide_False by exact Ha. exact IH.
Qed.

End MoreRules.

(** ** Refresh functions *)

Lemma alter_store_frame f k ks (data : Store) k' :
  k' ≠ k → alter_store f (k :: ks) data !! k' = data !! k'.
Proof. intros Hne. simpl. by rewrite lookup_alter_ne. Qed.

Lemma append_top_frame (data : Store) k ks src data' k' :
  append_top data (k :: ks) src = OK data' → k' ≠ k → data' !! k' = data !! k'.
Proof.
  unfold append_top. intros H Hne. exc_inv H. by apply alter_store_frame.
Qed.

Lemma assign_at_frame (data : Store) k ks key v data' k' :
  assign_at data (k :: ks) key v = OK data' → k' ≠ k → data' !! k' = data !! k'.
Proof.
  unfold assign_at. intros H Hne. exc_inv H. by apply alter_store_frame.
Qed.

Lemma for_store_frame (step : Store → string → Exc Store) k xs (data data' : Store) :
  (∀ d x d', step d x = OK d' → ∀ k', k' ≠ k → d' !! k' = d !! k') →
  for_store step xs data = OK data' →
  ∀ k', k' ≠ k → data' !! k' = data !! k'.
Proof.
  intros Hstep. revert data. induction xs as [|x xs IH]; intros data H k' Hne; simpl in H.
  - by simplify_eq.
  - apply bind_OK in H as (d1 & H1 & H). rewrite (IH _ H k' Hne). by eapply Hstep.
Qed.

Section AdapterProofs.

Variable capacity : nat.
Variable dict_iter : gmap string Value → list string.

(** X19: the refresh functions of the bare-metal processes, of the cpu of
    the bare-metal node and of a VM, and of the processes of a KBNet write
    nothing but their own assurance scope; the one of the processes of a VM
    writes nothing at all. *)
Theorem adapters_write_own_scope conf parent (data data' : Store) :
  (_update_metrics_linux_bm_proc data = OK data' →
     ∀ k, k ≠ "/node/bm/proc" → data' !! k = data !! k)
  ∧ (_update_metrics_linux_kb_proc parent data = OK data' →
     ∀ k, k ≠ "/node/kb" → data' !! k = data !! k)
  ∧ (_update_metrics_linux_vm_proc parent data = OK data' → data' = data)
  ∧ (_update_metrics_linux_vm_cpu capacity conf parent data = OK data' →
     ∀ k, k ≠ "/node/vm" → data' !! k = data !! k)
  ∧ (_update_metrics_linux_bm_cpu capacity dict_iter conf data = OK data' →
     ∀ k, k ≠ "/node/bm/cpu" → data' !! k = data !! k).
Proof.
  split; [|split; [|split; [|split]]].
  - unfold _update_metrics_linux_bm_proc. intros H k Hk.
    apply bind_OK in H as (d1 & H1 & H). apply bind_OK in H as (d2 & H2 & H).
    apply bind_OK in H as (d3 & H3 & H). apply bind_OK in H as (d4 & H4 & H).
    apply bind_OK in H as (d5 & H5 & H). apply bind_OK in H as (d6 & H6 & H).
    rewrite (append_top_frame _ _ _ _ _ k H Hk), (append_top_frame _ _ _ _ _ k H6 Hk),
      (append_top_frame _ _ _ _ _ k H5 Hk), (append_top_frame _ _ _ _ _ k H4 Hk),
      (append_top_frame _ _ _ _ _ k H3 Hk), (append_top_frame _ _ _ _ _ k H2 Hk).
    by apply (append_top_frame _ _ _ _ _ k H1).
  - unfold _update_metrics_linux_kb_proc. intros H k Hk.
    apply bind_OK in H as (p & _ & H). by apply (append_top_frame _ _ _ _ _ k H).
  - unfold _update_metrics_linux_vm_proc. intros H.
    apply bind_OK in H as (p & _ & H). by simplify_eq.
  - unfold _update_metrics_linux_vm_cpu. intros H k Hk.
    apply bind_OK in H as (p & _ & H). apply bind_OK in H as (s0 & _ & H).
    apply bind_OK in H as (s1 & _ & H). apply bind_OK in H as (d0 & H0 & H).
    apply bind_OK in H as (d1 & H1 & H). apply bind_OK in H as (d2 & H2 & H).
    apply bind_OK in H as (d3 & H3 & H).
    rewrite (append_top_frame _ _ _ _ _ k H Hk), (append_top_frame _ _ _ _ _ k H3 Hk),
      (append_top_frame _ _ _ _ _ k H2 Hk), (append_top_frame _ _ _ _ _ k H1 Hk).
    destruct (s1 !! "/node/vm/cpu"); [by simplify_eq|].
    apply bind_OK in H0 as (d4 & H4 & H0). apply bind_OK in H0 as (rb & _ & H0).
    rewrite (assign_at_frame _ _ _ _ _ _ k H0 Hk).
    by apply (assign_at_frame _ _ _ _ _ _ k H4).
  - unfold _update_metrics_linux_bm_cpu. intros H k Hk.
    apply bind_OK in H as (d0 & H0 & H). apply bind_OK in H as (stat & _ & H).
    assert (Hfill : ∀ d x d', fill_cpu d x = OK d' →
              ∀ k', k' ≠ "/node/bm/cpu" → d' !! k' = d !! k').
    { intros d x d' Hs k' Hk'. unfold fill_cpu in Hs.
      apply bind_OK in Hs as (e1 & Hs1 & Hs). apply bind_OK in Hs as (e2 & Hs2 & Hs).
      apply bind_OK in Hs as (e3 & Hs3 & Hs).
      rewrite (append_top_frame _ _ _ _ _ k' Hs Hk'), (append_top_frame _ _ _ _ _ k' Hs3 Hk'),
        (append_top_frame _ _ _ _ _ k' Hs2 Hk').
      by apply (append_top_frame _ _ _ _ _ k' Hs1). }
    rewrite (for_store_frame fill_cpu "/node/bm/cpu" _ d0 data' Hfill H k Hk).
    destruct (data !! "/node/bm/cpu"); [by simplify_eq|].
    apply bind_OK in H0 as (st0 & _ & H0).
    assert (Hinit : ∀ d x d',
              (_init_metrics_rb capacity conf "cpu"
               ≫= λ rb, assign_at d ["/node/bm/cpu"] x (VDict rb)) = OK d' →
              ∀ k', k' ≠ "/node/bm/cpu" → d' !! k' = d !! k').
    { intros d x d' Hs k' Hk'. apply bind_OK in Hs as (rb & _ & Hs).
      by apply (assign_at_frame _ _ _ _ _ _ k' Hs). }
    rewrite (for_store_frame _ "/node/bm/cpu" _ _ d0 Hinit H0 k Hk).
    by rewrite lookup_insert_ne.
Qed.

Hypothesis dict_iter_perm : ∀ d, dict_iter d ≡ₚ elements (dom d).

Lemma append_top_scope_dom (data : Store) k k2 ks src data' d :
  append_top data (k :: k2 :: ks) src = OK data' →
  data !! k = Some (VDict d) →
  ∃ d', data' !! k = Some (VDict d') ∧ dom d' = dom d.
Proof.
  unfold append_top. intros H Hd. exc_inv H. simpl.
  rewrite lookup_alter_eq, Hd. simpl. eexists. split; [done|]. apply dom_alter_L.
Qed.

Lemma fill_cpu_dom (data : Store) x data' d :
  fill_cpu data x = OK data' →
  data !! "/node/bm/cpu" = Some (VDict d) →
  ∃ d', data' !! "/node/bm/cpu" = Some (VDict d') ∧ dom d' = dom d.
Proof.
  unfold fill_cpu. intros H Hd.
  apply bind_OK in H as (e1 & H1 & H). apply bind_OK in H as (e2 & H2 & H).
  apply bind_OK in H as (e3 & H3 & H).
  destruct (append_top_scope_dom _ _ _ _ _ _ _ H1 Hd) as (d1 & Hd1 & E1).
  destruct (append_top_scope_dom _ _ _ _ _ _ _ H2 Hd1) as (d2 & Hd2 & E2).
  destruct (append_top_scope_dom _ _ _ _ _ _ _ H3 Hd2) as (d3 & Hd3 & E3).
  destruct (append_top_scope_dom _ _ _ _ _ _ _ H Hd3) as (d4 & Hd4 & E4).
  exists d4. split; [done|]. congruence.
Qed.

Lemma fill_cpu_missing (data : Store) x d :
  data !! "/node/bm/cpu" = Some (VDict d) → d !! x = None →
  fill_cpu data x = Raise (KeyError x).
Proof.
  intros Hd Hx. unfold fill_cpu, append_top, get_store. simpl.
  unfold getitem. rewrite Hd. simpl. by rewrite Hx.
Qed.

Lemma for_store_fill_dom xs (data : Store) data' d :
  for_store fill_cpu xs data = OK data' →
  data !! "/node/bm/cpu" = Some (VDict d) →
  ∃ d', data' !! "/node/bm/cpu" = Some (VDict d') ∧ dom d' = dom d.
Proof.
  revert data d. induction xs as [|x xs IH]; intros data d H Hd; simpl in H.
  - simplify_eq. eauto.
  - apply bind_OK in H as (d1 & H1 & H).
    destruct (fill_cpu_dom _ _ _ _ H1 Hd) as (dd & Hdd & E).
    destruct (IH _ _ H Hdd) as (d' & Hd' & E'). exists d'. split; [done|]. congruence.
Qed.

Lemma for_store_fill_raises xs (data : Store) d x :
  data !! "/node/bm/cpu" = Some (VDict d) → d !! x = None → x ∈ xs →
  ∃ e, for_store fill_cpu xs data = Raise e.
Proof.
  revert data d. induction xs as [|y xs IH]; intros data d Hd Hx Hin.
  - by apply elem_of_nil in Hin.
  - simpl. destruct (fill_cpu data y) as [d1|e] eqn:H1; [|by eexists].
    rewrite bind_ret.
    destruct (fill_cpu_dom _ _ _ _ H1 Hd) as (dd & Hdd & E).
    apply elem_of_cons in Hin as [->|Hin].
    + by rewrite (fill_cpu_missing _ _ _ Hd Hx) in H1.
    + apply (IH d1 dd); [done| |done]. apply not_elem_of_dom. rewrite E.
      by apply not_elem_of_dom.
Qed.

(** X20: the cpu scope of the bare-metal node is only built on the first
    refresh.  Once it exists, a cpu label the producer publishes later has no
    buffers, and the refresh raises. *)
Theorem bm_cpu_new_label_raises conf (data : Store) d stat label :
  data !! "/node/bm/cpu" = Some (VDict d) →
  data !! "stat/cpu" = Some (VDict stat) →
  is_Some (stat !! label) →
  d !! label = None →
  ∃ e, _update_metrics_linux_bm_cpu capacity dict_iter conf data = Raise e.
Proof.
  intros Hd Hstat Hlabel Hnone. unfold _update_metrics_linux_bm_cpu.
  rewrite Hd, bind_ret. unfold getdict, getitem. rewrite Hstat. simpl.
  apply (for_store_fill_raises _ _ d label); [done..|].
  rewrite (dict_iter_perm stat). apply elem_of_elements. by apply elem_of_dom.
Qed.

Lemma for_store_init_dom conf xs (data : Store) data' d :
  for_store (λ data cpu_label,
               rb ← _init_metrics_rb capacity conf "cpu";
               assign_at data ["/node/bm/cpu"] cpu_label (VDict rb)) xs data = OK data' →
  data !! "/node/bm/cpu" = Some (VDict d) →
  ∃ d', data' !! "/node/bm/cpu" = Some (VDict d') ∧ dom d' = list_to_set xs ∪ dom d.
Proof.
  revert data d. induction xs as [|x xs IH]; intros data d H Hd; simpl in H.
  - simplify_eq. exists d. split; [done|]. set_solver.
  - apply bind_OK in H as (d1 & H1 & H). apply bind_OK in H1 as (rb & _ & H1).
    unfold assign_at, get_store in H1. simpl in H1. unfold getitem in H1.
    rewrite Hd in H1. simpl in H1. injection H1 as <-.
    destruct (IH _ (<[x:=VDict rb]> d) H) as (d' & Hd' & E).
    { by rewrite lookup_alter_eq, Hd. }
    exists d'. split; [done|]. rewrite E, dom_insert_L. set_solver.
Qed.

(** X21: on the first refresh, when the store has no cpu scope yet, the
    refresh builds one group of buffers per cpu label of [stat/cpu]. *)
Theorem bm_cpu_first_refresh conf (data data' : Store) :
  data !! "/node/bm/cpu" = None →
  _update_metrics_linux_bm_cpu capacity dict_iter conf data = OK data' →
  ∃ stat d', data !! "stat/cpu" = Some (VDict stat) ∧
    data' !! "/node/bm/cpu" = Some (VDict d') ∧ dom d' = dom stat.
Proof.
  intros Hnone H. unfold _update_metrics_linux_bm_cpu in H. rewrite Hnone in H.
  apply bind_OK in H as (d0 & H0 & H). apply bind_OK in H as (stat' & _ & H).
  apply bind_OK in H0 as (stat & Hstat & H0).
  apply getdict_OK in Hstat.
  assert (Hne : "/node/bm/cpu" ≠ "stat/cpu") by done.
  rewrite lookup_insert_ne in Hstat by done.
  destruct (for_store_init_dom conf _ _ _ ∅ H0) as (d1 & Hd1 & E1).
  { apply lookup_insert_eq. }
  destruct (for_store_fill_dom _ _ _ _ H Hd1) as (d2 & Hd2 & E2).
  exists stat, d2. repeat split; [done..|].
  rewrite E2, E1, dom_empty_L, (dict_iter_perm stat), list_to_set_elements_L. set_solver.
Qed.

End AdapterProofs.

Lemma alter_store_keys f k k2 ks (data : Store) v S :
  data !! k = Some v → keys v = OK S →
  ∃ v', alter_store f (k :: k2 :: ks) data !! k = Some v' ∧ keys v' = OK S.
Proof.
  intros Hv Hk. simpl. rewrite lookup_alter_eq, Hv. simpl.
  destruct v as [d| | |m]; simpl in *; try discriminate.
  - eexists. split; [done|]. simpl. injection Hk as <-. by rewrite dom_alter_L.
  - eexists. split; [done|]. done.
Qed.

Lemma for_store_keys (step : Store → string → Exc Store) k xs (data data' : Store) v S :
  (∀ d x d' v, step d x = OK d' → d !! k = Some v → keys v = OK S →
     ∃ v', d' !! k = Some v' ∧ keys v' = OK S) →
  for_store step xs data = OK data' →
  data !! k = Some v → keys v = OK S →
  ∃ v', data' !! k = Some v' ∧ keys v' = OK S.
Proof.
  intros Hstep. revert data v. induction xs as [|x xs IH]; intros data v H Hv Hk; simpl in H.
  - simplify_eq. eauto.
  - apply bind_OK in H as (d1 & H1 & H).
    destruct (Hstep _ _ _ _ H1 Hv Hk) as (v1 & Hv1 & Hk1). by eapply IH.
Qed.

Section NetProofs.

Variable capacity : nat.
Variable dict_iter : gmap string Value → list string.
Variable set_iter : gset string → list string.
Hypothesis set_iter_perm : ∀ S, set_iter S ≡ₚ elements S.

Lemma add_ifs_keys conf xs (data data' : Store) v P :
  for_store (λ data net,
               rb ← _init_metrics_rb capacity conf "if";
               setitem2 data "/node/bm/net/if" net (VDict rb)) xs data = OK data' →
  data !! "/node/bm/net/if" = Some v → keys v = OK P →
  ∃ v', data' !! "/node/bm/net/if" = Some v' ∧ keys v' = OK (list_to_set xs ∪ P).
Proof.
  revert data v P. induction xs as [|x xs IH]; intros data v P H Hv Hk; simpl in H.
  - simplify_eq. exists v. split; [done|]. rewrite Hk. f_equal. set_solver.
  - apply bind_OK in H as (d1 & H1 & H). apply bind_OK in H1 as (rb & _ & H1).
    apply setitem2_OK in H1 as (d & Hd & ->). simplify_eq. simpl in Hk. injection Hk as <-.
    destruct (IH _ (VDict (<[x:=VDict rb]> d)) ({[x]} ∪ dom d) H) as (v' & Hv' & Hk').
    { apply lookup_insert_eq. } { simpl. by rewrite dom_insert_L. }
    exists v'. split; [done|]. rewrite Hk'. f_equal. set_solver.
Qed.

Lemma del_ifs_keys xs (data data' : Store) v P :
  for_store (λ data net, delitem2 data "/node/bm/net/if" net) xs data = OK data' →
  data !! "/node/bm/net/if" = Some v → keys v = OK P →
  ∃ v', data' !! "/node/bm/net/if" = Some v' ∧ keys v' = OK (P ∖ list_to_set xs).
Proof.
  revert data v P. induction xs as [|x xs IH]; intros data v P H Hv Hk; simpl in H.
  - simplify_eq. exists v. split; [done|]. rewrite Hk. f_equal. set_solver.
  - apply bind_OK in H as (d1 & H1 & H).
    apply delitem2_OK in H1 as (d & Hd & _ & ->). simplify_eq. simpl in Hk. injection Hk as <-.
    destruct (IH _ (VDict (delete x d)) (dom d ∖ {[x]}) H) as (v' & Hv' & Hk').
    { apply lookup_insert_eq. } { simpl. by rewrite dom_delete_L. }
    exists v'. split; [done|]. rewrite Hk'. f_equal. set_solver.
Qed.

Lemma copy_attrs_keys net rbs ams (data data' : Store) v S :
  copy_attrs net rbs ams data = OK data' →
  data !! "/node/bm/net/if" = Some v → keys v = OK S →
  ∃ v', data' !! "/node/bm/net/if" = Some v' ∧ keys v' = OK S.
Proof.
  revert data v. induction ams as [|am ams IH]; intros data v H Hv Hk; simpl in H.
  - simplify_eq. eauto.
  - apply bind_OK in H as (d1 & H1 & H). unfold copy_attr in H1.
    destruct (rbs !! am.1) as [x|]; [|simplify_eq; by eapply IH].
    apply bind_OK in H1 as (rb & _ & H1).
    destruct (rb_is_empty rb); [simplify_eq; by eapply IH|].
    unfold append_val in H1. apply bind_OK in H1 as (y & _ & H1).
    apply bind_OK in H1 as (drb & _ & H1). injection H1 as <-.
    destruct (alter_store_keys (λ _, VRb (rb_append drb (_top rb))) "/node/bm/net/if"
                net [am.2] data v S Hv Hk) as (v1 & Hv1 & Hk1).
    by eapply IH.
Qed.

Lemma refresh_if_keys (data : Store) net data' v S :
  refresh_if data net = OK data' →
  data !! "/node/bm/net/if" = Some v → keys v = OK S →
  ∃ v', data' !! "/node/bm/net/if" = Some v' ∧ keys v' = OK S.
Proof.
  unfold refresh_if. intros H Hv Hk.
  apply bind_OK in H as (r0 & _ & H). apply bind_OK in H as (rbs & _ & H).
  apply bind_OK in H as (d1 & H1 & H).
  destruct (copy_attrs_keys _ _ _ _ _ _ _ H1 Hv Hk) as (v1 & Hv1 & Hk1).
  destruct (rbs !! "ip4_gw_addr") as [x|]; [|simplify_eq; eauto].
  apply bind_OK in H as (dst & _ & H). apply bind_OK in H as (drb & _ & H).
  apply bind_OK in H as (rb & _ & H). apply bind_OK in H as (arp & _ & H).
  injection H as <-.
  exact (alter_store_keys _ "/node/bm/net/if" net ["gw_in_arp"] d1 v1 S Hv1 Hk1).
Qed.

(** X22: when the refresh of the bare-metal network returns, the interface
    scope [/node/bm/net/if] has exactly the keys that [net/dev] had: scopes
    of interfaces that went away are deleted, scopes of new ones created. *)
Theorem bm_net_interfaces conf (data data' : Store) :
  _update_metrics_linux_bm_net capacity dict_iter set_iter conf data = OK data' →
  ∃ v_dev current v_if,
    data !! "net/dev" = Some v_dev ∧ keys v_dev = OK current ∧
    data' !! "/node/bm/net/if" = Some v_if ∧ keys v_if = OK current.
Proof.
  unfold _update_metrics_linux_bm_net. intros H.
  apply bind_OK in H as (v0 & Hv0 & H). apply bind_OK in H as (P & HP & H).
  apply bind_OK in H as (vd & Hvd & H). apply bind_OK in H as (C & HC & H).
  apply bind_OK in H as (d1 & H1 & H). apply bind_OK in H as (d2 & H2 & H).
  apply bind_OK in H as (snmp & _ & H). apply bind_OK in H as (d3 & H3 & H).
  apply bind_OK in H as (netdev & _ & H).
  unfold getitem in Hv0, Hvd.
  destruct (data !! "/node/bm/net/if") as [v0'|] eqn:E0; [|done]. injection Hv0 as ->.
  destruct (data !! "net/dev") as [vd'|] eqn:Ed; [|done]. injection Hvd as ->.
  destruct (add_ifs_keys _ _ _ _ _ _ H1 E0 HP) as (v1 & Hv1 & Hk1).
  destruct (del_ifs_keys _ _ _ _ _ H2 Hv1 Hk1) as (v2 & Hv2 & Hk2).
  assert (Hv3 : d3 !! "/node/bm/net/if" = Some v2).
  { rewrite <-Hv2. eapply (for_store_frame _ "/node/bm/net"); [|exact H3|discriminate].
    intros d x d' Hs k' Hk'. exact (append_top_frame _ _ _ _ _ k' Hs Hk'). }
  destruct (for_store_keys refresh_if "/node/bm/net/if" _ _ _ _ _
              (λ d x d' v, refresh_if_keys d x d' v _) H Hv3 Hk2) as (v4 & Hv4 & Hk4).
  exists vd, C, v4. repeat split; [done..|]. rewrite Hk4. f_equal.
  rewrite !(list_to_set_set_iter set_iter set_iter_perm).
  apply set_eq. intros x. rewrite elem_of_difference, elem_of_union, !elem_of_difference.
  destruct (decide (x ∈ C)), (decide (x ∈ P)); tauto.
Qed.

End NetProofs.

(** * The model at work *)

Example sample_engine_built :
  HealthEngine_init 20 sample_Symptom_init sample_safe_rule sample_time
    sample_raw sample_lookup ["ssh"; "total"; "free"] sample_rules "Linux" "host"
  = OK sample_engine.
Proof. vm_compute. reflexivity. Qed.

Example sample_reconciled_names :
  names_of CVM (root sample_reconciled) = ["vm1"].
Proof. vm_compute. reflexivity. Qed.

Example sample_cycled_scores :
  _data sample_cycled !! "health_scores" =
    Some (VScores (list_to_map
      [ ("/node[name=host]", 0); ("/node[name=host]/bm", 100);
        ("/node[name=host]/bm/cpu", 100); ("/node[name=host]/bm/sensors", 100);
        ("/node[name=host]/bm/disks", 100); ("/node[name=host]/bm/mem", 100);
        ("/node[name=host]/bm/proc", 100); ("/node[name=host]/bm/net", 100);
        ("/node[name=host]/vm[name=vm1]", 0);
        ("/node[name=host]/vm[name=vm1]/cpu", 100);
        ("/node[name=host]/vm[name=vm1]/mem", 100);
        ("/node[name=host]/vm[name=vm1]/net", 100);
        ("/node[name=host]/vm[name=vm1]/proc", 100) ])).
Proof. vm_compute. reflexivity. Qed.

(** * Instances of the theorems on the sample host *)

(** [health_score_bounds] at the root of the hand-built sample tree. *)
Lemma health_score_bounds_witness :
  0 ≤ health_score (update_symptoms sample_check sample_raw sample_parent).1 ≤ 100.
Proof.
  apply (health_score_bounds sample_check sample_raw sample_parent).
  vm_compute. left.
Defined.

(** [update_symptoms_score] at a parent whose only child is informational
    and fires: the parent scores 100. *)
Lemma update_symptoms_score_witness :
  health_score
    (update_symptoms sample_check sample_raw
       (set_dependencies [sample_noisy] sample_parent)).1 = 100.
Proof.
  apply (update_symptoms_score sample_check sample_raw
           (set_dependencies [sample_noisy] sample_parent)).
  - intros s Hs. vm_compute in Hs. inversion Hs.
  - intros c Hc. vm_compute in Hc. inversion Hc; subst; [reflexivity|].
    match goal with H : _ ∈ [] |- _ => inversion H end.
Defined.

(** [non_impacting_child] at the sample parent: silencing the noisy
    informational child leaves the parent's score unchanged, and the
    child's symptom is in the parent's flat list. *)
Lemma non_impacting_child_witness :
  health_score
    (update_symptoms sample_check sample_raw
       (set_dependencies ([sample_quiet] ++ sample_silent :: []) sample_parent)).1
  = health_score (update_symptoms sample_check sample_raw sample_parent).1
  ∧ sample_symptom ∈ (update_symptoms sample_check sample_raw sample_parent).2.1.
Proof.
  destruct (non_impacting_child sample_check sample_raw sample_parent
              sample_noisy sample_silent [sample_quiet] [])
    as (Hscore & Hpos & _); [reflexivity..|].
  split; [exact Hscore|]. apply Hpos. vm_compute. left.
Defined.

(** [reconcile_children] at the freshly built sample engine. *)
Lemma reconcile_children_witness :
  ∃ d_vms d_kbs,
    _data sample_reconciled !! "virtualbox/vms" = Some d_vms ∧
    _data sample_reconciled !! "vpp/gnmi" = Some d_kbs ∧
    keys d_vms = OK (list_to_set (names_of CVM (root sample_reconciled))) ∧
    keys d_kbs = OK (list_to_set (names_of CKBNet (root sample_reconciled))).
Proof.
  apply (reconcile_children 20 sample_Symptom_init sample_time elements
           (λ S, reflexivity (elements S)) sample_engine sample_reconciled).
  - vm_compute. constructor.
  - vm_compute. constructor.
  - vm_compute. reflexivity.
Defined.

(** [remove_deletes_scope] at the reconciled sample engine and [vm1]. *)
Lemma remove_deletes_scope_witness :
  ∃ d, _data sample_reconciled !! "/node/vm" = Some (VDict d) ∧ is_Some (d !! "vm1") ∧
       _data sample_removed = <["/node/vm" := VDict (delete "vm1" d)]> (_data sample_reconciled).
Proof.
  apply (remove_deletes_scope sample_time sample_reconciled sample_removed "vm1").
  - vm_compute. left.
  - vm_compute. reflexivity.
Defined.

(** [single_baremetal] at the sample engine and a sequence that adds and
    removes both kinds of children. *)
Lemma single_baremetal_witness :
  ∃ bm, cls bm = CBaremetal ∧
    dependencies (root sample_engine) = [bm] ∧
    children_of CBaremetal (root sample_final) = [bm] ∧
    fixed_children (root sample_final) = [bm].
Proof.
  apply (single_baremetal 20 sample_Symptom_init sample_time elements
           sample_safe_rule sample_raw sample_lookup ["ssh"; "total"; "free"]
           sample_rules "Linux" "host" sample_engine sample_final sample_ops).
  - vm_compute. reflexivity.
  - vm_compute. reflexivity.
Defined.

(** The scope of [vm1] holds one sample of [active] after the cycle. *)
Example sample_cycled_history :
  ∃ d1 d2 d3 rb,
    _data sample_cycled !! "/node/vm" = Some (VDict d1) ∧
    d1 !! "vm1" = Some (VDict d2) ∧ d2 !! "/node/vm" = Some (VDict d3) ∧
    d3 !! "active" = Some (VRb rb) ∧ rb_samples rb = [PBool false].
Proof. vm_compute. eauto 10. Qed.

(** [init_overwrites_scope] at [vm1], rebuilt on the store of the cycled
    sample engine, where its scope already holds history. *)
Lemma init_overwrites_scope_witness :
  ∃ d rb_vm rb_proc rb_net rb_mem,
    _data sample_cycled !! "/node/vm" = Some (VDict d) ∧
    sample_rebuilt.2 =
      <["/node/vm" :=
         VDict (<["vm1" := VDict (fresh_vm_scope rb_vm rb_proc rb_net rb_mem)]> d)]>
        (_data sample_cycled) ∧
    _init_metrics_rb 20 (conf sample_cycled) "vm" = OK rb_vm ∧
    _init_metrics_rb 20 (conf sample_cycled) "proc" = OK rb_proc ∧
    _init_metrics_rb 20 (conf sample_cycled) "net" = OK rb_net ∧
    _init_metrics_rb 20 (conf sample_cycled) "mem" = OK rb_mem ∧
    all_empty rb_vm ∧ all_empty rb_proc ∧ all_empty rb_net ∧ all_empty rb_mem.
Proof.
  apply (init_overwrites_scope 20 sample_Symptom_init (conf sample_cycled)
           (_data sample_cycled) sample_rebuilt.2 "vm1" "virtualbox"
           (Some (root sample_cycled)) sample_rebuilt.1).
  vm_compute. reflexivity.
Defined.

(** [active_flag_and_refresh] at the powered-off VM of the sample graph:
    it is inactive after its refresh, and [update_metrics] stops there. *)
Lemma active_flag_and_refresh_witness :
  active sample_refreshed.1 = false ∧
  update_metrics sample_adapter "Linux" (Some (root sample_reconciled))
    sample_vm (_data sample_reconciled) = OK sample_refreshed.
Proof.
  destruct (active_flag_and_refresh sample_adapter sample_check "Linux"
              (Some (root sample_reconciled)) sample_vm sample_refreshed.1
              (_data sample_reconciled) sample_refreshed.2)
    as (Hvm & _ & Hskip & _); [vm_compute; reflexivity|].
  destruct Hvm as (d1 & d2 & rb & H1 & H2 & H3 & Hact); [reflexivity..|].
  vm_compute in H1. injection H1 as <-.
  vm_compute in H2. injection H2 as <-.
  vm_compute in H3. injection H3 as <-.
  split; [exact Hact|]. apply Hskip. exact Hact.
Defined.

(** [cycle_order] at one cycle of the sample agent. *)
Lemma cycle_order_witness :
  ∃ d_in e_rec r_ref d_ref,
    sample_watchers (_data (engine sample_agent)) = OK d_in ∧
    _update_dependency_graph 20 sample_Symptom_init sample_time elements
      (with_graph (engine sample_agent) (root (engine sample_agent)) d_in) = OK e_rec ∧
    update_metrics sample_adapter (system (conf e_rec)) None (root e_rec) (_data e_rec)
      = OK (r_ref, d_ref) ∧
    root (engine sample_agent') = (update_symptoms sample_check d_ref r_ref).1 ∧
    _data (engine sample_agent') =
      <["health_scores" := VScores (update_symptoms sample_check d_ref r_ref).2.2]>
        (<["symptoms" := VSymptoms (update_symptoms sample_check d_ref r_ref).2.1]> d_ref) ∧
    update_health sample_check 20 sample_Symptom_init sample_time elements sample_adapter
      (with_graph (engine sample_agent) (root (engine sample_agent)) d_in)
      = OK (engine sample_agent') ∧
    sbuffer sample_agent' =
      if disable_shm sample_agent then sbuffer sample_agent
      else sbuffer sample_agent ++
             [(_data (engine sample_agent'), if verbose sample_agent then [] else ["stats"])].
Proof.
  apply (cycle_order 20 sample_Symptom_init sample_time elements sample_adapter
           sample_check sample_watchers sample_agent).
  vm_compute. reflexivity.
Defined.

(** ** Instances of the further properties *)

(** [parent_at_most_impacting_child] at the hand-built sample tree and its
    healthy impacting leaf. *)
Lemma parent_at_most_impacting_child_witness :
  health_score (update_symptoms sample_check ∅ sample_parent).1 ≤ health_score sample_quiet.
Proof.
  apply (parent_at_most_impacting_child sample_check ∅ sample_parent sample_quiet);
    [vm_compute; left|reflexivity].
Defined.

(** [update_symptoms_forgets_previous] at the sample tree before and after
    it was scored. *)
Lemma update_symptoms_forgets_previous_witness :
  update_symptoms sample_check ∅ sample_scored = update_symptoms sample_check ∅ sample_parent.
Proof.
  apply (proj1 (update_symptoms_forgets_previous sample_check ∅ sample_scored sample_parent)).
  vm_compute. reflexivity.
Defined.

(** [health_scores_dict] at the sample tree and its noisy leaf. *)
Lemma health_scores_dict_witness :
  0 ≤ 0 ≤ 100 ∧
  ∃ m, m ∈ subservices (update_symptoms sample_check ∅ sample_parent).1 ∧
       fullname m = "/node/bm/cpu" ∧ health_score m = 0.
Proof.
  apply (health_scores_dict sample_check ∅ sample_parent).
  vm_compute. reflexivity.
Defined.

(** [remove_absent] at the freshly built engine, which holds no VM. *)
Lemma remove_absent_witness :
  remove_vm sample_time sample_engine "vm1"
    = OK (_update_graph_changed_timestamp sample_time sample_engine).
Proof.
  apply (remove_absent sample_time sample_engine "vm1").
  intros H. vm_compute in H. inversion H.
Defined.

(** [add_then_remove_vm] at the freshly built engine and [vm1]. *)
Lemma add_then_remove_vm_witness :
  ∃ e2, remove_vm sample_time sample_reconciled "vm1" = OK e2 ∧
    root e2 = root sample_engine ∧
    conf e2 = conf sample_engine ∧
    clock e2 = S (S (clock sample_engine)) ∧
    ∀ d, _data sample_engine !! "/node/vm" = Some (VDict d) → d !! "vm1" = None →
         _data e2 = _data sample_engine.
Proof.
  apply (add_then_remove_vm 20 sample_Symptom_init sample_time sample_engine
           sample_reconciled "vm1" "virtualbox").
  - intros H. vm_compute in H. inversion H.
  - vm_compute. reflexivity.
Defined.

(** [remove_vm_without_scope] at the reconciled engine with the scope of
    [vm1] lost. *)
Lemma remove_vm_without_scope_witness :
  remove_vm sample_time sample_orphaned "vm1" = Raise (KeyError "vm1").
Proof.
  apply (remove_vm_without_scope sample_time sample_orphaned "vm1" ∅).
  - vm_compute. left.
  - vm_compute. reflexivity.
  - reflexivity.
Defined.

(** [reconcile_idempotent] at the freshly built engine. *)
Lemma reconcile_idempotent_witness :
  _update_dependency_graph 20 sample_Symptom_init sample_time elements sample_reconciled
    = OK sample_reconciled.
Proof.
  apply (reconcile_idempotent 20 sample_Symptom_init sample_time elements
           (λ S, reflexivity (elements S)) sample_engine sample_reconciled).
  - vm_compute. constructor.
  - vm_compute. constructor.
  - vm_compute. reflexivity.
Defined.

(** [reconcile_timestamps] at the freshly built engine: one VM to add, one
    timestamp. *)
Lemma reconcile_timestamps_witness :
  clock sample_reconciled = S (clock sample_engine).
Proof.
  rewrite (reconcile_timestamps 20 sample_Symptom_init sample_time elements
             (λ S, reflexivity (elements S)) sample_engine sample_reconciled
             (VDict (<["vm1" := VDict (<["state" := VRb (mkRingBuffer Tstr EmptyString false 20
                                           [PStr "Running"; PStr "PoweredOff"])]> ∅)]> ∅))
             (VDict ∅) {["vm1"]} ∅).
  - vm_compute. reflexivity.
  - vm_compute. reflexivity.
  - vm_compute. reflexivity.
  - vm_compute. reflexivity.
  - vm_compute. reflexivity.
  - vm_compute. reflexivity.
Defined.

(** [reconcile_succeeds] at the freshly built engine. *)
Lemma reconcile_succeeds_witness :
  ∃ eng', _update_dependency_graph 20 sample_Symptom_init sample_time elements sample_engine
            = OK eng'
          ∧ scopes_ok eng'.
Proof.
  apply (reconcile_succeeds 20 sample_Symptom_init sample_time elements sample_engine
           (VDict (<["vm1" := VDict (<["state" := VRb (mkRingBuffer Tstr EmptyString false 20
                                         [PStr "Running"; PStr "PoweredOff"])]> ∅)]> ∅))
           (VDict ∅) {["vm1"]} ∅).
  - vm_compute. reflexivity.
  - vm_compute. reflexivity.
  - vm_compute. reflexivity.
  - vm_compute. reflexivity.
  - split; (eexists; split; [vm_compute; reflexivity|]);
      intros nm H; vm_compute in H; inversion H.
  - intros k Hk.
    repeat (apply elem_of_cons in Hk as [->|Hk]; [vm_compute; eauto|]).
    by apply elem_of_nil in Hk.
  - intros a b Ha.
    assert (Hargs : _symptoms_args (conf sample_engine)
                    = [(Some "vm down", Some "/node/vm", RED, Some "True")])
      by (vm_compute; reflexivity).
    rewrite Hargs in Ha.
    apply elem_of_cons in Ha as [->|Ha]; [vm_compute; eauto|by apply elem_of_nil in Ha].
  - vm_compute. constructor.
  - vm_compute. constructor.
Defined.

(** [update_metrics_keeps_graph] at the refresh of the reconciled sample
    graph, which turns the powered-off VM inactive. *)
Lemma update_metrics_keeps_graph_witness :
  erase_active sample_refreshed_graph.1 = erase_active (root sample_reconciled).
Proof.
  apply (update_metrics_keeps_graph sample_adapter "Linux" None (root sample_reconciled)
           sample_refreshed_graph.1 (_data sample_reconciled) sample_refreshed_graph.2).
  vm_compute. reflexivity.
Defined.


(** [contains_by_type] at the reconciled sample graph. *)
Lemma contains_by_type_witness :
  Subservice_contains (root sample_reconciled) "bm" = true
  ∧ (Subservice_contains (root sample_reconciled) "vm" = true
     ↔ names_of CVM (root sample_reconciled) ≠ [])
  ∧ (Subservice_contains (root sample_reconciled) "kb" = true
     ↔ names_of CKBNet (root sample_reconciled) ≠ []).
Proof.
  apply (contains_by_type (root sample_reconciled)).
  apply (reconcile_graph_ok 20 sample_Symptom_init sample_time elements
           (λ S, reflexivity (elements S)) sample_engine sample_reconciled);
    [vm_compute; reflexivity|].
  apply (HealthEngine_init_graph_ok 20 sample_Symptom_init sample_time sample_safe_rule
           sample_raw sample_lookup ["ssh"; "total"; "free"] sample_rules "Linux" "host").
  vm_compute. reflexivity.
Defined.

(** [graph_invariant] at the sample engine and its first cycle. *)
Lemma graph_invariant_witness : graph_ok (root sample_cycled).
Proof.
  destruct (graph_invariant 20 sample_Symptom_init sample_time elements
              (λ S, reflexivity (elements S)) sample_safe_rule sample_adapter sample_check
              sample_raw sample_lookup ["ssh"; "total"; "free"] sample_rules "Linux" "host"
              sample_engine) as [Hinit Hstep].
  apply (Hstep sample_engine sample_cycled).
  - apply Hinit. vm_compute. reflexivity.
  - vm_compute. reflexivity.
Defined.


(** [get_symptoms_bound] at the bare-metal node, to which the sample rule
    is not bound. *)
Lemma get_symptoms_bound_witness :
  get_symptoms sample_Symptom_init (_symptoms_args (conf sample_engine))
    "/node/bm" "/node[name=host]/bm" = OK [].
Proof.
  apply (proj2 (get_symptoms_bound sample_Symptom_init
                  (_symptoms_args (conf sample_engine)) "/node/bm" "/node[name=host]/bm")).
  apply (bool_decide_unpack _). vm_compute. reflexivity.
Defined.

(** [adapters_write_own_scope] at the first refresh of the sample cpu: the
    producer's scope is as it was. *)
Lemma adapters_write_own_scope_witness :
  sample_stat_after !! "stat/cpu" = sample_stat !! "stat/cpu".
Proof.
  destruct (adapters_write_own_scope 20 sample_dict_iter sample_conf None
              sample_stat sample_stat_after) as (_ & _ & _ & _ & Hcpu).
  apply Hcpu; [vm_compute; reflexivity|discriminate].
Defined.

(** [bm_cpu_new_label_raises] at the sample store after a second cpu was
    published. *)
Lemma bm_cpu_new_label_raises_witness :
  ∃ e, _update_metrics_linux_bm_cpu 20 sample_dict_iter sample_conf sample_stat_grown
         = Raise e.
Proof.
  eapply (bm_cpu_new_label_raises 20 sample_dict_iter (λ d, reflexivity (elements (dom d)))
            sample_conf sample_stat_grown _ _ "cpu1").
  - vm_compute. reflexivity.
  - vm_compute. reflexivity.
  - vm_compute. eauto.
  - vm_compute. reflexivity.
Defined.

(** [bm_cpu_first_refresh] at the sample store with one cpu. *)
Lemma bm_cpu_first_refresh_witness :
  ∃ stat d', sample_stat !! "stat/cpu" = Some (VDict stat) ∧
    sample_stat_after !! "/node/bm/cpu" = Some (VDict d') ∧ dom d' = dom stat.
Proof.
  apply (bm_cpu_first_refresh 20 sample_dict_iter (λ d, reflexivity (elements (dom d)))
           sample_conf sample_stat sample_stat_after).
  - reflexivity.
  - vm_compute. reflexivity.
Defined.

(** [bm_net_interfaces] at a store where [eth0] went away and [eth1] came
    up. *)
Lemma bm_net_interfaces_witness :
  ∃ v_dev current v_if,
    sample_net !! "net/dev" = Some v_dev ∧ keys v_dev = OK current ∧
    sample_net_after !! "/node/bm/net/if" = Some v_if ∧ keys v_if = OK current.
Proof.
  apply (bm_net_interfaces 20 sample_dict_iter elements (λ S, reflexivity (elements S))
           sample_conf sample_net sample_net_after).
  vm_compute. reflexivity.
Defined.

(** [update_health_publishes] at the first cycle of the sample engine. *)
Lemma update_health_publishes_witness :
  ∃ sy hs,
    _data sample_cycled !! "symptoms" = Some (VSymptoms sy) ∧
    _data sample_cycled !! "health_scores" = Some (VScores hs) ∧
    sy = concat (positive_symptoms <$> post_order (root sample_cycled)) ∧
    dom hs = list_to_set (fullname <$> subservices (root sample_cycled)) ∧
    hs !! fullname (root sample_cycled) = Some (health_score (root sample_cycled)) ∧
    ∀ k v, hs !! k = Some v → 0 ≤ v ≤ 100.
Proof.
  apply (update_health_publishes sample_check 20 sample_Symptom_init sample_time elements
           sample_adapter sample_engine sample_cycled).
  vm_compute. reflexivity.
Defined.

Example sample_net_refreshed :
  ∃ d1 d2 rb1 rb2,
    sample_net_after !! "/node/bm/net/if" = Some (VDict d1) ∧
    d1 !! "eth1" = Some (VDict d2) ∧ d1 !! "eth0" = None ∧
    d2 !! "rx_packets" = Some (VRb rb1) ∧ rb_samples rb1 = [PInt 7] ∧
    d2 !! "gw_in_arp" = Some (VRb rb2) ∧ rb_samples rb2 = [PBool true].
Proof. vm_compute. eauto 12. Qed.
